(** * Dynatrace daily agent: a shallow embedding of [dynatrace_daily_agent.py]

    The module is embedded function by function.  Python [str] values are
    lists of Unicode code points, Python [int] values are [Z], dictionaries
    whose iteration order matters are association lists in insertion order,
    and everything that touches the outside world (HTTP requests, the
    [osascript] command, logging, printing, files, the clock) goes through an
    explicit [environment] of oracles and a [world] that records a trace of
    the effects performed. *)

From Stdlib Require Import String Ascii.
From Stdlib Require Import List ZArith Lia Bool Arith.
From Stdlib Require Import DecimalString Permutation Sorted.
Import ListNotations.

Local Open Scope Z_scope.

(** ** Python strings *)

Module PyStr.

(** A Python [str] is a sequence of code points. *)
Abbreviation codepoint := N.
Definition pystr := list codepoint.

(** An ASCII literal of the source, as code points. *)
Fixpoint lit (s : String.string) : pystr :=
  match s with
  | String.EmptyString => []
  | String.String a r => N_of_ascii a :: lit r
  end.

Definition nl : pystr := [10%N].
Definition dquote : pystr := [34%N].
Definition squote : pystr := [39%N].
Definition backslash : pystr := [92%N].

Definition pystr_eqb (a b : pystr) : bool :=
  if list_eq_dec N.eq_dec a b then true else false.

(** [str.join]: [sep.join(parts)]. *)
Fixpoint join (sep : pystr) (parts : list pystr) : pystr :=
  match parts with
  | [] => []
  | [p] => p
  | p :: rest => p ++ sep ++ join sep rest
  end.

(** A block of source lines, joined by newlines, as in a triple-quoted
    literal. *)
Definition lines (ls : list pystr) : pystr := join nl ls.

(** [c * n] for a one-character string [c]. *)
Definition repeat_str (c : pystr) (n : nat) : pystr := concat (repeat c n).

(** [str(n)] for an [int]. *)
Definition str_of_int (z : Z) : pystr := lit (NilZero.string_of_int (Z.to_int z)).

(** [s.startswith(p)]. *)
Fixpoint startswith (s p : pystr) : bool :=
  match p, s with
  | [], _ => true
  | _ :: _, [] => false
  | c :: p', d :: s' => N.eqb c d && startswith s' p'
  end.

(** [needle in hay] for strings: the substring test. *)
Fixpoint py_in (needle hay : pystr) : bool :=
  startswith hay needle ||
  match hay with
  | [] => false
  | _ :: hay' => py_in needle hay'
  end.

(** [s.replace(c, by)] for a one-character pattern [c]. *)
Definition replace_char (c : codepoint) (by_ : pystr) (s : pystr) : pystr :=
  flat_map (fun d => if N.eqb d c then by_ else [d]) s.

(** [str.isspace] on one code point: the Unicode white space that
    [str.strip()] removes. *)
Definition py_isspace (c : codepoint) : bool :=
  ((9 <=? c) && (c <=? 13) || (28 <=? c) && (c <=? 32) ||
   (c =? 133) || (c =? 160) || (c =? 5760) ||
   (8192 <=? c) && (c <=? 8202) || (c =? 8232) || (c =? 8233) ||
   (c =? 8239) || (c =? 8287) || (c =? 12288))%N.

Fixpoint dropwhile {A} (f : A -> bool) (l : list A) : list A :=
  match l with
  | [] => []
  | x :: r => if f x then dropwhile f r else l
  end.

Definition lstrip_by (f : codepoint -> bool) (s : pystr) : pystr := dropwhile f s.
Definition rstrip_by (f : codepoint -> bool) (s : pystr) : pystr :=
  rev (dropwhile f (rev s)).
Definition strip_by (f : codepoint -> bool) (s : pystr) : pystr :=
  rstrip_by f (lstrip_by f s).

(** [s.strip()]. *)
Definition strip (s : pystr) : pystr := strip_by py_isspace s.
(** [s.strip(chars)] and [s.rstrip(chars)]. *)
Definition strip_chars (chars s : pystr) : pystr :=
  strip_by (fun c => existsb (N.eqb c) chars) s.
Definition rstrip_chars (chars s : pystr) : pystr :=
  rstrip_by (fun c => existsb (N.eqb c) chars) s.

(** [s.split(sep, 1)] for a one-character separator: the text before the
    first separator and the text after it, or the whole string alone. *)
Fixpoint split_once (sep : codepoint) (s : pystr) : pystr * option pystr :=
  match s with
  | [] => ([], None)
  | c :: r =>
      if N.eqb c sep then ([], Some r)
      else let '(k, v) := split_once sep r in (c :: k, v)
  end.

(** [s[:n]]. *)
Definition slice_to {A} (n : nat) (s : list A) : list A := firstn n s.

End PyStr.
Export PyStr.

(** ** Data model *)

(** The module-level [CONFIG] dictionary. *)
Record config := {
  DYNATRACE_TENANT_URL : pystr;
  DYNATRACE_API_TOKEN : pystr;
  IMESSAGE_RECIPIENT : pystr;
  PROBLEM_LOOKBACK_HOURS : Z;
  CHECK_ONEAGENT_HEALTH : bool;
  CHECK_ACTIVEGATE_HEALTH : bool;
  CHECK_SYNTHETIC_MONITORS : bool;
  LOG_FILE : pystr
}.

(** The entities the API returns are typed as its documentation types
    them: a key that is present holds a string (or a boolean flag), and
    [None] stands for a key that is absent.  An answer of another shape is
    not a value of these records; its use raises, which [HttpRaises] below
    stands for. *)

(** One entry of the ["problems"] array. *)
Record ProblemRecord := {
  title : option pystr;
  severityLevel : option pystr
}.

(** The ["properties"] object of a host entity, and the entity. *)
Record HostProperties := {
  monitoringMode : option pystr;
  installerVersion : option pystr
}.
Record HostEntity := { properties : option HostProperties }.

(** One entry of ["activeGates"] and of ["monitors"]. *)
Record GatewayStatus := { connected : option bool }.
Record SyntheticMonitor := { enabled : option bool }.

(** The JSON mapping a request returns.  A key that is absent is [None];
    the empty mapping [{}] has every key absent. *)
Record api_data := {
  data_problems : option (list ProblemRecord);
  data_entities : option (list HostEntity);
  data_activeGates : option (list GatewayStatus);
  data_monitors : option (list SyntheticMonitor)
}.

Definition empty_data : api_data :=
  {| data_problems := None; data_entities := None;
     data_activeGates := None; data_monitors := None |}.

(** [d.get(key, default)] on an optional field. *)
Definition get_default {A} (o : option A) (default : A) : A :=
  match o with Some a => a | None => default end.

(** An exception, as its [str(e)]. *)
Record exn := Exception { str_of_exn : pystr }.

(** What [requests.get(...)], [raise_for_status()] and [json()] come to:
    a parsed body, a [RequestException], or any other exception escaping
    the request or the use of an ill-shaped body. *)
Inductive http_result :=
| HttpJson (data : api_data)
| HttpRequestException (e : exn)
| HttpRaises (e : exn).

(** What [subprocess.run(..., timeout=30)] comes to. *)
Inductive run_result :=
| Completed (returncode : Z) (stderr : pystr)
| TimeoutExpired (e : exn)
| RunRaises (e : exn).

Inductive log_level := LInfo | LWarning | LError.

(** Effects, in the order they happen. *)
Inductive event :=
| EvHttpGet (url : pystr) (headers : list (pystr * pystr))
    (params : option (list (pystr * pystr)))
| EvOsascript (script : pystr)
| EvLog (level : log_level) (msg : pystr)
| EvPrint (text : pystr)
| EvMakedirs (path : pystr)
| EvWriteFile (path : pystr) (content : pystr).

(** The outside world the module talks to. *)
Record environment := {
  (** [requests.get(url, headers=..., params=..., timeout=30)] and the
      decoding of its response *)
  requests_get : pystr -> list (pystr * pystr) -> option (list (pystr * pystr)) ->
                 http_result;
  (** [subprocess.run(['osascript', '-e', script], ...)] *)
  osascript : pystr -> run_result;
  (** [datetime.now().strftime("%Y-%m-%d %H:%M IST")] *)
  now_report : pystr;
  (** [datetime.now().isoformat()] *)
  now_iso : pystr;
  (** [datetime.now().strftime('%Y%m%d_%H%M%S')] *)
  now_backup : pystr;
  (** [(datetime.utcnow() - timedelta(hours=h)).strftime("%Y-%m-%dT%H:%M:%SZ")] *)
  utc_from : Z -> pystr;
  (** [os.path.expanduser] and [os.path.dirname] *)
  expanduser : pystr -> pystr;
  dirname : pystr -> pystr;
  (** the lines of [~/dynatrace_agent/config.env], when the file exists *)
  config_file : option (list pystr);
  (** the error the platform raises for [os.environ[key] = value], for
      [os.makedirs(path, exist_ok=True)] and for writing [content] to
      [path], if any *)
  os_putenv : pystr -> pystr -> option exn;
  os_makedirs : pystr -> option exn;
  write_file : pystr -> pystr -> option exn
}.

(** The mutable state of the process: the global [CONFIG], [os.environ],
    and the trace of effects. *)
Record world := {
  CONFIG : config;
  os_environ : list (pystr * pystr);
  trace : list event
}.

(** ** A state and exception monad *)

Inductive result (A : Type) :=
| Ok (a : A)
| Raise (e : exn).
Arguments Ok {A} a.
Arguments Raise {A} e.

Definition M (S A : Type) : Type := S -> result A * S.

Definition ret {S A} (a : A) : M S A := fun s => (Ok a, s).
Definition raise {S A} (e : exn) : M S A := fun s => (Raise e, s).
Definition bind {S A B} (m : M S A) (k : A -> M S B) : M S B :=
  fun s => match m s with
           | (Ok a, s') => k a s'
           | (Raise e, s') => (Raise e, s')
           end.
Definition gets {S A} (f : S -> A) : M S A := fun s => (Ok (f s), s).
Definition modify {S} (f : S -> S) : M S unit := fun s => (Ok tt, f s).

(** [try: m except Exception as e: h e]. *)
Definition try_except {S A} (m : M S A) (h : exn -> M S A) : M S A :=
  fun s => match m s with
           | (Ok a, s') => (Ok a, s')
           | (Raise e, s') => h e s'
           end.

Notation "x <- m ;; k" := (bind m (fun x => k))
  (at level 61, m at next level, right associativity).
Notation "m ;;; k" := (bind m (fun _ => k))
  (at level 61, right associativity).

Definition emit_world (ev : event) (w : world) : world :=
  {| CONFIG := CONFIG w; os_environ := os_environ w; trace := trace w ++ [ev] |}.

(** ** Symbols used in the messages *)

Definition red_circle : pystr := [128308%N].
Definition green_circle : pystr := [128994%N].
Definition yellow_circle : pystr := [128993%N].
Definition warning_sign : pystr := [9888%N; 65039%N].
Definition bell : pystr := [128276%N].
Definition calendar : pystr := [128197%N].
Definition cross_mark : pystr := [10060%N].
Definition bar_chart : pystr := [128202%N].
Definition desktop : pystr := [128421%N; 65039%N].
Definition globe : pystr := [127760%N].
Definition newspaper : pystr := [128240%N].
Definition books : pystr := [128218%N].
Definition bullet : pystr := [8226%N].

(** ** Logging and the notifier *)

Definition logger (level : log_level) (msg : pystr) : M world unit :=
  modify (emit_world (EvLog level msg)).

Section Program.

Variable E : environment.

(** The AppleScript of [send_imessage]. *)
Definition primary_script (recipient message : pystr) : pystr :=
  lines [
    [];
    lit "    tell application " ++ dquote ++ lit "Messages" ++ dquote;
    lit "        set targetService to 1st service whose service type = iMessage";
    lit "        set targetBuddy to buddy " ++ dquote ++ recipient ++ dquote
      ++ lit " of targetService";
    lit "        send " ++ dquote ++ message ++ dquote ++ lit " to targetBuddy";
    lit "    end tell";
    lit "    " ].

(** The AppleScript of [send_imessage_fallback]. *)
Definition fallback_script (recipient message : pystr) : pystr :=
  lines [
    [];
    lit "    tell application " ++ dquote ++ lit "Messages" ++ dquote;
    lit "        activate";
    lit "        delay 0.5";
    lit "    end tell";
    lit "    ";
    lit "    tell application " ++ dquote ++ lit "System Events" ++ dquote;
    lit "        tell process " ++ dquote ++ lit "Messages" ++ dquote;
    lit "            keystroke " ++ dquote ++ lit "n" ++ dquote ++ lit " using command down";
    lit "            delay 0.3";
    lit "            keystroke " ++ dquote ++ recipient ++ dquote;
    lit "            delay 0.3";
    lit "            key code 36";
    lit "            delay 0.3";
    lit "            keystroke " ++ dquote ++ message ++ dquote;
    lit "            delay 0.2";
    lit "            key code 36";
    lit "        end tell";
    lit "    end tell";
    lit "    " ].

(** [subprocess.run(['osascript', '-e', applescript], ...)]: the call is
    recorded, then its outcome is the environment's. *)
Definition subprocess_run (applescript : pystr) : M world run_result :=
  modify (emit_world (EvOsascript applescript)) ;;;
  ret (osascript E applescript).

Definition send_imessage_fallback (recipient message : pystr) : M world bool :=
  let applescript := fallback_script recipient message in
  result <- subprocess_run applescript ;;
  match result with
  | Completed returncode _ => ret (returncode =? 0)
  | TimeoutExpired e | RunRaises e =>
      logger LError (lit "Fallback iMessage error: " ++ str_of_exn e) ;;;
      ret false
  end.

Definition send_imessage (recipient message : pystr) : M world bool :=
  let message :=
    replace_char 39 (backslash ++ squote)
      (replace_char 34 (backslash ++ dquote) message) in
  let applescript := primary_script recipient message in
  result <- subprocess_run applescript ;;
  match result with
  | Completed returncode stderr =>
      if returncode =? 0 then
        logger LInfo (lit "iMessage sent successfully to " ++ recipient) ;;;
        ret true
      else
        logger LError (lit "iMessage failed: " ++ stderr) ;;;
        send_imessage_fallback recipient message
  | TimeoutExpired _ =>
      logger LError (lit "iMessage send timed out") ;;;
      ret false
  | RunRaises e =>
      logger LError (lit "iMessage error: " ++ str_of_exn e) ;;;
      ret false
  end.

(** ** The API client *)

Record DynatraceClient := {
  base_url : pystr;
  headers : list (pystr * pystr)
}.

Definition DynatraceClient_init (tenant_url api_token : pystr) : DynatraceClient :=
  {| base_url := rstrip_chars (lit "/") tenant_url;
     headers := [ (lit "Authorization", lit "Api-Token " ++ api_token);
                  (lit "Content-Type", lit "application/json") ] |}.

Definition _get (c : DynatraceClient) (endpoint : pystr)
    (params : option (list (pystr * pystr))) : M world api_data :=
  let url := base_url c ++ lit "/api/v2/" ++ endpoint in
  modify (emit_world (EvHttpGet url (headers c) params)) ;;;
  match requests_get E url (headers c) params with
  | HttpJson data => ret data
  | HttpRequestException e =>
      logger LError (lit "API request failed: " ++ str_of_exn e) ;;;
      ret empty_data
  | HttpRaises e => raise e
  end.

Definition problems_params (hours : Z) : list (pystr * pystr) :=
  [ (lit "from", utc_from E hours);
    (lit "problemSelector", lit "status(" ++ dquote ++ lit "open" ++ dquote ++ lit ")") ].

Definition get_problems (c : DynatraceClient) (hours : Z) : M world api_data :=
  _get c (lit "problems") (Some (problems_params hours)).

Definition get_hosts (c : DynatraceClient) : M world api_data :=
  _get c (lit "entities")
    (Some [ (lit "entitySelector", lit "type(HOST)");
            (lit "fields", lit "+properties.monitoringMode,+properties.state") ]).

Definition oneagent_params : list (pystr * pystr) :=
  [ (lit "entitySelector", lit "type(HOST)");
    (lit "fields", lit "+properties.installerVersion,+properties.monitoringMode") ].

Definition get_oneagent_info (c : DynatraceClient) : M world api_data :=
  _get c (lit "entities") (Some oneagent_params).

Definition get_activegates (c : DynatraceClient) : M world api_data :=
  _get c (lit "activeGates") None.

Definition get_synthetic_monitors (c : DynatraceClient) : M world api_data :=
  _get c (lit "synthetic/monitors") None.

Definition get_settings (c : DynatraceClient) (schema_id : pystr) : M world api_data :=
  _get c (lit "settings/objects") (Some [ (lit "schemaIds", schema_id) ]).


(** ** The analyzer *)

(** Python dictionaries with string keys, in insertion order. *)
Definition dict (V : Type) := list (pystr * V).

Fixpoint dict_get {V} (d : dict V) (k : pystr) : option V :=
  match d with
  | [] => None
  | (k', v) :: r => if pystr_eqb k' k then Some v else dict_get r k
  end.

(** [d[k] = v]: an existing key keeps its place, a new one goes last. *)
Fixpoint dict_set {V} (d : dict V) (k : pystr) (v : V) : dict V :=
  match d with
  | [] => [(k, v)]
  | (k', v') :: r =>
      if pystr_eqb k' k then (k', v) :: r else (k', v') :: dict_set r k v
  end.

(** [dict(items)]. *)
Definition dict_of_items {V} (items : list (pystr * V)) : dict V :=
  fold_left (fun d kv => dict_set d (fst kv) (snd kv)) items [].

(** [len(x)] as a Python [int]. *)
Definition len {A} (l : list A) : Z := Z.of_nat (length l).

(** [sorted(items, key=lambda x: x[1], reverse=True)]: a stable sort, so
    entries with equal counts keep their order. *)
Fixpoint insert_desc (x : pystr * Z) (l : list (pystr * Z)) : list (pystr * Z) :=
  match l with
  | [] => [x]
  | y :: r => if snd y <=? snd x then x :: l else y :: insert_desc x r
  end.

Definition sorted_desc (items : list (pystr * Z)) : list (pystr * Z) :=
  fold_right insert_desc [] items.

Record problem_detail := {
  detail_title : option pystr;
  detail_severity : option pystr
}.

(** The dictionary a check returns. *)
Inductive check_report :=
| Skipped
| ProblemsReport (total critical warnings : Z) (details : list problem_detail)
| FleetReport (total_hosts : Z) (monitoring_modes : dict Z)
    (version_count : Z) (top_versions : dict Z)
| GatewayReport (total connected offline : Z)
| SyntheticReport (total enabled disabled : Z).

(** The integer stored under [key], if the report has that key. *)
Definition report_int (r : check_report) (key : string) : option Z :=
  match r with
  | Skipped => None
  | ProblemsReport total critical warnings _ =>
      if String.eqb key "total" then Some total
      else if String.eqb key "critical" then Some critical
      else if String.eqb key "warnings" then Some warnings
      else None
  | FleetReport total_hosts _ version_count _ =>
      if String.eqb key "total_hosts" then Some total_hosts
      else if String.eqb key "version_count" then Some version_count
      else None
  | GatewayReport total connected offline =>
      if String.eqb key "total" then Some total
      else if String.eqb key "connected" then Some connected
      else if String.eqb key "offline" then Some offline
      else None
  | SyntheticReport total enabled disabled =>
      if String.eqb key "total" then Some total
      else if String.eqb key "enabled" then Some enabled
      else if String.eqb key "disabled" then Some disabled
      else None
  end.

Record summary_dict := {
  health_score : Z;
  status : pystr;
  issues_count : Z;
  summary_issues : list pystr
}.

Record results_dict := {
  timestamp : pystr;
  problems : check_report;
  oneagent : check_report;
  activegate : check_report;
  synthetic : check_report;
  summary : option summary_dict
}.

Record ArchitectureAnalyzer := {
  client : DynatraceClient;
  issues : list pystr;
  metrics : dict Z
}.

Definition ArchitectureAnalyzer_init (c : DynatraceClient) : ArchitectureAnalyzer :=
  {| client := c; issues := []; metrics := [] |}.

(** The state a method of the analyzer runs in: the object and the world. *)
Record astate := { self : ArchitectureAnalyzer; the_world : world }.

Definition in_world {A} (m : M world A) : M astate A :=
  fun s => let '(r, w') := m (the_world s) in
           (r, {| self := self s; the_world := w' |}).

(** [self.issues.append(issue)]. *)
Definition issues_append (issue : pystr) : M astate unit :=
  modify (fun s =>
    {| self := {| client := client (self s);
                  issues := issues (self s) ++ [issue];
                  metrics := metrics (self s) |};
       the_world := the_world s |}).

Definition config_of (s : astate) : config := CONFIG (the_world s).

(** [x == lit] for the value of an optional key. *)
Definition opt_eqb (x : option pystr) (s : pystr) : bool :=
  match x with Some v => pystr_eqb v s | None => false end.

Definition _analyze_problems : M astate check_report :=
  hours <- gets (fun s => PROBLEM_LOOKBACK_HOURS (config_of s)) ;;
  c <- gets (fun s => client (self s)) ;;
  data <- in_world (get_problems c hours) ;;
  let problems := get_default (data_problems data) [] in
  let critical := filter (fun p => opt_eqb (severityLevel p) (lit "ERROR")) problems in
  let warnings := filter (fun p => opt_eqb (severityLevel p) (lit "WARNING")) problems in
  (if len critical >? 0 then
     issues_append (red_circle ++ lit " " ++ str_of_int (len critical)
                    ++ lit " critical problems detected")
   else ret tt) ;;;
  ret (ProblemsReport (len problems) (len critical) (len warnings)
         (map (fun p => {| detail_title := title p;
                           detail_severity := severityLevel p |})
              (slice_to 5 problems))).

(** The mode and the version an entity is tallied under. *)
Definition entity_props (entity : HostEntity) : HostProperties :=
  get_default (properties entity)
    {| monitoringMode := None; installerVersion := None |}.
Definition entity_mode (entity : HostEntity) : pystr :=
  get_default (monitoringMode (entity_props entity)) (lit "unknown").
Definition entity_version (entity : HostEntity) : pystr :=
  get_default (installerVersion (entity_props entity)) (lit "unknown").

(** [d[k] = d.get(k, 0) + 1]. *)
Definition tally (d : dict Z) (k : pystr) : dict Z :=
  dict_set d k (get_default (dict_get d k) 0 + 1).

(** The loop of [_analyze_oneagent] over the entities, on the pair
    [(monitoring_modes, versions)]. *)
Definition tally_entities (entities : list HostEntity) : dict Z * dict Z :=
  fold_left
    (fun acc entity =>
       let mode := entity_mode entity in
       let version := entity_version entity in
       (tally (fst acc) mode, tally (snd acc) version))
    entities ([], []).

Definition _analyze_oneagent : M astate check_report :=
  enabled_ <- gets (fun s => CHECK_ONEAGENT_HEALTH (config_of s)) ;;
  if negb enabled_ then ret Skipped
  else
    c <- gets (fun s => client (self s)) ;;
    data <- in_world (get_oneagent_info c) ;;
    let entities := get_default (data_entities data) [] in
    let total_hosts := len entities in
    let '(monitoring_modes, versions) := tally_entities entities in
    (if len versions >? 3 then
       issues_append (warning_sign ++ lit " OneAgent version fragmentation: "
                      ++ str_of_int (len versions) ++ lit " different versions")
     else ret tt) ;;;
    ret (FleetReport total_hosts monitoring_modes (len versions)
           (dict_of_items (slice_to 3 (sorted_desc versions)))).

(** [sum(1 for x in l if flag(x))] with [flag(x) = x.get(key, False)]. *)
Definition count_true {A} (flag : A -> option bool) (l : list A) : Z :=
  len (filter (fun x => get_default (flag x) false) l).

Definition _analyze_activegate : M astate check_report :=
  enabled_ <- gets (fun s => CHECK_ACTIVEGATE_HEALTH (config_of s)) ;;
  if negb enabled_ then ret Skipped
  else
    c <- gets (fun s => client (self s)) ;;
    data <- in_world (get_activegates c) ;;
    let activegates := get_default (data_activeGates data) [] in
    let total := len activegates in
    let connected_ := count_true connected activegates in
    let offline := total - connected_ in
    (if offline >? 0 then
       issues_append (red_circle ++ lit " " ++ str_of_int offline
                      ++ lit " ActiveGate(s) offline")
     else ret tt) ;;;
    ret (GatewayReport total connected_ offline).

Definition _analyze_synthetic : M astate check_report :=
  enabled_ <- gets (fun s => CHECK_SYNTHETIC_MONITORS (config_of s)) ;;
  if negb enabled_ then ret Skipped
  else
    c <- gets (fun s => client (self s)) ;;
    data <- in_world (get_synthetic_monitors c) ;;
    let monitors := get_default (data_monitors data) [] in
    let enabled_count := count_true enabled monitors in
    let disabled := len monitors - enabled_count in
    ret (SyntheticReport (len monitors) enabled_count disabled).

Definition status_healthy : pystr := green_circle ++ lit " Healthy".
Definition status_needs_attention : pystr := yellow_circle ++ lit " Needs Attention".
Definition status_critical : pystr := red_circle ++ lit " Critical".

Definition _generate_summary (results : results_dict) : M astate summary_dict :=
  let health_score := 100 in
  let problems := problems results in
  let health_score := health_score - get_default (report_int problems "critical") 0 * 10 in
  let health_score := health_score - get_default (report_int problems "warnings") 0 * 2 in
  let ag := activegate results in
  let health_score := health_score - get_default (report_int ag "offline") 0 * 15 in
  let health_score := Z.max 0 (Z.min 100 health_score) in
  let status :=
    if health_score >=? 90 then status_healthy
    else if health_score >=? 70 then status_needs_attention
    else status_critical in
  self_issues <- gets (fun s => issues (self s)) ;;
  ret {| health_score := health_score;
         status := status;
         issues_count := len self_issues;
         summary_issues := self_issues |}.

Definition with_summary (results : results_dict) (s : summary_dict) : results_dict :=
  {| timestamp := timestamp results; problems := problems results;
     oneagent := oneagent results; activegate := activegate results;
     synthetic := synthetic results; summary := Some s |}.

Definition analyze_all : M astate results_dict :=
  in_world (logger LInfo (lit "Starting architecture analysis...")) ;;;
  let timestamp := now_iso E in
  problems <- _analyze_problems ;;
  oneagent <- _analyze_oneagent ;;
  activegate <- _analyze_activegate ;;
  synthetic <- _analyze_synthetic ;;
  let results :=
    {| timestamp := timestamp; problems := problems; oneagent := oneagent;
       activegate := activegate; synthetic := synthetic; summary := None |} in
  s <- _generate_summary results ;;
  ret (with_summary results s).

(** ** The report *)

Definition fetch_dynatrace_updates : pystr :=
  let updates :=
    [] ++ [newspaper ++ lit " Check docs.dynatrace.com/docs/whats-new for latest updates"] in
  join nl updates.

(** [r[key]]: a [KeyError] when the key is absent. *)
Definition KeyError (key : string) : exn :=
  Exception (squote ++ lit key ++ squote).

Definition report_getitem {S} (r : check_report) (key : string) : M S Z :=
  match report_int r key with
  | Some z => ret z
  | None => raise (KeyError key)
  end.

(** [r.get(key, 'N/A')], formatted. *)
Definition report_get_or_na (r : check_report) (key : string) : pystr :=
  match report_int r key with
  | Some z => str_of_int z
  | None => lit "N/A"
  end.

Definition unconfigured_report (timestamp : pystr) : pystr :=
  lines [
    [];
    bell ++ lit " Dynatrace Daily Report";
    calendar ++ lit " " ++ timestamp;
    [];
    warning_sign ++ lit " SETUP REQUIRED";
    lit "Configure your Dynatrace credentials in:";
    lit "~/dynatrace_agent/config.env";
    [];
    lit "Once configured, you'll receive:";
    bullet ++ lit " Problem summary";
    bullet ++ lit " OneAgent fleet health  ";
    bullet ++ lit " ActiveGate status";
    bullet ++ lit " Architecture analysis";
    bullet ++ lit " Latest DT updates";
    [];
    books ++ lit " Setup guide in README.md";
    [] ].

Definition error_report (timestamp : pystr) (e : exn) : pystr :=
  lines [
    [];
    bell ++ lit " Dynatrace Daily Report";
    calendar ++ lit " " ++ timestamp;
    [];
    cross_mark ++ lit " Error fetching data";
    slice_to 100 (str_of_exn e);
    [];
    lit "Check logs: ~/Library/Logs/dynatrace_agent.log";
    [] ].

Definition normal_report (timestamp status : pystr)
    (score critical warnings total : Z) (oneagent activegate : check_report) : pystr :=
  lines [
    [];
    bell ++ lit " Dynatrace Daily Report";
    calendar ++ lit " " ++ timestamp;
    [];
    status ++ lit " | Score: " ++ str_of_int score ++ lit "/100";
    [];
    bar_chart ++ lit " PROBLEMS (24h)";
    bullet ++ lit " Critical: " ++ str_of_int critical;
    bullet ++ lit " Warnings: " ++ str_of_int warnings;
    bullet ++ lit " Total: " ++ str_of_int total;
    [];
    desktop ++ lit " ONEAGENT FLEET";
    bullet ++ lit " Total Hosts: " ++ report_get_or_na oneagent "total_hosts";
    bullet ++ lit " Versions in use: " ++ report_get_or_na oneagent "version_count";
    [];
    globe ++ lit " ACTIVEGATES";
    bullet ++ lit " Connected: " ++ report_get_or_na activegate "connected"
      ++ lit "/" ++ report_get_or_na activegate "total";
    [];
    [] ].

(** The lines added for the issues: a header and at most five bullets. *)
Definition issues_block (issues : list pystr) : pystr :=
  match issues with
  | [] => []
  | _ :: _ =>
      warning_sign ++ lit " ISSUES:" ++ nl
      ++ concat (map (fun issue => bullet ++ lit " " ++ issue ++ nl) (slice_to 5 issues))
  end.

(** The body of the [try] block of [generate_daily_report]. *)
Definition real_mode_report (timestamp : pystr) : M world pystr :=
  url <- gets (fun w => DYNATRACE_TENANT_URL (CONFIG w)) ;;
  token <- gets (fun w => DYNATRACE_API_TOKEN (CONFIG w)) ;;
  let client := DynatraceClient_init url token in
  let analyzer := ArchitectureAnalyzer_init client in
  results <- (fun w => let '(r, s) := analyze_all {| self := analyzer; the_world := w |} in
                       (r, the_world s)) ;;
  summary <- match summary results with
             | Some s => ret s
             | None => raise (KeyError "status")
             end ;;
  let problems := problems results in
  let oneagent := oneagent results in
  let activegate := activegate results in
  critical <- report_getitem problems "critical" ;;
  warnings <- report_getitem problems "warnings" ;;
  total <- report_getitem problems "total" ;;
  let report :=
    normal_report timestamp (status summary) (health_score summary)
      critical warnings total oneagent activegate in
  let report := report ++ issues_block (summary_issues summary) in
  let report := report ++ nl ++ fetch_dynatrace_updates in
  ret report.

(** The test of [generate_daily_report] for credentials still unset. *)
Definition credentials_unconfigured (c : config) : bool :=
  py_in (lit "YOUR_") (DYNATRACE_TENANT_URL c)
  || py_in (lit "YOUR_") (DYNATRACE_API_TOKEN c).

Definition generate_daily_report : M world pystr :=
  let timestamp := now_report E in
  unconfigured <- gets (fun w => credentials_unconfigured (CONFIG w)) ;;
  report <-
    (if unconfigured then ret (unconfigured_report timestamp)
     else
       try_except (real_mode_report timestamp)
         (fun e =>
            logger LError (lit "Error generating report: " ++ str_of_exn e) ;;;
            ret (error_report timestamp e))) ;;
  ret (strip report).

(** ** Main execution *)

(** [os.environ.get(key, default)]. *)
Definition os_environ_get (w : world) (key : string) (default : pystr) : pystr :=
  get_default (dict_get (os_environ w) (lit key)) default.

(** [os.environ[key] = value]. *)
Definition os_environ_set (key value : pystr) : M world unit :=
  match os_putenv E key value with
  | Some e => raise e
  | None =>
      modify (fun w => {| CONFIG := CONFIG w;
                          os_environ := dict_set (os_environ w) key value;
                          trace := trace w |})
  end.

(** One iteration of the loop over the lines of the configuration file. *)
Definition load_config_line (line : pystr) : M world unit :=
  let line := strip line in
  match line with
  | [] => ret tt
  | _ :: _ =>
      if negb (startswith line (lit "#")) && py_in (lit "=") line then
        match split_once 61 line with
        | (key, Some value) =>
            os_environ_set (strip key)
              (strip_chars squote (strip_chars dquote (strip value)))
        | (_, None) => ret tt
        end
      else ret tt
  end.

Fixpoint for_each {S A} (f : A -> M S unit) (l : list A) : M S unit :=
  match l with
  | [] => ret tt
  | x :: r => f x ;;; for_each f r
  end.

(** The three values [main] reloads from [os.environ]. *)
Definition reload_config (w : world) : world :=
  let c := CONFIG w in
  {| CONFIG :=
       {| DYNATRACE_TENANT_URL :=
            os_environ_get w "DYNATRACE_TENANT_URL" (DYNATRACE_TENANT_URL c);
          DYNATRACE_API_TOKEN :=
            os_environ_get w "DYNATRACE_API_TOKEN" (DYNATRACE_API_TOKEN c);
          IMESSAGE_RECIPIENT :=
            os_environ_get w "IMESSAGE_RECIPIENT" (IMESSAGE_RECIPIENT c);
          PROBLEM_LOOKBACK_HOURS := PROBLEM_LOOKBACK_HOURS c;
          CHECK_ONEAGENT_HEALTH := CHECK_ONEAGENT_HEALTH c;
          CHECK_ACTIVEGATE_HEALTH := CHECK_ACTIVEGATE_HEALTH c;
          CHECK_SYNTHETIC_MONITORS := CHECK_SYNTHETIC_MONITORS c;
          LOG_FILE := LOG_FILE c |};
     os_environ := os_environ w;
     trace := trace w |}.

(** The part of [main] that loads [~/dynatrace_agent/config.env]. *)
Definition load_config_file : M world unit :=
  let config_file_path := expanduser E (lit "~/dynatrace_agent/config.env") in
  match config_file E with
  | None => ret tt
  | Some content =>
      logger LInfo (lit "Loading config from " ++ config_file_path) ;;;
      for_each load_config_line content ;;;
      modify reload_config
  end.

(** [os.makedirs(path, exist_ok=True)] and [open(path, 'w').write(content)]. *)
Definition makedirs (path : pystr) : M world unit :=
  modify (emit_world (EvMakedirs path)) ;;;
  match os_makedirs E path with Some e => raise e | None => ret tt end.

Definition write_text (path content : pystr) : M world unit :=
  modify (emit_world (EvWriteFile path content)) ;;;
  match write_file E path content with Some e => raise e | None => ret tt end.

Definition print (text : pystr) : M world unit :=
  modify (emit_world (EvPrint text)).

Definition banner : pystr := repeat_str (lit "=") 50.

(** The test of [main] for a recipient still unset. *)
Definition recipient_unconfigured (c : config) : bool :=
  py_in (lit "1234567890") (IMESSAGE_RECIPIENT c).

Definition main : M world unit :=
  logger LInfo banner ;;;
  logger LInfo (lit "Dynatrace Daily Agent Started") ;;;
  logger LInfo banner ;;;
  load_config_file ;;;
  report <- generate_daily_report ;;
  logger LInfo (lit "Report generated:" ++ nl ++ report) ;;;
  recipient <- gets (fun w => IMESSAGE_RECIPIENT (CONFIG w)) ;;
  (if py_in (lit "1234567890") recipient then
     logger LWarning (lit "iMessage recipient not configured - printing report only") ;;;
     print (nl ++ banner) ;;;
     print report ;;;
     print banner ;;;
     print (nl ++ warning_sign
            ++ lit "  Configure IMESSAGE_RECIPIENT in config.env to receive iMessage notifications")
   else
     success <- send_imessage recipient report ;;
     if (success : bool) then
       logger LInfo (lit "Daily report sent successfully!")
     else
       logger LError (lit "Failed to send daily report via iMessage") ;;;
       let backup_file :=
         expanduser E (lit "~/dynatrace_agent/reports/" ++ now_backup E ++ lit ".txt") in
       makedirs (dirname E backup_file) ;;;
       write_text backup_file report ;;;
       logger LInfo (lit "Report saved to " ++ backup_file)) ;;;
  logger LInfo (lit "Dynatrace Daily Agent Completed").

End Program.

(** The [CONFIG] the module starts with, from the process environment. *)
Definition initial_CONFIG (environ : dict pystr) (log_file : pystr) : config :=
  {| DYNATRACE_TENANT_URL :=
       get_default (dict_get environ (lit "DYNATRACE_TENANT_URL"))
         (lit "https://YOUR_TENANT.live.dynatrace.com");
     DYNATRACE_API_TOKEN :=
       get_default (dict_get environ (lit "DYNATRACE_API_TOKEN")) (lit "YOUR_API_TOKEN");
     IMESSAGE_RECIPIENT :=
       get_default (dict_get environ (lit "IMESSAGE_RECIPIENT")) (lit "+1234567890");
     PROBLEM_LOOKBACK_HOURS := 24;
     CHECK_ONEAGENT_HEALTH := true;
     CHECK_ACTIVEGATE_HEALTH := true;
     CHECK_SYNTHETIC_MONITORS := true;
     LOG_FILE := log_file |}.

(** * Vocabulary of the properties *)

(** The three counts the summary reads, as [_generate_summary] reads them:
    a key that is absent counts as zero. *)
Definition critical_of (results : results_dict) : Z :=
  get_default (report_int (problems results) "critical") 0.
Definition warnings_of (results : results_dict) : Z :=
  get_default (report_int (problems results) "warnings") 0.
Definition offline_of (results : results_dict) : Z :=
  get_default (report_int (activegate results) "offline") 0.

(** The score before clamping. *)
Definition raw_score (results : results_dict) : Z :=
  100 - 10 * critical_of results - 2 * warnings_of results - 15 * offline_of results.

(** Sample inputs. *)

Definition sample_config : config := initial_CONFIG [] (lit "agent.log").

Definition results_of (problems activegate : check_report) : results_dict :=
  {| timestamp := lit "2026-01-01T11:00:00"; problems := problems;
     oneagent := Skipped; activegate := activegate; synthetic := Skipped;
     summary := None |}.

Definition sample_results_mild : results_dict :=
  results_of (ProblemsReport 3 1 2 []) (GatewayReport 2 2 0).
Definition sample_results_severe : results_dict :=
  results_of (ProblemsReport 60 50 2 []) (GatewayReport 2 1 1).

Definition sample_world : world :=
  {| CONFIG := sample_config; os_environ := []; trace := [] |}.

Definition sample_client : DynatraceClient :=
  DynatraceClient_init (lit "https://abc123.live.dynatrace.com/") (lit "dt0c01.SAMPLE").

Definition sample_astate : astate :=
  {| self := ArchitectureAnalyzer_init sample_client; the_world := sample_world |}.

(** The answer of the API to a request of the analyzer's client. *)
Definition api_answer (E : environment) (s : astate) (endpoint : pystr)
    (params : option (list (pystr * pystr))) : http_result :=
  requests_get E (base_url (client (self s)) ++ lit "/api/v2/" ++ endpoint)
    (headers (client (self s))) params.

(** The number of problems of one severity level. *)
Definition count_severity (sev : string) (P : list ProblemRecord) : Z :=
  Z.of_nat (length (filter (fun p => opt_eqb (severityLevel p) (lit sev)) P)).

Definition critical_issue (n : Z) : pystr :=
  red_circle ++ lit " " ++ str_of_int n ++ lit " critical problems detected".

Definition detail_of (p : ProblemRecord) : problem_detail :=
  {| detail_title := title p; detail_severity := severityLevel p |}.

(** The distinct strings of a list, in the order they are first seen. *)
Fixpoint first_seen (l : list pystr) : list pystr :=
  match l with
  | [] => []
  | x :: r => x :: filter (fun y => negb (pystr_eqb y x)) (first_seen r)
  end.

(** How many times [v] occurs in [l]. *)
Definition occurrences (v : pystr) (l : list pystr) : Z :=
  Z.of_nat (count_occ (list_eq_dec N.eq_dec) l v).

(** The tally of a list of strings: each distinct string with its number
    of occurrences, in first-seen order. *)
Definition tally_of (l : list pystr) : dict Z :=
  map (fun v => (v, occurrences v l)) (first_seen l).

Definition keys {V} (d : dict V) : list pystr := map fst d.
Definition mem (k : pystr) (ks : list pystr) : bool := existsb (pystr_eqb k) ks.
Definition sum_counts (d : dict Z) : Z := fold_right Z.add 0 (map snd d).

(** Descending order on counts, and the entries of one count. *)
Definition count_desc (a b : pystr * Z) : Prop := snd b <= snd a.
Definition with_count (c : Z) (l : list (pystr * Z)) : list (pystr * Z) :=
  filter (fun kv => snd kv =? c) l.

Definition fragmentation_issue (n : Z) : pystr :=
  warning_sign ++ lit " OneAgent version fragmentation: " ++ str_of_int n
  ++ lit " different versions".

(** The version and the mode as the API gave them, before any default. *)
Definition raw_version (e : HostEntity) : option pystr :=
  match properties e with Some p => installerVersion p | None => None end.
Definition raw_mode (e : HostEntity) : option pystr :=
  match properties e with Some p => monitoringMode p | None => None end.

(** The value is absent, or it is [k]. *)
Definition absent_or (o : option pystr) (k : pystr) : bool :=
  match o with None => true | Some v => pystr_eqb v k end.

(** How many elements of a list satisfy a test. *)
Definition count_where {A} (f : A -> bool) (l : list A) : Z :=
  Z.of_nat (length (filter f l)).

(** The number of distinct strings of a list. *)
Definition distinct_count (l : list pystr) : Z :=
  Z.of_nat (length (nodup (list_eq_dec N.eq_dec) l)).

(** A state with more issues, and a state with more events. *)
Definition with_issues (s : astate) (new : list pystr) : astate :=
  {| self := {| client := client (self s);
                issues := issues (self s) ++ new;
                metrics := metrics (self s) |};
     the_world := the_world s |}.

Definition with_events (s : astate) (evs : list event) : astate :=
  {| self := self s;
     the_world := {| CONFIG := CONFIG (the_world s);
                     os_environ := os_environ (the_world s);
                     trace := trace (the_world s) ++ evs |} |}.

(** The request a check of the analyzer sends. *)
Definition request_event (s : astate) (endpoint : pystr)
    (params : option (list (pystr * pystr))) : event :=
  EvHttpGet (base_url (client (self s)) ++ lit "/api/v2/" ++ endpoint)
    (headers (client (self s))) params.

(** The four checks, and running one of them. *)
Inductive check := ProblemsCheck | FleetCheck | GatewayCheck | SyntheticCheck.

Definition run_check (E : environment) (c : check) : M astate check_report :=
  match c with
  | ProblemsCheck => _analyze_problems E
  | FleetCheck => _analyze_oneagent E
  | GatewayCheck => _analyze_activegate E
  | SyntheticCheck => _analyze_synthetic E
  end.

(** A check can be skipped: some configuration makes it report
    [{"skipped": True}] and leave the state as it was. *)
Definition skippable (c : check) : Prop :=
  exists cfg : config, forall (E : environment) (s : astate),
    config_of s = cfg -> run_check E c s = (Ok Skipped, s).

(** The results with other fleet and synthetic reports. *)
Definition with_fleet_synthetic (results : results_dict)
    (fleet synth : check_report) : results_dict :=
  {| timestamp := timestamp results; problems := problems results;
     oneagent := fleet; activegate := activegate results;
     synthetic := synth; summary := summary results |}.

(** A configuration with every toggle off. *)
Definition all_off_config : config :=
  {| DYNATRACE_TENANT_URL := lit "https://abc123.live.dynatrace.com";
     DYNATRACE_API_TOKEN := lit "dt0c01.SAMPLE";
     IMESSAGE_RECIPIENT := lit "ops@example.org";
     PROBLEM_LOOKBACK_HOURS := 24;
     CHECK_ONEAGENT_HEALTH := false;
     CHECK_ACTIVEGATE_HEALTH := false;
     CHECK_SYNTHETIC_MONITORS := false;
     LOG_FILE := lit "agent.log" |}.

Definition all_off_astate : astate :=
  {| self := ArchitectureAnalyzer_init sample_client;
     the_world := {| CONFIG := all_off_config; os_environ := []; trace := [] |} |}.

Definition problem (t sev : string) : ProblemRecord :=
  {| title := Some (lit t); severityLevel := Some (lit sev) |}.

Definition host (mode version : string) : HostEntity :=
  {| properties := Some {| monitoringMode := Some (lit mode);
                           installerVersion := Some (lit version) |} |}.

(** An environment whose API and [osascript] answer as given, with a fixed
    clock, no configuration file and a file system that never fails. *)
Definition env_of (api : pystr -> http_result) (run : pystr -> run_result)
  : environment :=
  {| requests_get := fun url _ _ => api url;
     osascript := run;
     now_report := lit "2026-01-01 11:00 IST";
     now_iso := lit "2026-01-01T11:00:00.000000";
     now_backup := lit "20260101_110000";
     utc_from := fun _ => lit "2025-12-31T05:30:00Z";
     expanduser := fun p => lit "/Users/abhi" ++ tl p;
     dirname := fun p => p;
     config_file := None;
     os_putenv := fun _ _ => None;
     os_makedirs := fun _ => None;
     write_file := fun _ _ => None |}.

Definition one_error_data : api_data :=
  {| data_problems := Some [problem "Database down" "ERROR"];
     data_entities := None; data_activeGates := None; data_monitors := None |}.

Definition one_error_env : environment :=
  env_of (fun _ => HttpJson one_error_data) (fun _ => Completed 0 []).

(** The message as [send_imessage] embeds it in its scripts. *)
Definition escape_message (message : pystr) : pystr :=
  replace_char 39 (backslash ++ squote) (replace_char 34 (backslash ++ dquote) message).

(** A world with more events. *)
Definition world_with_events (w : world) (evs : list event) : world :=
  {| CONFIG := CONFIG w; os_environ := os_environ w; trace := trace w ++ evs |}.

(** The fallback delivery ran among the events [evs]. *)
Definition fallback_invoked (recipient message : pystr) (evs : list event) : Prop :=
  In (EvOsascript (fallback_script recipient (escape_message message))) evs.

(** The primary delivery ended with a non-zero exit status. *)
Definition primary_exit_nonzero (E : environment) (recipient message : pystr) : Prop :=
  exists returncode stderr,
    osascript E (primary_script recipient (escape_message message))
    = Completed returncode stderr /\ returncode <> 0.

Definition is_osascript (ev : event) : bool :=
  match ev with EvOsascript _ => true | _ => false end.

(** An [osascript] that raises an error other than a timeout. *)
Definition failing_osascript_env : environment :=
  env_of (fun _ => HttpJson empty_data)
         (fun _ => RunRaises (Exception (lit "[Errno 2] No such file or directory: 'osascript'"))).

(** An [osascript] whose primary script exits with status 1 and whose
    fallback script exits with status 0. *)
Definition fallback_ok_env : environment :=
  env_of (fun _ => HttpJson empty_data)
         (fun script =>
            if py_in (lit "targetBuddy") script
            then Completed 1 (lit "execution error") else Completed 0 []).

(** The first character of a string is not white space; so for the last. *)
Definition starts_nonspace (s : pystr) : bool :=
  match s with c :: _ => negb (py_isspace c) | [] => false end.
Definition ends_nonspace (s : pystr) : bool := starts_nonspace (rev s).

(** [needle] occurs in [hay]. *)
Definition substring (needle hay : pystr) : Prop :=
  exists pre post, hay = pre ++ needle ++ post.

(** The placeholder values [CONFIG] starts with. *)
Definition placeholder_url : pystr := lit "https://YOUR_TENANT.live.dynatrace.com".
Definition placeholder_token : pystr := lit "YOUR_API_TOKEN".
Definition placeholder_recipient : pystr := lit "+1234567890".

(** The setup instructions, as the lines of the text that is returned. *)
Definition setup_lines (timestamp : pystr) : list pystr :=
  [ bell ++ lit " Dynatrace Daily Report";
    calendar ++ lit " " ++ timestamp;
    [];
    warning_sign ++ lit " SETUP REQUIRED";
    lit "Configure your Dynatrace credentials in:";
    lit "~/dynatrace_agent/config.env";
    [];
    lit "Once configured, you'll receive:";
    bullet ++ lit " Problem summary";
    bullet ++ lit " OneAgent fleet health  ";
    bullet ++ lit " ActiveGate status";
    bullet ++ lit " Architecture analysis";
    bullet ++ lit " Latest DT updates";
    [];
    books ++ lit " Setup guide in README.md" ].

Definition setup_text (timestamp : pystr) : pystr := lines (setup_lines timestamp).

(** The error text, as the lines of the text that is returned. *)
Definition log_pointer : pystr := lit "Check logs: ~/Library/Logs/dynatrace_agent.log".

Definition error_lines (timestamp message : pystr) : list pystr :=
  [ bell ++ lit " Dynatrace Daily Report";
    calendar ++ lit " " ++ timestamp;
    [];
    cross_mark ++ lit " Error fetching data";
    firstn 100 message;
    [];
    log_pointer ].

Definition error_text (timestamp message : pystr) : pystr :=
  lines (error_lines timestamp message).

(** The analyzer [generate_daily_report] builds from the configuration. *)
Definition fresh_analyzer (w : world) : astate :=
  {| self := ArchitectureAnalyzer_init
               (DynatraceClient_init (DYNATRACE_TENANT_URL (CONFIG w))
                                     (DYNATRACE_API_TOKEN (CONFIG w)));
     the_world := w |}.

(** [main] up to the generation of the report. *)
Definition report_stage (E : environment) : M world pystr :=
  logger LInfo banner ;;;
  logger LInfo (lit "Dynatrace Daily Agent Started") ;;;
  logger LInfo banner ;;;
  load_config_file E ;;;
  generate_daily_report E.

(** What [main] does after the report when it prints instead of sending. *)
Definition printing_events (report : pystr) : list event :=
  [ EvLog LInfo (lit "Report generated:" ++ nl ++ report);
    EvLog LWarning (lit "iMessage recipient not configured - printing report only");
    EvPrint (nl ++ banner);
    EvPrint report;
    EvPrint banner;
    EvPrint (nl ++ warning_sign
             ++ lit "  Configure IMESSAGE_RECIPIENT in config.env to receive iMessage notifications");
    EvLog LInfo (lit "Dynatrace Daily Agent Completed") ].

Definition error_log_event (e : exn) : event :=
  EvLog LError (lit "Error generating report: " ++ str_of_exn e).

(** Six open problems: two errors, one warning, and three others. *)
Definition sample_problems : list ProblemRecord :=
  [ problem "Database down" "ERROR";
    problem "High CPU" "WARNING";
    problem "Disk latency" "RESOURCE_CONTENTION";
    {| title := Some (lit "Untitled"); severityLevel := None |};
    problem "Checkout failing" "ERROR";
    problem "Slow response" "PERFORMANCE" ].

(** The fleet of the specification's example: versions 1.0 five times,
    1.1 three times, 1.2 and 1.3 once each, one host without properties
    left out. *)
Definition sample_fleet : list HostEntity :=
  repeat (host "FULL_STACK" "1.0") 5 ++ repeat (host "INFRA_ONLY" "1.1") 3
  ++ [host "FULL_STACK" "1.2"; host "FULL_STACK" "1.3"].

Definition sample_data : api_data :=
  {| data_problems := Some sample_problems;
     data_entities := Some sample_fleet;
     data_activeGates := Some [ {| connected := Some true |}; {| connected := None |} ];
     data_monitors := Some [ {| enabled := Some true |} ] |}.

Definition sample_env : environment :=
  env_of (fun _ => HttpJson sample_data) (fun _ => Completed 0 []).

(** An API whose answers cannot be used: every request raises. *)
Definition long_message : pystr :=
  lit "'list' object has no attribute 'get' " ++ repeat_str (lit "x") 100.

Definition raising_env : environment :=
  env_of (fun _ => HttpRaises (Exception long_message)) (fun _ => Completed 0 []).

(** Genuine-looking credentials and recipient that contain the
    placeholders' substrings. *)
Definition lookalike_config : config :=
  {| DYNATRACE_TENANT_URL := lit "https://abc123.live.dynatrace.com";
     DYNATRACE_API_TOKEN := lit "dt0c01.YOUR_KEY7";
     IMESSAGE_RECIPIENT := lit "+441234567890";
     PROBLEM_LOOKBACK_HOURS := 24;
     CHECK_ONEAGENT_HEALTH := true;
     CHECK_ACTIVEGATE_HEALTH := true;
     CHECK_SYNTHETIC_MONITORS := true;
     LOG_FILE := lit "agent.log" |}.

Definition lookalike_world : world :=
  {| CONFIG := lookalike_config; os_environ := []; trace := [] |}.

Definition configured_world : world :=
  {| CONFIG := all_off_config; os_environ := []; trace := [] |}.

(** The mapping [_get] returns for an answer, when it returns one: the
    parsed body, or the empty mapping after a [RequestException]. *)
Definition data_of (r : http_result) : option api_data :=
  match r with
  | HttpJson data => Some data
  | HttpRequestException _ => Some empty_data
  | HttpRaises _ => None
  end.

(** No request raises past [_get]. *)
Definition api_answers (E : environment) : Prop :=
  forall url hdrs params, data_of (requests_get E url hdrs params) <> None.

Definition answered (E : environment) (s : astate) (endpoint : pystr)
    (params : option (list (pystr * pystr))) : api_data :=
  get_default (data_of (api_answer E s endpoint params)) empty_data.

(** What the API reports to the analyzer in state [s]. *)
Definition open_problems (E : environment) (s : astate) : list ProblemRecord :=
  get_default
    (data_problems
       (answered E s (lit "problems")
          (Some (problems_params E (PROBLEM_LOOKBACK_HOURS (config_of s)))))) [].
Definition hosts (E : environment) (s : astate) : list HostEntity :=
  get_default (data_entities (answered E s (lit "entities") (Some oneagent_params))) [].
Definition gateways (E : environment) (s : astate) : list GatewayStatus :=
  get_default (data_activeGates (answered E s (lit "activeGates") None)) [].

(** The offline gateways that count: none when the check is skipped. *)
Definition offline_gateways (E : environment) (s : astate) : Z :=
  if CHECK_ACTIVEGATE_HEALTH (config_of s)
  then Z.of_nat (length (gateways E s)) - count_true connected (gateways E s)
  else 0.

Definition offline_issue (n : Z) : pystr :=
  red_circle ++ lit " " ++ str_of_int n ++ lit " ActiveGate(s) offline".

(** The issues each check adds. *)
Definition problems_issues (E : environment) (s : astate) : list pystr :=
  if count_severity "ERROR" (open_problems E s) >? 0
  then [critical_issue (count_severity "ERROR" (open_problems E s))] else [].
Definition fleet_issues (E : environment) (s : astate) : list pystr :=
  if CHECK_ONEAGENT_HEALTH (config_of s)
  then if distinct_count (map entity_version (hosts E s)) >? 3
       then [fragmentation_issue (distinct_count (map entity_version (hosts E s)))]
       else []
  else [].
Definition gateway_issues (E : environment) (s : astate) : list pystr :=
  if offline_gateways E s >? 0 then [offline_issue (offline_gateways E s)] else [].

(** [s'] is [s] with the same client and configuration and more issues. *)
Definition extends (s s' : astate) (new : list pystr) : Prop :=
  client (self s') = client (self s) /\
  config_of s' = config_of s /\
  issues (self s') = issues (self s) ++ new.

(** ** Vocabulary of the further properties *)

(** The script ran and exited with status zero. *)
Definition exits_zero (E : environment) (script : pystr) : Prop :=
  exists stderr, osascript E script = Completed 0 stderr.

(** Every occurrence of [q] in [s] has a backslash just before it. *)
Definition preceded_by_backslash (q : codepoint) (s : pystr) : Prop :=
  forall i, nth_error s i = Some q ->
            exists j, i = S j /\ nth_error s j = Some 92%N.

(** How many characters of [s] are quotes. *)
Definition count_quotes (s : pystr) : nat :=
  length (filter (fun c => (c =? 34)%N || (c =? 39)%N) s).

(** What [escape_message] does to one character. *)
Definition escape_char (c : codepoint) : pystr :=
  if (c =? 34)%N then [92%N; 34%N]
  else if (c =? 39)%N then [92%N; 39%N] else [c].

(** Undoing the escape: a backslash before a quote is dropped. *)
Fixpoint unescape (s : pystr) : pystr :=
  match s with
  | [] => []
  | c :: r =>
      match r with
      | q :: r' =>
          if (c =? 92)%N && ((q =? 34)%N || (q =? 39)%N)
          then q :: unescape r' else c :: unescape r
      | [] => [c]
      end
  end.

(** The first character of [s] is not one that [f] strips; so for the
    last. *)
Definition starts_outside (f : codepoint -> bool) (s : pystr) : bool :=
  match s with c :: _ => negb (f c) | [] => false end.
Definition ends_outside (f : codepoint -> bool) (s : pystr) : bool :=
  starts_outside f (rev s).

(** The characters [s.strip(chars)] strips. *)
Definition one_of (chars : pystr) (c : codepoint) : bool := existsb (N.eqb c) chars.

(** Requests and log lines among the events. *)
Definition is_http (ev : event) : bool :=
  match ev with EvHttpGet _ _ _ => true | _ => false end.
Definition is_log (ev : event) : bool :=
  match ev with EvLog _ _ => true | _ => false end.

(** Events that are requests and log lines only: no script is run, nothing
    is printed and no file or directory is written. *)
Definition quiet (evs : list event) : Prop :=
  forall ev, In ev evs -> is_http ev = true \/ is_log ev = true.

(** The request a client sends to an endpoint. *)
Definition get_event (c : DynatraceClient) (endpoint : pystr)
    (params : option (list (pystr * pystr))) : event :=
  EvHttpGet (base_url c ++ lit "/api/v2/" ++ endpoint) (headers c) params.

(** The requests of the four checks under a configuration, in order. *)
Definition problems_plan (E : environment) (cfg : config) (c : DynatraceClient)
  : list event :=
  [get_event c (lit "problems") (Some (problems_params E (PROBLEM_LOOKBACK_HOURS cfg)))].
Definition fleet_plan (cfg : config) (c : DynatraceClient) : list event :=
  if CHECK_ONEAGENT_HEALTH cfg
  then [get_event c (lit "entities") (Some oneagent_params)] else [].
Definition gateway_plan (cfg : config) (c : DynatraceClient) : list event :=
  if CHECK_ACTIVEGATE_HEALTH cfg then [get_event c (lit "activeGates") None] else [].
Definition synthetic_plan (cfg : config) (c : DynatraceClient) : list event :=
  if CHECK_SYNTHETIC_MONITORS cfg
  then [get_event c (lit "synthetic/monitors") None] else [].
Definition analysis_plan (E : environment) (cfg : config) (c : DynatraceClient)
  : list event :=
  problems_plan E cfg c ++ fleet_plan cfg c ++ gateway_plan cfg c ++ synthetic_plan cfg c.

(** [s'] has the client, configuration and process environment of [s]. *)
Definition same_frame (s s' : astate) : Prop :=
  client (self s') = client (self s) /\
  CONFIG (the_world s') = CONFIG (the_world s) /\
  os_environ (the_world s') = os_environ (the_world s).

(** A method of the analyzer run from [s]: it keeps the frame, adds only
    requests and log lines, appends at most [k] issues, and sends the
    requests [planned], all of them with the result satisfying [Q] when it
    returns, a first part of them when it raises. *)
Definition runs {A} (m : M astate A) (s : astate) (planned : list event)
    (k : nat) (Q : A -> astate -> Prop) : Prop :=
  exists r s' evs new,
    m s = (r, s') /\
    same_frame s s' /\
    trace (the_world s') = trace (the_world s) ++ evs /\
    quiet evs /\
    issues (self s') = issues (self s) ++ new /\
    (length new <= k)%nat /\
    match r with
    | Ok a => filter is_http evs = planned /\ Q a s'
    | Raise _ => exists rest, planned = filter is_http evs ++ rest
    end.

(** The shapes of the reports a check returns. *)
Definition is_problems_report (r : check_report) : Prop :=
  exists total critical warnings details,
    r = ProblemsReport total critical warnings details /\
    0 <= critical /\ 0 <= warnings /\ critical + warnings <= total.
Definition is_fleet_report (r : check_report) : Prop :=
  exists total modes count top, r = FleetReport total modes count top.
Definition is_gateway_report (r : check_report) : Prop :=
  exists total conn off,
    r = GatewayReport total conn off /\ off = total - conn /\ 0 <= off <= total.
Definition is_synthetic_report (r : check_report) : Prop :=
  exists total en dis, r = SyntheticReport total en dis /\ en + dis = total.

(** A report is skipped when its toggle is off and of its shape when on. *)
Definition toggled (on : bool) (shape : check_report -> Prop) (r : check_report)
  : Prop :=
  if on then shape r else r = Skipped.

(** The label of a score. *)
Definition status_of_score (score : Z) : pystr :=
  if score >=? 90 then status_healthy
  else if score >=? 70 then status_needs_attention
  else status_critical.

(** What [analyze_all] returns under a configuration. *)
Definition analysis_post (cfg : config) (results : results_dict) (s' : astate) : Prop :=
  is_problems_report (problems results) /\
  toggled (CHECK_ONEAGENT_HEALTH cfg) is_fleet_report (oneagent results) /\
  toggled (CHECK_ACTIVEGATE_HEALTH cfg) is_gateway_report (activegate results) /\
  toggled (CHECK_SYNTHETIC_MONITORS cfg) is_synthetic_report (synthetic results) /\
  exists sm, summary results = Some sm /\
             summary_issues sm = issues (self s') /\
             issues_count sm = Z.of_nat (length (issues (self s'))) /\
             0 <= health_score sm <= 100 /\
             health_score sm
             = Z.max 0 (100 - 10 * critical_of results - 2 * warnings_of results
                        - 15 * offline_of results) /\
             status sm = status_of_score (health_score sm).

(** The text of the normal report before the final strip, without its
    leading newline: the template, the issues and the pointer to the
    release notes. *)
Definition normal_body (timestamp : pystr) (sm : summary_dict)
    (critical warnings total : Z) (fleet gateway : check_report) : pystr :=
  tl (normal_report timestamp (status sm) (health_score sm) critical warnings total
        fleet gateway)
  ++ issues_block (summary_issues sm) ++ nl ++ fetch_dynatrace_updates.

(** The two lines every report starts with. *)
Definition report_header (timestamp : pystr) : pystr :=
  bell ++ lit " Dynatrace Daily Report" ++ nl ++ calendar ++ lit " " ++ timestamp ++ nl.







(** The points the analysis takes off for what the API reported. *)
Definition deductions (E : environment) (s : astate) : Z :=
  10 * count_severity "ERROR" (open_problems E s)
  + 2 * count_severity "WARNING" (open_problems E s)
  + 15 * offline_gateways E s.

(** White space only. *)
Definition blank (s : pystr) : Prop := forallb py_isspace s = true.

(** A character that the loading of a configuration line strips from the
    ends of a value: white space and the two quotes. *)
Definition is_edge (c : codepoint) : bool :=
  py_isspace c || (c =? 34)%N || (c =? 39)%N.

(** A value that is empty or starts and ends with a character that is
    neither white space nor a quote. *)
Definition plain_value (v : pystr) : Prop :=
  v = [] \/ (starts_outside is_edge v = true /\ ends_outside is_edge v = true).

(** A key that starts and ends with something else than white space, holds
    no equals sign and does not start with the comment sign. *)
Definition plain_key (k : pystr) : Prop :=
  starts_nonspace k = true /\ ends_nonspace k = true /\
  ~ In 61%N k /\ startswith k (lit "#") = false.

(** A configuration line: a key, an equals sign and a value between
    optional quotes [q], with white space anywhere around them. *)
Definition config_line (ws1 k ws2 ws3 q v ws4 : pystr) : pystr :=
  ws1 ++ k ++ ws2 ++ lit "=" ++ ws3 ++ q ++ v ++ q ++ ws4.

(** ** Vocabulary of the orchestrator *)

(** Events that touch the file system. *)
Definition is_file (ev : event) : bool :=
  match ev with EvMakedirs _ | EvWriteFile _ _ => true | _ => false end.


(** The file [main] saves an undelivered report to. *)
Definition backup_path (E : environment) : pystr :=
  expanduser E (lit "~/dynatrace_agent/reports/" ++ now_backup E ++ lit ".txt").

(** The log lines of [main]. *)
Definition started : list event :=
  [ EvLog LInfo banner; EvLog LInfo (lit "Dynatrace Daily Agent Started");
    EvLog LInfo banner ].
Definition report_logged (report : pystr) : event :=
  EvLog LInfo (lit "Report generated:" ++ nl ++ report).
Definition delivery_failed : event :=
  EvLog LError (lit "Failed to send daily report via iMessage").
Definition completed : event := EvLog LInfo (lit "Dynatrace Daily Agent Completed").

(** What [main] does after a failed delivery when the file system lets it. *)
Definition saving_events (E : environment) (report : pystr) : list event :=
  [ delivery_failed;
    EvMakedirs (dirname E (backup_path E));
    EvWriteFile (backup_path E) report;
    EvLog LInfo (lit "Report saved to " ++ backup_path E);
    completed ].


(** No script runs and the reports directory cannot be created. *)
Definition readonly_env : environment :=
  {| requests_get := fun _ _ _ => HttpJson empty_data;
     osascript := fun _ => TimeoutExpired (Exception (lit "timed out after 30 seconds"));
     now_report := lit "2026-01-01 11:00 IST";
     now_iso := lit "2026-01-01T11:00:00.000000";
     now_backup := lit "20260101_110000";
     utc_from := fun _ => lit "2025-12-31T05:30:00Z";
     expanduser := fun p => lit "/Users/abhi" ++ tl p;
     dirname := fun p => lit "/Users/abhi/dynatrace_agent/reports";
     config_file := None;
     os_putenv := fun _ _ => None;
     os_makedirs := fun _ => Some (Exception (lit "[Errno 30] Read-only file system"));
     write_file := fun _ _ => None |}.

(** A configuration file that sets the three values [main] reloads and,
    to no effect, a toggle. *)
Definition sample_config_lines : list pystr :=
  [ lit "# Dynatrace agent" ++ nl;
    lit "DYNATRACE_TENANT_URL=https://abc123.live.dynatrace.com" ++ nl;
    lit "DYNATRACE_API_TOKEN = 'dt0c01.SAMPLE'" ++ nl;
    nl;
    lit "IMESSAGE_RECIPIENT=ops@example.org" ++ nl;
    lit "CHECK_ONEAGENT_HEALTH=false" ++ nl ].

Definition file_env : environment :=
  {| requests_get := fun _ _ _ => HttpJson empty_data;
     osascript := fun _ => Completed 0 [];
     now_report := lit "2026-01-01 11:00 IST";
     now_iso := lit "2026-01-01T11:00:00.000000";
     now_backup := lit "20260101_110000";
     utc_from := fun _ => lit "2025-12-31T05:30:00Z";
     expanduser := fun p => lit "/Users/abhi" ++ tl p;
     dirname := fun p => lit "/Users/abhi/dynatrace_agent/reports";
     config_file := Some sample_config_lines;
     os_putenv := fun _ _ => None;
     os_makedirs := fun _ => None;
     write_file := fun _ _ => None |}.

(** * Properties *)

Ltac unfold_monad :=
  cbv beta delta [bind ret raise gets modify try_except in_world logger
                  issues_append config_of] in *.

(** ** The summary *)

Lemma generate_summary_eq (results : results_dict) (s : astate) :
  _generate_summary results s =
  (Ok {| health_score := Z.max 0 (Z.min 100 (raw_score results));
         status :=
           if Z.max 0 (Z.min 100 (raw_score results)) >=? 90 then status_healthy
           else if Z.max 0 (Z.min 100 (raw_score results)) >=? 70
                then status_needs_attention
                else status_critical;
         issues_count := len (issues (self s));
         summary_issues := issues (self s) |}, s).
Proof.
  unfold _generate_summary, raw_score, critical_of, warnings_of, offline_of.
  unfold_monad.
  replace (100 - get_default (report_int (problems results) "critical") 0 * 10
           - get_default (report_int (problems results) "warnings") 0 * 2
           - get_default (report_int (activegate results) "offline") 0 * 15)
    with (100 - 10 * get_default (report_int (problems results) "critical") 0
          - 2 * get_default (report_int (problems results) "warnings") 0
          - 15 * get_default (report_int (activegate results) "offline") 0) by lia.
  reflexivity.
Qed.

(** C5. The health score always lies in [0,100], and it does not increase
    when the critical, warning and offline counts all grow or stay. *)
Theorem health_score_bounded_monotone :
  (forall (results : results_dict) (s : astate),
     exists sm, _generate_summary results s = (Ok sm, s) /\
                0 <= health_score sm <= 100) /\
  (forall (r1 r2 : results_dict) (s1 s2 : astate),
     critical_of r1 <= critical_of r2 ->
     warnings_of r1 <= warnings_of r2 ->
     offline_of r1 <= offline_of r2 ->
     exists sm1 sm2,
       _generate_summary r1 s1 = (Ok sm1, s1) /\
       _generate_summary r2 s2 = (Ok sm2, s2) /\
       health_score sm2 <= health_score sm1).
Proof.
  split.
  - intros results s. eexists. split; [apply generate_summary_eq|].
    cbn [health_score]. lia.
  - intros r1 r2 s1 s2 Hc Hw Ho. do 2 eexists.
    split; [apply generate_summary_eq|]. split; [apply generate_summary_eq|].
    cbn [health_score]. unfold raw_score. lia.
Qed.

Lemma health_score_bounded_monotone_witness :
  critical_of sample_results_mild <= critical_of sample_results_severe /\
  exists sm1 sm2,
    _generate_summary sample_results_mild sample_astate = (Ok sm1, sample_astate) /\
    _generate_summary sample_results_severe sample_astate = (Ok sm2, sample_astate) /\
    health_score sm2 <= health_score sm1.
Proof.
  split; [vm_compute; discriminate|].
  apply (proj2 health_score_bounded_monotone
           sample_results_mild sample_results_severe sample_astate sample_astate);
    vm_compute; discriminate.
Defined.

(** ** The problems check *)

Lemma pystr_eqb_eq (a b : pystr) : pystr_eqb a b = true <-> a = b.
Proof.
  unfold pystr_eqb. destruct (list_eq_dec N.eq_dec a b); split; congruence.
Qed.

Lemma pystr_eqb_refl (a : pystr) : pystr_eqb a a = true.
Proof. apply pystr_eqb_eq. reflexivity. Qed.

Lemma pystr_eqb_neq (a b : pystr) : pystr_eqb a b = false <-> a <> b.
Proof.
  unfold pystr_eqb. destruct (list_eq_dec N.eq_dec a b); split; congruence.
Qed.

(** Two filters that never both accept select at most the whole list. *)
Lemma disjoint_filters_length {A} (f g : A -> bool) (l : list A) :
  (forall x, f x = true -> g x = false) ->
  (length (filter f l) + length (filter g l) <= length l)%nat.
Proof.
  intros Hfg. induction l as [|x l IH]; simpl; [lia|].
  destruct (f x) eqn:Hf.
  - rewrite (Hfg x Hf). simpl. lia.
  - destruct (g x); simpl; lia.
Qed.

Lemma severity_error_not_warning (p : ProblemRecord) :
  opt_eqb (severityLevel p) (lit "ERROR") = true ->
  opt_eqb (severityLevel p) (lit "WARNING") = false.
Proof.
  unfold opt_eqb. destruct (severityLevel p) as [v|]; [|discriminate].
  intros H. apply pystr_eqb_eq in H. subst v. reflexivity.
Qed.

(** C4. For every problem list the API returns, the problems check reports
    the total, the number of ERROR problems and the number of WARNING
    problems, with critical + warnings <= total; its detail list is the
    title and severity of the first min(5, total) problems; and it appends
    the critical-problems issue exactly when the critical count is
    positive. *)
Theorem problems_check_counts_details_issue
    (E : environment) (s : astate) (data : api_data) (P : list ProblemRecord) :
  api_answer E s (lit "problems")
    (Some (problems_params E (PROBLEM_LOOKBACK_HOURS (config_of s)))) = HttpJson data ->
  get_default (data_problems data) [] = P ->
  exists details s',
    _analyze_problems E s
    = (Ok (ProblemsReport (Z.of_nat (length P)) (count_severity "ERROR" P)
             (count_severity "WARNING" P) details), s') /\
    count_severity "ERROR" P + count_severity "WARNING" P <= Z.of_nat (length P) /\
    details = map detail_of (firstn (Nat.min 5 (length P)) P) /\
    length details = Nat.min 5 (length P) /\
    (count_severity "ERROR" P > 0 ->
       issues (self s') = issues (self s) ++ [critical_issue (count_severity "ERROR" P)]) /\
    (count_severity "ERROR" P <= 0 -> issues (self s') = issues (self s)).
Proof.
  intros Hreq HP. unfold api_answer in Hreq.
  assert (Hfirst : firstn (Nat.min 5 (length P)) P = firstn 5 P).
  { destruct (Nat.le_ge_cases 5 (length P)) as [Hle|Hge].
    - rewrite Nat.min_l by exact Hle. reflexivity.
    - rewrite Nat.min_r by exact Hge. rewrite !firstn_all2; [reflexivity|exact Hge|lia]. }
  unfold _analyze_problems, get_problems, _get. unfold_monad. cbn beta iota.
  cbn [self the_world]. rewrite Hreq. cbn beta iota. rewrite HP.
  fold (count_severity "ERROR" P). fold (count_severity "WARNING" P).
  unfold len. fold (count_severity "ERROR" P).
  destruct (count_severity "ERROR" P >? 0) eqn:Hpos;
    cbn beta iota; do 2 eexists; (split; [reflexivity|]); cbn [self issues].
  all: split; [unfold count_severity;
               pose proof (disjoint_filters_length _ _ P severity_error_not_warning); lia|].
  all: split; [unfold slice_to, detail_of; rewrite Hfirst; reflexivity|].
  all: split; [unfold slice_to; rewrite length_map, length_firstn; reflexivity|].
  all: split; intros; try lia; reflexivity.
Qed.

(** ** Dictionaries and tallies *)

Lemma dict_get_set {V} (d : dict V) (k k' : pystr) (v : V) :
  dict_get (dict_set d k v) k' = if pystr_eqb k k' then Some v else dict_get d k'.
Proof.
  induction d as [|[k0 v0] r IH]; simpl; [reflexivity|].
  destruct (pystr_eqb k0 k) eqn:H0; simpl.
  - apply pystr_eqb_eq in H0. subst k0. destruct (pystr_eqb k k'); reflexivity.
  - rewrite IH. destruct (pystr_eqb k0 k') eqn:H1; [|reflexivity].
    apply pystr_eqb_eq in H1. subst k0.
    destruct (pystr_eqb k k') eqn:H2; [|reflexivity].
    apply pystr_eqb_eq in H2. subst k'. rewrite pystr_eqb_refl in H0. discriminate.
Qed.

Lemma mem_In (k : pystr) (ks : list pystr) : mem k ks = true <-> In k ks.
Proof.
  unfold mem. rewrite existsb_exists. split.
  - intros [x [Hin Hx]]. apply pystr_eqb_eq in Hx. subst x. exact Hin.
  - intros Hin. exists k. split; [exact Hin | apply pystr_eqb_refl].
Qed.

Lemma mem_false (k : pystr) (ks : list pystr) : mem k ks = false <-> ~ In k ks.
Proof.
  rewrite <- mem_In. destruct (mem k ks); split; congruence.
Qed.

Lemma keys_dict_set {V} (d : dict V) (k : pystr) (v : V) :
  keys (dict_set d k v) = if mem k (keys d) then keys d else keys d ++ [k].
Proof.
  unfold keys, mem. induction d as [|[k0 v0] r IH]; simpl; [reflexivity|].
  destruct (pystr_eqb k0 k) eqn:H0; simpl.
  - apply pystr_eqb_eq in H0. subst k0. rewrite pystr_eqb_refl. reflexivity.
  - assert (Hk : pystr_eqb k k0 = false).
    { apply pystr_eqb_neq. apply pystr_eqb_neq in H0. congruence. }
    rewrite Hk, IH. simpl. destruct (existsb (pystr_eqb k) (map fst r)); reflexivity.
Qed.

Lemma sum_counts_dict_set (d : dict Z) (k : pystr) (v : Z) :
  sum_counts (dict_set d k v) = sum_counts d + v - get_default (dict_get d k) 0.
Proof.
  unfold sum_counts. induction d as [|[k0 v0] r IH]; simpl; [lia|].
  destruct (pystr_eqb k0 k); simpl; [lia|]. rewrite IH. lia.
Qed.

Lemma sum_counts_tally (d : dict Z) (k : pystr) :
  sum_counts (tally d k) = sum_counts d + 1.
Proof. unfold tally. rewrite sum_counts_dict_set. lia. Qed.

Lemma sum_counts_fold_tally (l : list pystr) (d : dict Z) :
  sum_counts (fold_left tally l d) = sum_counts d + Z.of_nat (length l).
Proof.
  revert d. induction l as [|x r IH]; intros d; simpl fold_left.
  - simpl. lia.
  - rewrite IH, sum_counts_tally. simpl length. lia.
Qed.

Lemma occurrences_cons (k x : pystr) (r : list pystr) :
  occurrences k (x :: r) = (if pystr_eqb x k then 1 else 0) + occurrences k r.
Proof.
  unfold occurrences, pystr_eqb. simpl.
  destruct (list_eq_dec N.eq_dec x k); lia.
Qed.

Lemma occurrences_nonneg (k : pystr) (l : list pystr) : 0 <= occurrences k l.
Proof. unfold occurrences. lia. Qed.

Lemma dict_get_fold_tally (l : list pystr) (d : dict Z) (k : pystr) :
  dict_get (fold_left tally l d) k =
  if occurrences k l =? 0 then dict_get d k
  else Some (get_default (dict_get d k) 0 + occurrences k l).
Proof.
  revert d. induction l as [|x r IH]; intros d; simpl fold_left.
  - reflexivity.
  - rewrite IH, occurrences_cons. unfold tally. rewrite dict_get_set.
    pose proof (occurrences_nonneg k r) as Hr.
    destruct (pystr_eqb x k) eqn:Hx.
    + apply pystr_eqb_eq in Hx. subst x.
      destruct (occurrences k r =? 0) eqn:H0.
      * apply Z.eqb_eq in H0. rewrite H0. reflexivity.
      * apply Z.eqb_neq in H0.
        destruct (1 + occurrences k r =? 0) eqn:H1; [lia|].
        simpl get_default. f_equal. lia.
    + reflexivity.
Qed.

Lemma filter_filter {A} (f g : A -> bool) (l : list A) :
  filter f (filter g l) = filter (fun x => g x && f x) l.
Proof.
  induction l as [|x r IH]; simpl; [reflexivity|].
  destruct (g x); simpl; [destruct (f x)|]; rewrite ?IH; reflexivity.
Qed.

Lemma filter_all {A} (l : list A) : filter (fun _ => true) l = l.
Proof. induction l as [|x r IH]; simpl; [|rewrite IH]; reflexivity. Qed.

Lemma keys_fold_tally (l : list pystr) (d : dict Z) :
  keys (fold_left tally l d) =
  keys d ++ filter (fun k => negb (mem k (keys d))) (first_seen l).
Proof.
  revert d. induction l as [|x r IH]; intros d; simpl fold_left.
  - simpl. rewrite app_nil_r. reflexivity.
  - rewrite IH. unfold tally at 1 2. rewrite keys_dict_set.
    simpl first_seen. simpl filter. destruct (mem x (keys d)) eqn:Hx; simpl negb.
    + f_equal. rewrite filter_filter. apply filter_ext. intros k.
      destruct (pystr_eqb k x) eqn:Hk; simpl; [|reflexivity].
      apply pystr_eqb_eq in Hk. subst k. rewrite Hx. reflexivity.
    + rewrite <- app_assoc. simpl. do 2 f_equal.
      rewrite filter_filter. apply filter_ext. intros k.
      unfold mem. rewrite existsb_app. simpl. rewrite orb_false_r.
      rewrite negb_orb. apply andb_comm.
Qed.

Lemma first_seen_In (l : list pystr) (k : pystr) : In k (first_seen l) <-> In k l.
Proof.
  induction l as [|x r IH]; simpl; [tauto|].
  rewrite filter_In, IH. split.
  - intros [H|[H _]]; auto.
  - intros [H|H]; [auto|].
    destruct (pystr_eqb k x) eqn:Hk.
    + left. apply pystr_eqb_eq in Hk. congruence.
    + right. auto.
Qed.

Lemma first_seen_NoDup (l : list pystr) : NoDup (first_seen l).
Proof.
  induction l as [|x r IH]; simpl; constructor.
  - rewrite filter_In. intros [_ H]. rewrite pystr_eqb_refl in H. discriminate.
  - apply NoDup_filter. exact IH.
Qed.

(** A dictionary without repeated keys is its keys with their values. *)
Lemma dict_rebuild (d : dict Z) :
  NoDup (keys d) ->
  d = map (fun k => (k, get_default (dict_get d k) 0)) (keys d).
Proof.
  unfold keys. induction d as [|[k0 v0] r IH]; intros Hnd; simpl; [reflexivity|].
  inversion Hnd as [|? ? Hnotin Hnd']; subst.
  rewrite pystr_eqb_refl. simpl. f_equal.
  rewrite (IH Hnd') at 1. apply map_ext_in. intros k Hk.
  destruct (pystr_eqb k0 k) eqn:H0; [|reflexivity].
  apply pystr_eqb_eq in H0. subst k0. contradiction.
Qed.

(** The loop's tally is the tally of the specification. *)
Lemma fold_tally_spec (l : list pystr) : fold_left tally l [] = tally_of l.
Proof.
  assert (Hkeys : keys (fold_left tally l []) = first_seen l).
  { rewrite keys_fold_tally. simpl. apply filter_all. }
  rewrite (dict_rebuild (fold_left tally l [])).
  - rewrite Hkeys. unfold tally_of. apply map_ext. intros k.
    rewrite dict_get_fold_tally. simpl.
    destruct (occurrences k l =? 0) eqn:H0; simpl; [|reflexivity].
    apply Z.eqb_eq in H0. rewrite H0. reflexivity.
  - rewrite Hkeys. apply first_seen_NoDup.
Qed.

Lemma tally_entities_spec (entities : list HostEntity) :
  tally_entities entities =
  (tally_of (map entity_mode entities), tally_of (map entity_version entities)).
Proof.
  rewrite <- !fold_tally_spec. unfold tally_entities.
  generalize (@nil (pystr * Z)) at 1 3. generalize (@nil (pystr * Z)).
  induction entities as [|e r IH]; intros d1 d2; simpl; [reflexivity|].
  apply IH.
Qed.

(** ** The ranking of versions *)

Lemma insert_desc_perm (x : pystr * Z) (l : list (pystr * Z)) :
  Permutation (insert_desc x l) (x :: l).
Proof.
  induction l as [|y r IH]; simpl; [reflexivity|].
  destruct (snd y <=? snd x); [reflexivity|].
  rewrite IH. apply perm_swap.
Qed.

Lemma sorted_desc_perm (l : list (pystr * Z)) : Permutation (sorted_desc l) l.
Proof.
  induction l as [|x r IH]; simpl; [reflexivity|].
  rewrite insert_desc_perm. constructor. exact IH.
Qed.

Lemma insert_desc_sorted (x : pystr * Z) (l : list (pystr * Z)) :
  StronglySorted count_desc l -> StronglySorted count_desc (insert_desc x l).
Proof.
  induction 1 as [|y r Hr IH Hy]; simpl.
  - repeat constructor.
  - destruct (snd y <=? snd x) eqn:Hle.
    + apply Z.leb_le in Hle. constructor; [constructor; assumption|].
      constructor; [exact Hle|].
      rewrite Forall_forall in *. intros z Hz. specialize (Hy z Hz).
      unfold count_desc in *. lia.
    + apply Z.leb_gt in Hle. constructor; [exact IH|].
      rewrite Forall_forall in *. intros z Hz.
      apply (Permutation_in _ (insert_desc_perm x r)) in Hz.
      destruct Hz as [<-|Hz]; [unfold count_desc; lia | apply Hy; exact Hz].
Qed.

Lemma sorted_desc_sorted (l : list (pystr * Z)) :
  StronglySorted count_desc (sorted_desc l).
Proof.
  induction l as [|x r IH]; simpl; [constructor | apply insert_desc_sorted, IH].
Qed.

(** Stability: the entries of any one count keep their order. *)
Lemma insert_desc_stable (c : Z) (x : pystr * Z) (l : list (pystr * Z)) :
  with_count c (insert_desc x l) = with_count c (x :: l).
Proof.
  unfold with_count. induction l as [|y r IH]; simpl; [reflexivity|].
  destruct (snd y <=? snd x) eqn:Hle; [reflexivity|].
  apply Z.leb_gt in Hle. simpl. rewrite IH. simpl.
  destruct (snd y =? c) eqn:Hy; [|reflexivity].
  apply Z.eqb_eq in Hy.
  destruct (snd x =? c) eqn:Hx; [|reflexivity].
  apply Z.eqb_eq in Hx. lia.
Qed.

Lemma sorted_desc_stable (c : Z) (l : list (pystr * Z)) :
  with_count c (sorted_desc l) = with_count c l.
Proof.
  induction l as [|x r IH]; simpl; [reflexivity|].
  rewrite insert_desc_stable. unfold with_count in *. simpl. rewrite IH. reflexivity.
Qed.

Lemma with_count_In (c : Z) (x : pystr * Z) (l : list (pystr * Z)) :
  In x (with_count c l) <-> In x l /\ snd x = c.
Proof. unfold with_count. rewrite filter_In, Z.eqb_eq. tauto. Qed.

(** Sorted and stable determine the ranking: two descending lists with the
    same entries of every count, in the same order, are equal. *)
Lemma stable_ranking_unique (l1 l2 : list (pystr * Z)) :
  StronglySorted count_desc l1 -> StronglySorted count_desc l2 ->
  (forall c, with_count c l1 = with_count c l2) -> l1 = l2.
Proof.
  intros H1. revert l2. induction H1 as [|x r1 Hr1 IH Hx]; intros l2 H2 Hsame.
  - destruct l2 as [|y r2]; [reflexivity|]. specialize (Hsame (snd y)).
    unfold with_count in Hsame. simpl in Hsame. rewrite Z.eqb_refl in Hsame.
    discriminate.
  - destruct l2 as [|y r2].
    + specialize (Hsame (snd x)). unfold with_count in Hsame. simpl in Hsame.
      rewrite Z.eqb_refl in Hsame. discriminate.
    + inversion H2 as [|? ? Hr2 Hy]; subst.
      rewrite Forall_forall in Hx, Hy. unfold count_desc in Hx, Hy.
      assert (Hxy : snd x <= snd y).
      { assert (Hin : In x (with_count (snd x) (y :: r2))).
        { rewrite <- Hsame. apply with_count_In. split; [left|]; reflexivity. }
        apply with_count_In in Hin. destruct Hin as [[<-|Hin] _]; [lia|].
        apply Hy. exact Hin. }
      assert (Hyx : snd y <= snd x).
      { assert (Hin : In y (with_count (snd y) (x :: r1))).
        { rewrite Hsame. apply with_count_In. split; [left|]; reflexivity. }
        apply with_count_In in Hin. destruct Hin as [[<-|Hin] _]; [lia|].
        apply Hx. exact Hin. }
      assert (Heq : x = y).
      { pose proof (Hsame (snd x)) as Hc. unfold with_count in Hc. simpl in Hc.
        rewrite Z.eqb_refl in Hc.
        replace (snd y =? snd x) with true in Hc by (symmetry; apply Z.eqb_eq; lia).
        congruence. }
      subst y. f_equal. apply IH; [exact Hr2|].
      intros c. specialize (Hsame c). unfold with_count in *. simpl in Hsame.
      destruct (snd x =? c); congruence.
Qed.

Lemma dict_set_fresh {V} (d : dict V) (k : pystr) (v : V) :
  ~ In k (keys d) -> dict_set d k v = d ++ [(k, v)].
Proof.
  unfold keys. induction d as [|[k0 v0] r IH]; simpl; intros Hn; [reflexivity|].
  destruct (pystr_eqb k0 k) eqn:H0.
  - apply pystr_eqb_eq in H0. tauto.
  - rewrite IH; [reflexivity | tauto].
Qed.

Lemma fold_dict_set_fresh {V} (items d : dict V) :
  NoDup (keys d ++ keys items) ->
  fold_left (fun d kv => dict_set d (fst kv) (snd kv)) items d = d ++ items.
Proof.
  revert d. induction items as [|[k v] r IH]; intros d Hnd; simpl.
  - rewrite app_nil_r. reflexivity.
  - simpl in Hnd. rewrite dict_set_fresh.
    + rewrite IH; [rewrite <- app_assoc; reflexivity|].
      unfold keys in *. rewrite map_app, <- app_assoc. exact Hnd.
    + apply NoDup_remove_2 in Hnd. intros Hin. apply Hnd.
      apply in_or_app. left. exact Hin.
Qed.

(** [dict(items)] is the items themselves when their keys are distinct. *)
Lemma dict_of_items_distinct {V} (items : dict V) :
  NoDup (keys items) -> dict_of_items items = items.
Proof.
  intros Hnd. unfold dict_of_items. rewrite fold_dict_set_fresh; [reflexivity|].
  exact Hnd.
Qed.

Lemma keys_tally_of (l : list pystr) : keys (tally_of l) = first_seen l.
Proof.
  unfold keys, tally_of. rewrite map_map. simpl. apply map_id.
Qed.

Lemma firstn_NoDup {A} (n : nat) (l : list A) : NoDup l -> NoDup (firstn n l).
Proof.
  intros H. rewrite <- (firstn_skipn n l) in H. apply NoDup_app_remove_r in H. exact H.
Qed.

Lemma firstn_incl {A} (n : nat) (l : list A) (x : A) : In x (firstn n l) -> In x l.
Proof.
  intros H. rewrite <- (firstn_skipn n l). apply in_or_app. left. exact H.
Qed.

Lemma top_keys_distinct (n : nat) (l : list pystr) :
  NoDup (keys (firstn n (sorted_desc (tally_of l)))).
Proof.
  unfold keys. rewrite <- firstn_map. apply firstn_NoDup.
  apply (Permutation_NoDup (l := map fst (tally_of l))).
  - apply Permutation_map. symmetry. apply sorted_desc_perm.
  - fold (keys (tally_of l)). rewrite keys_tally_of. apply first_seen_NoDup.
Qed.

(** The number of distinct strings, whichever occurrence is kept. *)
Lemma first_seen_length (l : list pystr) :
  length (first_seen l) = length (nodup (list_eq_dec N.eq_dec) l).
Proof.
  apply Permutation_length. apply NoDup_Permutation.
  - apply first_seen_NoDup.
  - apply NoDup_nodup.
  - intros k. rewrite first_seen_In, nodup_In. tauto.
Qed.

Lemma tally_of_length (l : list pystr) :
  length (tally_of l) = length (nodup (list_eq_dec N.eq_dec) l).
Proof. unfold tally_of. rewrite length_map. apply first_seen_length. Qed.

(** ** The fleet check *)

Lemma with_issues_nil (s : astate) : with_issues s [] = s.
Proof.
  destruct s as [[c i m] w]. unfold with_issues. simpl. rewrite app_nil_r. reflexivity.
Qed.

(** What the fleet check does when it is enabled and the API answers. *)
Lemma analyze_oneagent_run (E : environment) (s : astate) (data : api_data) :
  CHECK_ONEAGENT_HEALTH (config_of s) = true ->
  api_answer E s (lit "entities") (Some oneagent_params) = HttpJson data ->
  let entities := get_default (data_entities data) [] in
  let versions := tally_of (map entity_version entities) in
  _analyze_oneagent E s =
  (Ok (FleetReport (len entities) (tally_of (map entity_mode entities))
         (len versions) (firstn 3 (sorted_desc versions))),
   with_issues
     (with_events s [request_event s (lit "entities") (Some oneagent_params)])
     (if len versions >? 3 then [fragmentation_issue (len versions)] else [])).
Proof.
  intros Hon Hreq entities versions. unfold api_answer in Hreq.
  unfold _analyze_oneagent, get_oneagent_info, _get. unfold_monad.
  unfold config_of in Hon. rewrite Hon. cbn beta iota. cbn [negb self the_world].
  rewrite Hreq. cbn beta iota. fold entities.
  rewrite tally_entities_spec. fold versions.
  rewrite dict_of_items_distinct by apply top_keys_distinct.
  destruct (len versions >? 3); cbn beta iota; unfold slice_to; [reflexivity|].
  rewrite with_issues_nil. reflexivity.
Qed.

Lemma len_tally_of (l : list pystr) : len (tally_of l) = distinct_count l.
Proof. unfold len, distinct_count. rewrite tally_of_length. reflexivity. Qed.

(** C6. For every host-entity list the API returns to the enabled fleet
    check: the fragmentation issue is appended exactly when the number of
    distinct version strings exceeds 3; the reported top versions are the
    first three entries of the ranking of the version tally that is sorted
    by descending count and keeps, among entries of equal count, the order
    in which the versions were first seen; and for the tally
    1.0:5, 1.1:3, 1.2:1, 1.3:1 the issue is present and the top three are
    1.0:5, 1.1:3, 1.2:1. *)
Theorem fleet_fragmentation_and_top_versions
    (E : environment) (s : astate) (data : api_data) (entities : list HostEntity) :
  CHECK_ONEAGENT_HEALTH (config_of s) = true ->
  api_answer E s (lit "entities") (Some oneagent_params) = HttpJson data ->
  get_default (data_entities data) [] = entities ->
  exists modes top s',
    _analyze_oneagent E s
    = (Ok (FleetReport (Z.of_nat (length entities)) modes
             (distinct_count (map entity_version entities)) top), s') /\
    (distinct_count (map entity_version entities) > 3 ->
       issues (self s') = issues (self s)
         ++ [fragmentation_issue (distinct_count (map entity_version entities))]) /\
    (distinct_count (map entity_version entities) <= 3 ->
       issues (self s') = issues (self s)) /\
    (exists ranked,
       top = firstn 3 ranked /\
       Permutation ranked (tally_of (map entity_version entities)) /\
       StronglySorted count_desc ranked /\
       forall c, with_count c ranked
                 = with_count c (tally_of (map entity_version entities))) /\
    (tally_of (map entity_version entities)
     = [(lit "1.0", 5); (lit "1.1", 3); (lit "1.2", 1); (lit "1.3", 1)] ->
     top = [(lit "1.0", 5); (lit "1.1", 3); (lit "1.2", 1)] /\
     issues (self s') = issues (self s) ++ [fragmentation_issue 4]).
Proof.
  intros Hon Hreq Hent.
  pose proof (analyze_oneagent_run E s data Hon Hreq) as Hrun.
  cbv zeta in Hrun. rewrite Hent in Hrun. rewrite len_tally_of in Hrun.
  do 3 eexists. split; [exact Hrun|].
  set (n := distinct_count (map entity_version entities)) in *.
  split; [|split; [|split]].
  - intros Hn. destruct (n >? 3) eqn:H3; [reflexivity | lia].
  - intros Hn. destruct (n >? 3) eqn:H3; [lia|].
    simpl. apply app_nil_r.
  - exists (sorted_desc (tally_of (map entity_version entities))).
    split; [reflexivity|]. split; [apply sorted_desc_perm|].
    split; [apply sorted_desc_sorted | intros c; apply sorted_desc_stable].
  - intros Htally. subst n. rewrite <- len_tally_of. rewrite Htally.
    split; reflexivity.
Qed.

(** ** Invariants of the fleet report *)

Lemma occurrences_map {A} (f : A -> pystr) (k : pystr) (l : list A) :
  occurrences k (map f l) = count_where (fun e => pystr_eqb (f e) k) l.
Proof.
  unfold count_where. induction l as [|x r IH]; [reflexivity|].
  simpl map. rewrite occurrences_cons, IH. simpl.
  destruct (pystr_eqb (f x) k); simpl length; lia.
Qed.

Lemma dict_get_tally_of (l : list pystr) (k : pystr) :
  get_default (dict_get (tally_of l) k) 0 = occurrences k l.
Proof.
  rewrite <- fold_tally_spec, dict_get_fold_tally. simpl.
  destruct (occurrences k l =? 0) eqn:H0; [|reflexivity].
  apply Z.eqb_eq in H0. rewrite H0. reflexivity.
Qed.

Lemma sum_counts_tally_of (l : list pystr) :
  sum_counts (tally_of l) = Z.of_nat (length l).
Proof.
  rewrite <- fold_tally_spec, sum_counts_fold_tally. reflexivity.
Qed.

Lemma in_dict_get {V} (d : dict V) (k : pystr) (v : V) :
  NoDup (keys d) -> In (k, v) d -> dict_get d k = Some v.
Proof.
  unfold keys. induction d as [|[k0 v0] r IH]; simpl; intros Hnd Hin; [tauto|].
  inversion Hnd as [|? ? Hnotin Hnd']; subst.
  destruct Hin as [Heq|Hin].
  - inversion Heq; subst. rewrite pystr_eqb_refl. reflexivity.
  - destruct (pystr_eqb k0 k) eqn:H0.
    + apply pystr_eqb_eq in H0. subst k0. exfalso. apply Hnotin.
      apply in_map_iff. exists (k, v). split; [reflexivity | exact Hin].
    + apply IH; assumption.
Qed.

Lemma entity_version_unknown (e : HostEntity) :
  pystr_eqb (entity_version e) (lit "unknown") = absent_or (raw_version e) (lit "unknown").
Proof.
  unfold entity_version, entity_props, raw_version, absent_or.
  destruct (properties e) as [p|]; simpl; [|reflexivity].
  destruct (installerVersion p); reflexivity.
Qed.

Lemma entity_mode_unknown (e : HostEntity) :
  pystr_eqb (entity_mode e) (lit "unknown") = absent_or (raw_mode e) (lit "unknown").
Proof.
  unfold entity_mode, entity_props, raw_mode, absent_or.
  destruct (properties e) as [p|]; simpl; [|reflexivity].
  destruct (monitoringMode p); reflexivity.
Qed.

(** C10. For every host-entity list the API returns to the enabled fleet
    check: the counts of the monitoring-mode histogram sum to the total
    number of hosts; so do the counts of the version tally; entities
    without a mode or a version are counted under the key unknown; and
    the reported top versions are at most three entries, each one an entry
    of the version tally with the same count. *)
Theorem fleet_report_invariants
    (E : environment) (s : astate) (data : api_data) (entities : list HostEntity) :
  CHECK_ONEAGENT_HEALTH (config_of s) = true ->
  api_answer E s (lit "entities") (Some oneagent_params) = HttpJson data ->
  get_default (data_entities data) [] = entities ->
  exists total_hosts modes version_count top s',
    _analyze_oneagent E s
    = (Ok (FleetReport total_hosts modes version_count top), s') /\
    total_hosts = Z.of_nat (length entities) /\
    modes = fst (tally_entities entities) /\
    sum_counts modes = total_hosts /\
    sum_counts (snd (tally_entities entities)) = total_hosts /\
    version_count = Z.of_nat (length (snd (tally_entities entities))) /\
    get_default (dict_get modes (lit "unknown")) 0
    = count_where (fun e => absent_or (raw_mode e) (lit "unknown")) entities /\
    get_default (dict_get (snd (tally_entities entities)) (lit "unknown")) 0
    = count_where (fun e => absent_or (raw_version e) (lit "unknown")) entities /\
    (length top <= 3)%nat /\
    (forall k n, In (k, n) top ->
                 dict_get (snd (tally_entities entities)) k = Some n).
Proof.
  intros Hon Hreq Hent.
  pose proof (analyze_oneagent_run E s data Hon Hreq) as Hrun.
  cbv zeta in Hrun. rewrite Hent in Hrun.
  do 5 eexists. split; [exact Hrun|].
  rewrite tally_entities_spec. cbn [fst snd].
  repeat split.
  - rewrite sum_counts_tally_of, length_map. reflexivity.
  - rewrite sum_counts_tally_of, length_map. reflexivity.
  - rewrite dict_get_tally_of, occurrences_map. unfold count_where.
    f_equal. f_equal. apply filter_ext. intros e. apply entity_mode_unknown.
  - rewrite dict_get_tally_of, occurrences_map. unfold count_where.
    f_equal. f_equal. apply filter_ext. intros e. apply entity_version_unknown.
  - rewrite length_firstn. lia.
  - intros k n Hin. apply in_dict_get.
    + rewrite keys_tally_of. apply first_seen_NoDup.
    + apply firstn_incl in Hin.
      apply (Permutation_in _ (sorted_desc_perm _)). exact Hin.
Qed.

(** ** Skipping checks *)

Lemma analyze_oneagent_skipped (E : environment) (s : astate) :
  CHECK_ONEAGENT_HEALTH (config_of s) = false -> _analyze_oneagent E s = (Ok Skipped, s).
Proof.
  intros H. unfold _analyze_oneagent. unfold_monad. unfold config_of in H.
  rewrite H. reflexivity.
Qed.

Lemma analyze_activegate_skipped (E : environment) (s : astate) :
  CHECK_ACTIVEGATE_HEALTH (config_of s) = false ->
  _analyze_activegate E s = (Ok Skipped, s).
Proof.
  intros H. unfold _analyze_activegate. unfold_monad. unfold config_of in H.
  rewrite H. reflexivity.
Qed.

Lemma analyze_synthetic_skipped (E : environment) (s : astate) :
  CHECK_SYNTHETIC_MONITORS (config_of s) = false ->
  _analyze_synthetic E s = (Ok Skipped, s).
Proof.
  intros H. unfold _analyze_synthetic. unfold_monad. unfold config_of in H.
  rewrite H. reflexivity.
Qed.

(** The problems check has no toggle: whatever the configuration and the
    API's answer, it never reports [{"skipped": True}]. *)
Lemma analyze_problems_never_skipped (E : environment) (s : astate) :
  fst (_analyze_problems E s) <> Ok Skipped.
Proof.
  unfold _analyze_problems, get_problems, _get. unfold_monad. cbn beta iota.
  cbn [self the_world].
  destruct (requests_get E _ _ _) as [data|e|e]; cbn beta iota.
  - destruct (len (filter _ (get_default (data_problems data) [])) >? 0);
      cbn; discriminate.
  - cbn. discriminate.
  - cbn. discriminate.
Qed.

(** The claim that all four checks can be skipped fails on the problems
    check: with every toggle off and one ERROR problem open, the other three
    checks are skipped while the problems check runs, adds its issue and
    takes 10 points off the score. *)
Lemma problems_check_not_skippable :
  ~ (forall c : check, skippable c) /\
  exists results s',
    analyze_all one_error_env all_off_astate = (Ok results, s') /\
    oneagent results = Skipped /\
    activegate results = Skipped /\
    synthetic results = Skipped /\
    problems results <> Skipped /\
    issues (self s') = [critical_issue 1] /\
    exists sm, summary results = Some sm /\ health_score sm = 90.
Proof.
  split.
  - intros Hall. destruct (Hall ProblemsCheck) as [cfg Hskip].
    set (s := {| self := ArchitectureAnalyzer_init sample_client;
                 the_world := {| CONFIG := cfg; os_environ := []; trace := [] |} |}).
    specialize (Hskip one_error_env s eq_refl).
    apply (analyze_problems_never_skipped one_error_env s).
    simpl in Hskip. rewrite Hskip. reflexivity.
  - do 2 eexists. split; [vm_compute; reflexivity|].
    repeat split; try discriminate.
    eexists. split; reflexivity.
Qed.

(** C2, amended. The fleet, ActiveGate and synthetic checks are each
    skipped by turning their own toggle off: the check then reports
    skipped and leaves the issues, and the whole state, as they were; a
    skipped ActiveGate check takes nothing off the health score, and the
    fleet and synthetic reports never enter the score.  The problems check
    has no toggle and is never skipped. *)
Theorem toggled_checks_skippable :
  skippable FleetCheck /\ skippable GatewayCheck /\ skippable SyntheticCheck /\
  (forall (E : environment) (s : astate),
     (CHECK_ONEAGENT_HEALTH (config_of s) = false ->
      _analyze_oneagent E s = (Ok Skipped, s)) /\
     (CHECK_ACTIVEGATE_HEALTH (config_of s) = false ->
      _analyze_activegate E s = (Ok Skipped, s)) /\
     (CHECK_SYNTHETIC_MONITORS (config_of s) = false ->
      _analyze_synthetic E s = (Ok Skipped, s))) /\
  (forall (results : results_dict) (s : astate),
     activegate results = Skipped ->
     exists sm, _generate_summary results s = (Ok sm, s) /\
       health_score sm
       = Z.max 0 (Z.min 100 (100 - 10 * critical_of results - 2 * warnings_of results))) /\
  (forall (results : results_dict) (fleet synth : check_report) (s : astate),
     _generate_summary (with_fleet_synthetic results fleet synth) s
     = _generate_summary results s) /\
  (forall (E : environment) (s : astate), fst (_analyze_problems E s) <> Ok Skipped).
Proof.
  split; [|split; [|split; [|split; [|split; [|split]]]]].
  - exists all_off_config. intros E s Hs. apply analyze_oneagent_skipped.
    rewrite Hs. reflexivity.
  - exists all_off_config. intros E s Hs. apply analyze_activegate_skipped.
    rewrite Hs. reflexivity.
  - exists all_off_config. intros E s Hs. apply analyze_synthetic_skipped.
    rewrite Hs. reflexivity.
  - intros E s. split; [|split].
    + apply analyze_oneagent_skipped.
    + apply analyze_activegate_skipped.
    + apply analyze_synthetic_skipped.
  - intros results s Hag. eexists. split; [apply generate_summary_eq|].
    cbn [health_score]. unfold raw_score, offline_of. rewrite Hag. simpl.
    f_equal. f_equal. lia.
  - intros results fleet synth s. reflexivity.
  - apply analyze_problems_never_skipped.
Qed.

(** ** The notifier *)

Lemma scripts_differ (r m r' m' : pystr) : primary_script r m <> fallback_script r' m'.
Proof.
  intros H. apply (f_equal (fun l => nth_error l 41)) in H.
  unfold primary_script, fallback_script, lines in H. cbn in H. discriminate.
Qed.

Lemma emit_world_events (w : world) (evs : list event) (ev : event) :
  emit_world ev (world_with_events w evs) = world_with_events w (evs ++ [ev]).
Proof. unfold emit_world, world_with_events. simpl. rewrite app_assoc. reflexivity. Qed.

Lemma emit_world_one (w : world) (ev : event) : emit_world ev w = world_with_events w [ev].
Proof. reflexivity. Qed.

Lemma world_with_no_events (w : world) : world_with_events w [] = w.
Proof. destruct w. unfold world_with_events. simpl. rewrite app_nil_r. reflexivity. Qed.

Lemma world_with_events_app (w : world) (evs evs' : list event) :
  world_with_events (world_with_events w evs) evs' = world_with_events w (evs ++ evs').
Proof. unfold world_with_events. simpl. rewrite app_assoc. reflexivity. Qed.

Ltac events := rewrite ?emit_world_one, ?world_with_events_app; cbn [app].

(** What [send_imessage] does, outcome by outcome. *)
Lemma send_imessage_run (E : environment) (recipient message : pystr) (w : world) :
  let m := escape_message message in
  let primary := EvOsascript (primary_script recipient m) in
  let fallback := EvOsascript (fallback_script recipient m) in
  send_imessage E recipient message w =
  match osascript E (primary_script recipient m) with
  | Completed returncode stderr =>
      if returncode =? 0 then
        (Ok true,
         world_with_events w
           [primary; EvLog LInfo (lit "iMessage sent successfully to " ++ recipient)])
      else
        match osascript E (fallback_script recipient m) with
        | Completed returncode' _ =>
            (Ok (returncode' =? 0),
             world_with_events w
               [primary; EvLog LError (lit "iMessage failed: " ++ stderr); fallback])
        | TimeoutExpired e | RunRaises e =>
            (Ok false,
             world_with_events w
               [primary; EvLog LError (lit "iMessage failed: " ++ stderr); fallback;
                EvLog LError (lit "Fallback iMessage error: " ++ str_of_exn e)])
        end
  | TimeoutExpired _ =>
      (Ok false,
       world_with_events w [primary; EvLog LError (lit "iMessage send timed out")])
  | RunRaises e =>
      (Ok false,
       world_with_events w
         [primary; EvLog LError (lit "iMessage error: " ++ str_of_exn e)])
  end.
Proof.
  intros m primary fallback. unfold send_imessage, send_imessage_fallback, subprocess_run.
  fold (escape_message message). fold m. unfold_monad. cbn beta iota.
  destruct (osascript E (primary_script recipient m)) as [rc err|e|e]; cbn beta iota.
  - destruct (rc =? 0); cbn beta iota.
    + events. reflexivity.
    + destruct (osascript E (fallback_script recipient m)) as [rc' err'|e|e];
        cbn beta iota; events; reflexivity.
  - events. reflexivity.
  - events. reflexivity.
Qed.

Lemma not_fallback_primary (r m : pystr) (rest : list event) :
  (forall ev, In ev rest -> is_osascript ev = false) ->
  ~ fallback_invoked r m (EvOsascript (primary_script r (escape_message m)) :: rest).
Proof.
  intros Hrest [Heq|Hin].
  - exact (scripts_differ _ _ _ _
             (f_equal (fun ev => match ev with EvOsascript x => x | _ => [] end) Heq)).
  - apply Hrest in Hin. discriminate.
Qed.

(** The claim that the fallback also runs when the primary delivery raises
    an error fails: when [osascript] cannot be started, [send_imessage]
    logs the error and returns [False] after the single primary attempt. *)
Lemma fallback_not_invoked_on_error :
  (exists e, osascript failing_osascript_env
               (primary_script (lit "ops@example.org") (escape_message (lit "report")))
             = RunRaises e) /\
  exists evs,
    send_imessage failing_osascript_env (lit "ops@example.org") (lit "report") sample_world
    = (Ok false, world_with_events sample_world evs) /\
    length (filter is_osascript evs) = 1%nat /\
    ~ fallback_invoked (lit "ops@example.org") (lit "report") evs.
Proof.
  split; [eexists; reflexivity|].
  eexists. split; [rewrite send_imessage_run; reflexivity|].
  split; [reflexivity|].
  apply not_fallback_primary. intros ev [<-|[]]. reflexivity.
Qed.

(** C3, amended. The fallback delivery runs exactly when the primary
    delivery completes with a non-zero exit status.  It does not run when
    the primary times out, when the primary raises any other error, or when
    the primary exits with status zero; in the first two cases the send
    fails after the one attempt, in the last it succeeds. *)
Theorem fallback_iff_primary_exit_nonzero
    (E : environment) (recipient message : pystr) (w : world) :
  exists (ok : bool) (evs : list event),
    send_imessage E recipient message w = (Ok ok, world_with_events w evs) /\
    (fallback_invoked recipient message evs <-> primary_exit_nonzero E recipient message) /\
    (fallback_invoked recipient message evs -> length (filter is_osascript evs) = 2%nat) /\
    (~ fallback_invoked recipient message evs -> length (filter is_osascript evs) = 1%nat) /\
    (forall e, osascript E (primary_script recipient (escape_message message))
               = TimeoutExpired e ->
               ok = false /\ ~ fallback_invoked recipient message evs) /\
    (forall e, osascript E (primary_script recipient (escape_message message))
               = RunRaises e ->
               ok = false /\ ~ fallback_invoked recipient message evs) /\
    (forall stderr, osascript E (primary_script recipient (escape_message message))
                    = Completed 0 stderr ->
                    ok = true /\ ~ fallback_invoked recipient message evs).
Proof.
  pose proof (send_imessage_run E recipient message w) as Hrun. cbv zeta in Hrun.
  unfold primary_exit_nonzero.
  destruct (osascript E (primary_script recipient (escape_message message)))
    as [rc err|e|e] eqn:Hp.
  - destruct (rc =? 0) eqn:Hrc.
    + apply Z.eqb_eq in Hrc. subst rc.
      assert (Hno : ~ fallback_invoked recipient message
                [EvOsascript (primary_script recipient (escape_message message));
                 EvLog LInfo (lit "iMessage sent successfully to " ++ recipient)]).
      { apply not_fallback_primary. intros ev [<-|[]]. reflexivity. }
      do 2 eexists. split; [exact Hrun|].
      repeat split; try discriminate; try tauto.
      intros (rc & err' & Heq & Hne). injection Heq as <- _. congruence.
    + apply Z.eqb_neq in Hrc.
      destruct (osascript E (fallback_script recipient (escape_message message)))
        as [rc' err'|e|e]; do 2 eexists; (split; [exact Hrun|]).
      all: split; [split; [intros _; exists rc, err; split; [reflexivity | exact Hrc]
                          | intros _; right; right; left; reflexivity]|].
      all: split; [intros _; reflexivity|].
      all: split; [intros Hno; exfalso; apply Hno; right; right; left; reflexivity|].
      all: split; [intros e0 Heq; discriminate|].
      all: split; [intros e0 Heq; discriminate|].
      all: intros s0 Heq; injection Heq as Heq _; congruence.
  - assert (Hno : ~ fallback_invoked recipient message
              [EvOsascript (primary_script recipient (escape_message message));
               EvLog LError (lit "iMessage send timed out")]).
    { apply not_fallback_primary. intros ev [<-|[]]. reflexivity. }
    do 2 eexists. split; [exact Hrun|].
    repeat split; try discriminate; try tauto.
    intros (rc & err' & Heq & _). discriminate.
  - assert (Hno : ~ fallback_invoked recipient message
              [EvOsascript (primary_script recipient (escape_message message));
               EvLog LError (lit "iMessage error: " ++ str_of_exn e)]).
    { apply not_fallback_primary. intros ev [<-|[]]. reflexivity. }
    do 2 eexists. split; [exact Hrun|].
    repeat split; try discriminate; try tauto.
    intros (rc & err' & Heq & _). discriminate.
Qed.

(** ** Strings *)

Lemma startswith_spec (s p : pystr) :
  startswith s p = true <-> exists post, s = p ++ post.
Proof.
  revert s. induction p as [|c p IH]; intros s.
  - split; [intros _; exists s; reflexivity | destruct s; reflexivity].
  - destruct s as [|d s]; simpl.
    + split; [discriminate | intros [post H]; discriminate].
    + rewrite andb_true_iff, N.eqb_eq, IH. split.
      * intros [-> [post ->]]. exists post. reflexivity.
      * intros [post H]. injection H as -> ->. split; [reflexivity | eauto].
Qed.

(** The substring test holds exactly when the needle occurs somewhere. *)
Lemma py_in_spec (needle hay : pystr) :
  py_in needle hay = true <-> substring needle hay.
Proof.
  unfold substring. induction hay as [|c hay IH].
  - change (py_in needle []) with (startswith [] needle || false).
    rewrite orb_false_r, startswith_spec. split.
    + intros [post H]. exists [], post. exact H.
    + intros [pre [post H]]. destruct pre; [|discriminate]. exists post. exact H.
  - change (py_in needle (c :: hay))
      with (startswith (c :: hay) needle || py_in needle hay).
    rewrite orb_true_iff, IH, startswith_spec. split.
    + intros [[post H]|[pre [post H]]].
      * exists [], post. exact H.
      * exists (c :: pre), post. simpl. rewrite H. reflexivity.
    + intros [pre [post H]]. destruct pre as [|d pre].
      * left. exists post. exact H.
      * right. simpl in H. injection H as _ H. exists pre, post. exact H.
Qed.

Lemma join_snoc (sep : pystr) (ls : list pystr) (p : pystr) :
  ls <> [] -> join sep (ls ++ [p]) = join sep ls ++ sep ++ p.
Proof.
  induction ls as [|a r IH]; intros Hne; [congruence|].
  destruct r as [|b r]; [reflexivity|].
  change (join sep ((a :: b :: r) ++ [p])) with (a ++ sep ++ join sep ((b :: r) ++ [p])).
  rewrite IH by discriminate.
  change (join sep (a :: b :: r)) with (a ++ sep ++ join sep (b :: r)).
  rewrite <- !app_assoc. reflexivity.
Qed.

Lemma lines_framed (first : pystr) (rest : list pystr) :
  lines ([] :: (first :: rest) ++ [[]]) = nl ++ lines (first :: rest) ++ nl.
Proof.
  unfold lines.
  change (join nl ([] :: (first :: rest) ++ [[]]))
    with ([] ++ nl ++ join nl ((first :: rest) ++ [[]])).
  rewrite join_snoc by discriminate. rewrite app_nil_r. reflexivity.
Qed.

Lemma starts_nonspace_app (a b : pystr) :
  starts_nonspace a = true -> starts_nonspace (a ++ b) = true.
Proof. destruct a; [discriminate | trivial]. Qed.

Lemma lines_starts_nonspace (first : pystr) (rest : list pystr) :
  starts_nonspace first = true -> starts_nonspace (lines (first :: rest)) = true.
Proof.
  intros H. unfold lines. destruct rest; [exact H|].
  apply starts_nonspace_app. exact H.
Qed.

Lemma lines_ends_nonspace (ls : list pystr) (lastl : pystr) :
  ends_nonspace lastl = true -> ends_nonspace (lines (ls ++ [lastl])) = true.
Proof.
  intros H. unfold ends_nonspace, lines in *. destruct ls as [|a r]; [exact H|].
  rewrite join_snoc by discriminate. rewrite !rev_app_distr.
  do 2 apply starts_nonspace_app. exact H.
Qed.

(** Stripping removes a newline on either side of a text that starts and
    ends with something else than white space. *)
Lemma strip_framed (core : pystr) :
  starts_nonspace core = true -> ends_nonspace core = true ->
  strip (nl ++ core ++ nl) = core.
Proof.
  intros Hs He. unfold strip, strip_by, lstrip_by, rstrip_by.
  assert (Hl : dropwhile py_isspace (nl ++ core ++ nl) = core ++ nl).
  { simpl. destruct core as [|c r]; [discriminate|]. simpl in *.
    destruct (py_isspace c); [discriminate | reflexivity]. }
  rewrite Hl. rewrite rev_app_distr. simpl.
  unfold ends_nonspace in He. destruct (rev core) as [|c r] eqn:Hrev; [discriminate|].
  simpl in *. destruct (py_isspace c); [discriminate|].
  rewrite <- Hrev. apply rev_involutive.
Qed.

Lemma strip_lines_framed (first lastl : pystr) (mid : list pystr) :
  starts_nonspace first = true -> ends_nonspace lastl = true ->
  strip (lines ([] :: (first :: mid ++ [lastl]) ++ [[]]))
  = lines (first :: mid ++ [lastl]).
Proof.
  intros Hs He. rewrite lines_framed. apply strip_framed.
  - apply lines_starts_nonspace. exact Hs.
  - change (first :: mid ++ [lastl]) with ((first :: mid) ++ [lastl]).
    apply lines_ends_nonspace. exact He.
Qed.

Lemma strip_unconfigured_report (timestamp : pystr) :
  strip (unconfigured_report timestamp) = setup_text timestamp.
Proof.
  exact (strip_lines_framed
           (hd [] (setup_lines timestamp)) (last (setup_lines timestamp) [])
           (removelast (tl (setup_lines timestamp))) eq_refl eq_refl).
Qed.

Lemma strip_error_report (timestamp : pystr) (e : exn) :
  strip (error_report timestamp e) = error_text timestamp (str_of_exn e).
Proof.
  exact (strip_lines_framed
           (hd [] (error_lines timestamp (str_of_exn e)))
           (last (error_lines timestamp (str_of_exn e)) [])
           (removelast (tl (error_lines timestamp (str_of_exn e)))) eq_refl eq_refl).
Qed.

(** ** Report generation *)

Lemma generate_unconfigured (E : environment) (w : world) :
  credentials_unconfigured (CONFIG w) = true ->
  generate_daily_report E w = (Ok (setup_text (now_report E)), w).
Proof.
  intros H. unfold generate_daily_report. unfold_monad. cbn beta iota.
  rewrite H. cbn beta iota. rewrite strip_unconfigured_report. reflexivity.
Qed.

Lemma generate_error (E : environment) (w w1 : world) (e : exn) :
  credentials_unconfigured (CONFIG w) = false ->
  real_mode_report E (now_report E) w = (Raise e, w1) ->
  generate_daily_report E w
  = (Ok (error_text (now_report E) (str_of_exn e)),
     world_with_events w1 [error_log_event e]).
Proof.
  intros H Hraise. unfold generate_daily_report. unfold_monad. cbn beta iota.
  rewrite H. cbn beta iota. rewrite Hraise. cbn beta iota.
  rewrite strip_error_report. reflexivity.
Qed.

Lemma generate_total (E : environment) (w : world) :
  exists text w', generate_daily_report E w = (Ok text, w').
Proof.
  unfold generate_daily_report. unfold_monad. cbn beta iota.
  destruct (credentials_unconfigured (CONFIG w)); cbn beta iota; [eauto|].
  destruct (real_mode_report E (now_report E) w) as [[text|e] w1]; cbn beta iota; eauto.
Qed.

(** An exception of [analyze_all] is an exception of the [try] block. *)
Lemma real_mode_raises (E : environment) (timestamp : pystr) (w : world)
    (e : exn) (s1 : astate) :
  analyze_all E (fresh_analyzer w) = (Raise e, s1) ->
  real_mode_report E timestamp w = (Raise e, the_world s1).
Proof.
  intros H. unfold real_mode_report. unfold_monad. cbn beta iota.
  unfold fresh_analyzer in H. rewrite H. reflexivity.
Qed.

(** C7. When the tenant URL or the API token still holds its placeholder
    value, report generation returns the setup instructions, with the
    time of the report on their second line, and leaves the world as it
    was: no request is sent to the API and nothing else happens. *)
Theorem unconfigured_report_without_api_calls (E : environment) (w : world) :
  DYNATRACE_TENANT_URL (CONFIG w) = placeholder_url \/
  DYNATRACE_API_TOKEN (CONFIG w) = placeholder_token ->
  exists evs,
    generate_daily_report E w
    = (Ok (setup_text (now_report E)), world_with_events w evs) /\
    evs = [].
Proof.
  intros H. exists []. split; [|reflexivity].
  rewrite world_with_no_events. apply generate_unconfigured.
  unfold credentials_unconfigured. destruct H as [H|H]; rewrite H.
  - reflexivity.
  - apply orb_true_r.
Qed.

(** C8. Report generation never raises; and when the body of its [try]
    block raises an exception, in particular when the analysis does, it
    logs the error and returns the error text, which holds the first 100
    characters of the exception message and the pointer to the log file. *)
Theorem report_generation_recovers_from_exceptions (E : environment) (w : world) :
  (exists text w', generate_daily_report E w = (Ok text, w')) /\
  (forall e s1,
     analyze_all E (fresh_analyzer w) = (Raise e, s1) ->
     real_mode_report E (now_report E) w = (Raise e, the_world s1)) /\
  (forall e w1,
     credentials_unconfigured (CONFIG w) = false ->
     real_mode_report E (now_report E) w = (Raise e, w1) ->
     generate_daily_report E w
     = (Ok (error_text (now_report E) (str_of_exn e)),
        world_with_events w1 [error_log_event e]) /\
     substring (firstn 100 (str_of_exn e)) (error_text (now_report E) (str_of_exn e)) /\
     (length (firstn 100 (str_of_exn e)) <= 100)%nat /\
     (exists rest, str_of_exn e = firstn 100 (str_of_exn e) ++ rest) /\
     substring log_pointer (error_text (now_report E) (str_of_exn e))).
Proof.
  split; [apply generate_total|]. split; [intros e s1; apply real_mode_raises|].
  intros e w1 Hconf Hraise. split; [apply generate_error; assumption|].
  split; [|split; [|split]].
  - exists (bell ++ lit " Dynatrace Daily Report" ++ nl ++ calendar ++ lit " "
            ++ now_report E ++ nl ++ nl ++ cross_mark ++ lit " Error fetching data" ++ nl),
           (nl ++ nl ++ log_pointer).
    unfold error_text, error_lines, lines. cbn [join].
    repeat rewrite <- app_assoc. reflexivity.
  - apply firstn_le_length.
  - exists (skipn 100 (str_of_exn e)). symmetry. apply firstn_skipn.
  - exists (bell ++ lit " Dynatrace Daily Report" ++ nl ++ calendar ++ lit " "
            ++ now_report E ++ nl ++ nl ++ cross_mark ++ lit " Error fetching data" ++ nl
            ++ firstn 100 (str_of_exn e) ++ nl ++ nl), [].
    unfold error_text, error_lines, lines. cbn [join].
    repeat rewrite <- app_assoc. rewrite app_nil_r. reflexivity.
Qed.

(** ** The orchestrator *)

(** [main] is its report stage followed by the choice of delivery; when
    the recipient holds the digits of the placeholder, the report is
    printed and nothing is sent. *)
Lemma main_prints (E : environment) (w w1 : world) (report : pystr) :
  report_stage E w = (Ok report, w1) ->
  py_in (lit "1234567890") (IMESSAGE_RECIPIENT (CONFIG w1)) = true ->
  main E w = (Ok tt, world_with_events w1 (printing_events report)).
Proof.
  unfold report_stage, main, print. unfold_monad. cbn beta iota.
  intros Hstage Hrec.
  destruct (load_config_file E _) as [[[]|e] w2]; cbn beta iota in *; [|discriminate].
  destruct (generate_daily_report E w2) as [[rep|e] w3]; cbn beta iota in *;
    [|discriminate].
  injection Hstage as -> ->.
  cbn [CONFIG emit_world]. rewrite Hrec. cbn beta iota.
  unfold printing_events, world_with_events, emit_world. cbn [CONFIG os_environ trace].
  repeat rewrite <- app_assoc. reflexivity.
Qed.

(** C9. Placeholder detection is a substring test.  Whenever the tenant
    URL or the API token contains YOUR_ anywhere, report generation returns
    the setup instructions and sends no request; and whenever the
    recipient that [main] reads after loading the configuration contains
    1234567890 anywhere, [main] prints the report and runs no delivery
    script. *)
Theorem placeholder_detection_is_substring_test (E : environment) (w : world) :
  (substring (lit "YOUR_") (DYNATRACE_TENANT_URL (CONFIG w)) \/
   substring (lit "YOUR_") (DYNATRACE_API_TOKEN (CONFIG w)) ->
   generate_daily_report E w = (Ok (setup_text (now_report E)), w)) /\
  (forall report w1,
     report_stage E w = (Ok report, w1) ->
     substring (lit "1234567890") (IMESSAGE_RECIPIENT (CONFIG w1)) ->
     main E w = (Ok tt, world_with_events w1 (printing_events report)) /\
     In (EvPrint report) (printing_events report) /\
     forall ev, In ev (printing_events report) -> is_osascript ev = false).
Proof.
  split.
  - intros H. apply generate_unconfigured. unfold credentials_unconfigured.
    apply orb_true_iff. destruct H as [H|H]; [left|right]; apply py_in_spec; exact H.
  - intros report w1 Hstage Hrec. split; [|split].
    + apply main_prints; [exact Hstage | apply py_in_spec; exact Hrec].
    + unfold printing_events. simpl. tauto.
    + unfold printing_events. intros ev Hin. simpl in Hin.
      repeat (destruct Hin as [<-|Hin]; [reflexivity|]). destruct Hin.
Qed.

(** ** The properties at sample inputs *)

Lemma problems_check_counts_details_issue_witness :
  exists details s',
    _analyze_problems sample_env sample_astate
    = (Ok (ProblemsReport 6 2 1 details), s') /\
    length details = 5%nat /\
    issues (self s') = [critical_issue 2].
Proof.
  destruct (problems_check_counts_details_issue sample_env sample_astate
              sample_data sample_problems eq_refl eq_refl)
    as (details & s' & Heq & _ & _ & Hlen & Hiss & _).
  exists details, s'. split; [exact Heq|]. split; [exact Hlen|].
  apply Hiss. reflexivity.
Defined.

Lemma fleet_fragmentation_and_top_versions_witness :
  exists modes top s',
    _analyze_oneagent sample_env sample_astate
    = (Ok (FleetReport 10 modes 4 top), s') /\
    top = [(lit "1.0", 5); (lit "1.1", 3); (lit "1.2", 1)] /\
    issues (self s') = [fragmentation_issue 4].
Proof.
  destruct (fleet_fragmentation_and_top_versions sample_env sample_astate
              sample_data sample_fleet eq_refl eq_refl eq_refl)
    as (modes & top & s' & Heq & _ & _ & _ & Hex).
  exists modes, top, s'. split; [exact Heq|]. apply Hex. reflexivity.
Defined.

Lemma fleet_report_invariants_witness :
  exists modes top s',
    _analyze_oneagent sample_env sample_astate
    = (Ok (FleetReport 10 modes 4 top), s') /\
    sum_counts modes = 10 /\ (length top <= 3)%nat.
Proof.
  destruct (fleet_report_invariants sample_env sample_astate
              sample_data sample_fleet eq_refl eq_refl eq_refl)
    as (total & modes & vc & top & s' & Heq & Htot & _ & Hsum & _ & Hvc & _ & _ & Hlen & _).
  subst total vc. exists modes, top, s'.
  split; [exact Heq|]. split; [exact Hsum | exact Hlen].
Defined.

Lemma toggled_checks_skippable_witness :
  _analyze_oneagent one_error_env all_off_astate = (Ok Skipped, all_off_astate) /\
  _analyze_activegate one_error_env all_off_astate = (Ok Skipped, all_off_astate) /\
  _analyze_synthetic one_error_env all_off_astate = (Ok Skipped, all_off_astate).
Proof.
  destruct (proj1 (proj2 (proj2 (proj2 toggled_checks_skippable)))
              one_error_env all_off_astate) as (Hfleet & Hgate & Hsynth).
  split; [apply Hfleet; reflexivity|].
  split; [apply Hgate; reflexivity | apply Hsynth; reflexivity].
Defined.

Lemma fallback_iff_primary_exit_nonzero_witness :
  exists ok evs,
    send_imessage fallback_ok_env (lit "ops@example.org") (lit "report") sample_world
    = (Ok ok, world_with_events sample_world evs) /\
    fallback_invoked (lit "ops@example.org") (lit "report") evs /\
    length (filter is_osascript evs) = 2%nat.
Proof.
  destruct (fallback_iff_primary_exit_nonzero fallback_ok_env
              (lit "ops@example.org") (lit "report") sample_world)
    as (ok & evs & Heq & Hiff & Htwo & _).
  assert (Hinv : fallback_invoked (lit "ops@example.org") (lit "report") evs).
  { apply Hiff. exists 1, (lit "execution error").
    split; [reflexivity | discriminate]. }
  exists ok, evs. split; [exact Heq|]. split; [exact Hinv | exact (Htwo Hinv)].
Defined.

Lemma unconfigured_report_without_api_calls_witness :
  exists evs,
    generate_daily_report sample_env sample_world
    = (Ok (setup_text (now_report sample_env)), world_with_events sample_world evs) /\
    evs = [].
Proof.
  apply (unconfigured_report_without_api_calls sample_env sample_world).
  left. reflexivity.
Defined.

Lemma report_generation_recovers_from_exceptions_witness :
  exists w1,
    generate_daily_report raising_env configured_world
    = (Ok (error_text (now_report raising_env) long_message), w1) /\
    (length long_message > 100)%nat.
Proof.
  eexists. split; [|vm_compute; lia].
  refine (proj1 (proj2 (proj2 (report_generation_recovers_from_exceptions
                                 raising_env configured_world))
                  (Exception long_message) _ eq_refl _)).
  vm_compute. reflexivity.
Defined.

Lemma placeholder_detection_is_substring_test_witness :
  generate_daily_report sample_env lookalike_world
  = (Ok (setup_text (now_report sample_env)), lookalike_world) /\
  exists report w1,
    main sample_env lookalike_world
    = (Ok tt, world_with_events w1 (printing_events report)).
Proof.
  destruct (placeholder_detection_is_substring_test sample_env lookalike_world)
    as [Hgen Hmain].
  split.
  - apply Hgen. right. exists (lit "dt0c01."), (lit "KEY7"). reflexivity.
  - do 2 eexists. refine (proj1 (Hmain _ _ _ _)).
    + reflexivity.
    + exists (lit "+44"), []. reflexivity.
Defined.

(** ** The analysis as a whole *)

Lemma extends_refl (s : astate) : extends s s [].
Proof. unfold extends. rewrite app_nil_r. auto. Qed.

Lemma extends_trans (s s1 s2 : astate) (a b : list pystr) :
  extends s s1 a -> extends s1 s2 b -> extends s s2 (a ++ b).
Proof.
  unfold extends. intros (Hc1 & Hk1 & Hi1) (Hc2 & Hk2 & Hi2).
  rewrite Hc2, Hk2, Hi2, Hi1, app_assoc. auto.
Qed.

Lemma api_answer_extends (E : environment) (s s' : astate) (new : list pystr)
    (endpoint : pystr) (params : option (list (pystr * pystr))) :
  extends s s' new -> api_answer E s' endpoint params = api_answer E s endpoint params.
Proof. unfold extends, api_answer. intros (-> & _ & _). reflexivity. Qed.

(** A request that does not raise leaves the analyzer and the
    configuration alone and returns the mapping of [data_of]. *)
Lemma get_step (E : environment) (s : astate) (endpoint : pystr)
    (params : option (list (pystr * pystr))) (data : api_data) :
  data_of (api_answer E s endpoint params) = Some data ->
  exists s', in_world (_get E (client (self s)) endpoint params) s = (Ok data, s') /\
             extends s s' [].
Proof.
  unfold api_answer, _get. unfold_monad. cbn beta iota. cbn [the_world].
  destruct (requests_get E _ _ _) as [d|e|e]; cbn beta iota; intros H;
    [injection H as <- | injection H as <- | discriminate].
  all: eexists; split; [reflexivity|].
  all: unfold extends, config_of; cbn [self the_world CONFIG emit_world];
    rewrite app_nil_r; auto.
Qed.

Lemma issues_append_extends (s : astate) (issue : pystr) :
  extends s (with_issues s [issue]) [issue].
Proof. unfold extends, with_issues, config_of. cbn. auto. Qed.

Lemma analyze_problems_step (E : environment) (s : astate) :
  api_answers E ->
  exists s',
    _analyze_problems E s
    = (Ok (ProblemsReport (len (open_problems E s))
             (count_severity "ERROR" (open_problems E s))
             (count_severity "WARNING" (open_problems E s))
             (map detail_of (firstn 5 (open_problems E s)))), s') /\
    extends s s' (problems_issues E s).
Proof.
  intros Hapi. unfold problems_issues, open_problems, answered.
  set (params := Some (problems_params E (PROBLEM_LOOKBACK_HOURS (config_of s)))).
  destruct (data_of (api_answer E s (lit "problems") params)) as [data|] eqn:Hd;
    [|exfalso; exact (Hapi _ _ _ Hd)].
  destruct (get_step E s _ _ data Hd) as (s1 & Hget & Hext).
  cbn [get_default]. set (P := get_default (data_problems data) []).
  unfold _analyze_problems, get_problems.
  unfold bind at 1. unfold gets at 1. cbn beta iota.
  unfold bind at 1. unfold gets at 1. cbn beta iota.
  unfold bind at 1. fold params. rewrite Hget. cbn beta iota. fold P.
  change (len (filter (fun p => opt_eqb (severityLevel p) (lit "ERROR")) P))
    with (count_severity "ERROR" P).
  change (len (filter (fun p => opt_eqb (severityLevel p) (lit "WARNING")) P))
    with (count_severity "WARNING" P).
  destruct (count_severity "ERROR" P >? 0).
  - unfold bind, ret, issues_append, modify. cbn beta iota.
    eexists. split; [reflexivity|].
    rewrite <- (app_nil_l [critical_issue _]).
    exact (extends_trans _ _ _ _ _ Hext (issues_append_extends s1 _)).
  - unfold bind, ret. cbn beta iota. eexists. split; [reflexivity | exact Hext].
Qed.

Lemma analyze_oneagent_step (E : environment) (s : astate) :
  api_answers E ->
  exists r s', _analyze_oneagent E s = (Ok r, s') /\ extends s s' (fleet_issues E s).
Proof.
  intros Hapi. unfold fleet_issues, hosts, answered.
  destruct (CHECK_ONEAGENT_HEALTH (config_of s)) eqn:Hon.
  - destruct (data_of (api_answer E s (lit "entities") (Some oneagent_params)))
      as [data|] eqn:Hd; [|exfalso; exact (Hapi _ _ _ Hd)].
    destruct (get_step E s _ _ data Hd) as (s1 & Hget & Hext).
    cbn [get_default]. set (entities := get_default (data_entities data) []).
    unfold _analyze_oneagent, get_oneagent_info.
    unfold bind at 1. unfold gets at 1. cbn beta iota. rewrite Hon. cbn [negb].
    unfold bind at 1. unfold gets at 1. cbn beta iota.
    unfold bind at 1. rewrite Hget. cbn beta iota. fold entities.
    rewrite tally_entities_spec, len_tally_of.
    destruct (distinct_count (map entity_version entities) >? 3).
    + unfold bind, ret, issues_append, modify. cbn beta iota.
      do 2 eexists. split; [reflexivity|].
      rewrite <- (app_nil_l [fragmentation_issue _]).
      exact (extends_trans _ _ _ _ _ Hext (issues_append_extends s1 _)).
    + unfold bind, ret. cbn beta iota. do 2 eexists. split; [reflexivity | exact Hext].
  - exists Skipped, s. split; [apply analyze_oneagent_skipped; exact Hon|].
    apply extends_refl.
Qed.

Lemma analyze_activegate_step (E : environment) (s : astate) :
  api_answers E ->
  exists r s',
    _analyze_activegate E s = (Ok r, s') /\
    get_default (report_int r "offline") 0 = offline_gateways E s /\
    extends s s' (gateway_issues E s).
Proof.
  intros Hapi. unfold gateway_issues, offline_gateways, gateways, answered.
  destruct (CHECK_ACTIVEGATE_HEALTH (config_of s)) eqn:Hon.
  - destruct (data_of (api_answer E s (lit "activeGates") None))
      as [data|] eqn:Hd; [|exfalso; exact (Hapi _ _ _ Hd)].
    destruct (get_step E s _ _ data Hd) as (s1 & Hget & Hext).
    cbn [get_default]. set (G := get_default (data_activeGates data) []).
    unfold _analyze_activegate, get_activegates.
    unfold bind at 1. unfold gets at 1. cbn beta iota. rewrite Hon. cbn [negb].
    unfold bind at 1. unfold gets at 1. cbn beta iota.
    unfold bind at 1. rewrite Hget. cbn beta iota. fold G.
    change (len G) with (Z.of_nat (length G)).
    destruct (Z.of_nat (length G) - count_true connected G >? 0).
    + unfold bind, ret, issues_append, modify. cbn beta iota.
      do 2 eexists. split; [reflexivity|]. split; [reflexivity|].
      rewrite <- (app_nil_l [offline_issue _]).
      exact (extends_trans _ _ _ _ _ Hext (issues_append_extends s1 _)).
    + unfold bind, ret. cbn beta iota. do 2 eexists.
      split; [reflexivity|]. split; [reflexivity | exact Hext].
  - exists Skipped, s. split; [apply analyze_activegate_skipped; exact Hon|].
    split; [reflexivity | apply extends_refl].
Qed.

Lemma analyze_synthetic_step (E : environment) (s : astate) :
  api_answers E ->
  exists r s', _analyze_synthetic E s = (Ok r, s') /\ extends s s' [].
Proof.
  intros Hapi.
  destruct (CHECK_SYNTHETIC_MONITORS (config_of s)) eqn:Hon.
  - destruct (data_of (api_answer E s (lit "synthetic/monitors") None))
      as [data|] eqn:Hd; [|exfalso; exact (Hapi _ _ _ Hd)].
    destruct (get_step E s _ _ data Hd) as (s1 & Hget & Hext).
    unfold _analyze_synthetic, get_synthetic_monitors.
    unfold bind at 1. unfold gets at 1. cbn beta iota. rewrite Hon. cbn [negb].
    unfold bind at 1. unfold gets at 1. cbn beta iota.
    unfold bind at 1. rewrite Hget. cbn beta iota.
    unfold ret. do 2 eexists. split; [reflexivity | exact Hext].
  - exists Skipped, s. split; [apply analyze_synthetic_skipped; exact Hon|].
    apply extends_refl.
Qed.

(** The same requests get the same answers in an extended state. *)
Lemma extends_same_inputs (E : environment) (s s' : astate) (new : list pystr) :
  extends s s' new ->
  open_problems E s' = open_problems E s /\
  fleet_issues E s' = fleet_issues E s /\
  offline_gateways E s' = offline_gateways E s /\
  gateway_issues E s' = gateway_issues E s.
Proof.
  intros Hext. pose proof Hext as (Hc & Hk & _).
  unfold gateway_issues, offline_gateways, gateways, fleet_issues, hosts,
    open_problems, answered.
  rewrite !(api_answer_extends E s s' new) by exact Hext. rewrite !Hk. auto.
Qed.

(** When no request raises, the analysis returns, its summary scores the
    ERROR problems, the WARNING problems and the offline gateways the API
    reported, and its issues are those of the three checks in order. *)
Lemma analyze_all_summary (E : environment) (s : astate) :
  api_answers E ->
  exists results s' sm,
    analyze_all E s = (Ok results, s') /\
    summary results = Some sm /\
    health_score sm
    = Z.max 0 (Z.min 100
        (100 - 10 * count_severity "ERROR" (open_problems E s)
             - 2 * count_severity "WARNING" (open_problems E s)
             - 15 * offline_gateways E s)) /\
    summary_issues sm
    = issues (self s) ++ problems_issues E s ++ fleet_issues E s ++ gateway_issues E s /\
    issues_count sm = Z.of_nat (length (summary_issues sm)).
Proof.
  intros Hapi. unfold analyze_all.
  unfold bind at 1. unfold in_world at 1, logger, modify. cbn beta iota.
  set (s0 := {| self := self s; the_world := _ |}).
  assert (H0 : extends s s0 []) by (unfold extends, config_of; cbn; rewrite app_nil_r; auto).
  destruct (analyze_problems_step E s0 Hapi) as (s1 & Hp & H1).
  unfold bind at 1. rewrite Hp. cbn beta iota.
  destruct (analyze_oneagent_step E s1 Hapi) as (r2 & s2 & Ho & H2).
  unfold bind at 1. rewrite Ho. cbn beta iota.
  destruct (analyze_activegate_step E s2 Hapi) as (r3 & s3 & Hg & Hoff & H3).
  unfold bind at 1. rewrite Hg. cbn beta iota.
  destruct (analyze_synthetic_step E s3 Hapi) as (r4 & s4 & Hs & H4).
  unfold bind at 1. rewrite Hs. cbn beta iota.
  unfold bind at 1. rewrite generate_summary_eq. cbn beta iota. unfold ret.
  pose proof (extends_trans _ _ _ _ _ H0 H1) as H01. cbn [app] in H01.
  pose proof (extends_trans _ _ _ _ _ H01 H2) as H02.
  pose proof (extends_trans _ _ _ _ _ H02 H3) as H03.
  pose proof (extends_trans _ _ _ _ _ H03 H4) as H04.
  destruct (extends_same_inputs E s s0 _ H0) as (E0p & _).
  destruct (extends_same_inputs E s s1 _ H01) as (_ & E1f & _).
  destruct (extends_same_inputs E s s2 _ H02) as (_ & _ & E2o & E2g).
  unfold problems_issues in *. rewrite E0p in *. rewrite E1f, E2g in *.
  do 3 eexists. split; [reflexivity|]. split; [reflexivity|].
  cbn [health_score summary_issues issues_count].
  split; [|split].
  - unfold raw_score, critical_of, warnings_of, offline_of. cbn [problems activegate].
    rewrite Hoff, E2o. reflexivity.
  - destruct H04 as (_ & _ & ->). rewrite app_nil_r, <- !app_assoc. reflexivity.
  - reflexivity.
Qed.

(** C1. For every results dictionary and analyzer state, the summary's
    health score is 100 minus 10 per critical problem, 2 per warning and 15
    per offline ActiveGate, clamped to [0,100]; the status is the healthy
    label from 90 up, the needs-attention label from 70 up to 89 and the
    critical label below; and the summary carries the whole accumulated
    issues list with its length as the issue count.  In a run of the
    analysis in which no request raises, the counts are those of the ERROR
    problems, the WARNING problems and the offline gateways the API
    reported. *)
Theorem summary_score_status_issues :
  (forall (results : results_dict) (s : astate),
     exists sm : summary_dict,
       _generate_summary results s = (Ok sm, s) /\
       (raw_score results < 0 -> health_score sm = 0) /\
       (0 <= raw_score results <= 100 -> health_score sm = raw_score results) /\
       (100 < raw_score results -> health_score sm = 100) /\
       (90 <= health_score sm -> status sm = status_healthy) /\
       (70 <= health_score sm < 90 -> status sm = status_needs_attention) /\
       (health_score sm < 70 -> status sm = status_critical) /\
       summary_issues sm = issues (self s) /\
       issues_count sm = Z.of_nat (length (issues (self s)))) /\
  (forall (E : environment) (s : astate),
     api_answers E ->
     exists results s' sm,
       analyze_all E s = (Ok results, s') /\
       summary results = Some sm /\
       health_score sm
       = Z.max 0 (Z.min 100
           (100 - 10 * count_severity "ERROR" (open_problems E s)
                - 2 * count_severity "WARNING" (open_problems E s)
                - 15 * offline_gateways E s)) /\
       summary_issues sm
       = issues (self s) ++ problems_issues E s ++ fleet_issues E s
         ++ gateway_issues E s /\
       issues_count sm = Z.of_nat (length (summary_issues sm))).
Proof.
  split; [|exact analyze_all_summary].
  intros results s.
  eexists. split; [apply generate_summary_eq|]. cbn [health_score status
    summary_issues issues_count].
  set (score := Z.max 0 (Z.min 100 (raw_score results))).
  assert (Hs : score = Z.max 0 (Z.min 100 (raw_score results))) by reflexivity.
  repeat split; intros; try lia.
  - destruct (score >=? 90) eqn:H1; [reflexivity | lia].
  - destruct (score >=? 90) eqn:H1; [lia|].
    destruct (score >=? 70) eqn:H2; [reflexivity | lia].
  - destruct (score >=? 90) eqn:H1; [lia|].
    destruct (score >=? 70) eqn:H2; [lia | reflexivity].
Qed.

Lemma summary_score_status_issues_witness :
  (exists sm,
     _generate_summary sample_results_mild sample_astate = (Ok sm, sample_astate) /\
     health_score sm = 86 /\ status sm = status_needs_attention) /\
  (exists results s' sm,
     analyze_all sample_env sample_astate = (Ok results, s') /\
     summary results = Some sm /\
     health_score sm = 63 /\
     length (summary_issues sm) = 3%nat).
Proof.
  destruct summary_score_status_issues as [Hsum Hall]. split.
  - destruct (Hsum sample_results_mild sample_astate)
      as (sm & Heq & _ & Hmid & _ & _ & Hna & _).
    assert (Hscore : health_score sm = 86).
    { rewrite Hmid; [reflexivity | vm_compute; split; discriminate]. }
    exists sm. split; [exact Heq|]. split; [exact Hscore|].
    apply Hna. rewrite Hscore. split; [discriminate | reflexivity].
  - assert (Hapi : api_answers sample_env) by (intros url hdrs params; discriminate).
    destruct (Hall sample_env sample_astate Hapi)
      as (results & s' & sm & Heq & Hsm & Hscore & Hiss & _).
    exists results, s', sm. split; [exact Heq|]. split; [exact Hsm|].
    split; [rewrite Hscore; reflexivity | rewrite Hiss; reflexivity].
Defined.

(** * Further properties of the code *)

(** ** Delivery *)

(** X1. [send_imessage] never raises.  It returns [True] exactly when the
    primary script exits with status zero, or the primary script exits with
    another status and the fallback script exits with status zero; and it
    runs [osascript] once or twice. *)
Theorem send_imessage_outcome
    (E : environment) (recipient message : pystr) (w : world) :
  exists (ok : bool) (evs : list event),
    send_imessage E recipient message w = (Ok ok, world_with_events w evs) /\
    (ok = true <->
     exits_zero E (primary_script recipient (escape_message message)) \/
     (primary_exit_nonzero E recipient message /\
      exits_zero E (fallback_script recipient (escape_message message)))) /\
    (1 <= length (filter is_osascript evs) <= 2)%nat.
Proof.
  pose proof (send_imessage_run E recipient message w) as Hrun. cbv zeta in Hrun.
  unfold exits_zero, primary_exit_nonzero.
  destruct (osascript E (primary_script recipient (escape_message message)))
    as [rc err|e|e] eqn:Hp.
  - destruct (rc =? 0) eqn:Hrc.
    + apply Z.eqb_eq in Hrc. subst rc. do 2 eexists. split; [exact Hrun|].
      split; [|simpl; lia]. split; [intros _; left; eauto | reflexivity].
    + apply Z.eqb_neq in Hrc.
      destruct (osascript E (fallback_script recipient (escape_message message)))
        as [rc' err'|e|e] eqn:Hf; do 2 eexists; (split; [exact Hrun|]);
        (split; [|simpl; lia]).
      * split.
        -- intros Hok. apply Z.eqb_eq in Hok. subst rc'. right.
           split; [exists rc, err; auto | eauto].
        -- intros [[s0 H0]|[_ [s0 H0]]]; [congruence|].
           injection H0 as -> _. reflexivity.
      * split; [discriminate|].
        intros [[s0 H0]|[_ [s0 H0]]]; [congruence | discriminate].
      * split; [discriminate|].
        intros [[s0 H0]|[_ [s0 H0]]]; [congruence | discriminate].
  - do 2 eexists. split; [exact Hrun|]. split; [|simpl; lia].
    split; [discriminate|].
    intros [[s0 H0]|[(rc & s1 & H1 & _) _]]; discriminate.
  - do 2 eexists. split; [exact Hrun|]. split; [|simpl; lia].
    split; [discriminate|].
    intros [[s0 H0]|[(rc & s1 & H1 & _) _]]; discriminate.
Qed.

Lemma send_imessage_outcome_witness :
  exists evs,
    send_imessage fallback_ok_env (lit "ops@example.org") (lit "report") sample_world
    = (Ok true, world_with_events sample_world evs) /\
    (1 <= length (filter is_osascript evs) <= 2)%nat.
Proof.
  destruct (send_imessage_outcome fallback_ok_env (lit "ops@example.org") (lit "report")
              sample_world) as (ok & evs & Hrun & Hok & Hcount).
  assert (Htrue : ok = true).
  { apply Hok. right. split.
    - exists 1, (lit "execution error"). split; [vm_compute; reflexivity|discriminate].
    - exists []. vm_compute. reflexivity. }
  subst ok. exists evs. split; [exact Hrun|exact Hcount].
Defined.



(** ** Escaping the message *)

Lemma escape_message_chars (m : pystr) : escape_message m = flat_map escape_char m.
Proof.
  unfold escape_message, replace_char. induction m as [|c r IH]; [reflexivity|].
  cbn [flat_map]. rewrite flat_map_app, IH. f_equal.
  unfold escape_char, backslash, dquote, squote.
  destruct (c =? 34)%N eqn:H34; [reflexivity|].
  cbn [flat_map app]. destruct (c =? 39)%N; reflexivity.
Qed.

Lemma escape_char_cases (c : codepoint) :
  (escape_char c = [92%N; c] /\ (c = 34%N \/ c = 39%N)) \/
  (escape_char c = [c] /\ c <> 34%N /\ c <> 39%N).
Proof.
  unfold escape_char.
  destruct (c =? 34)%N eqn:H34.
  - apply N.eqb_eq in H34. subst c. left. auto.
  - apply N.eqb_neq in H34. destruct (c =? 39)%N eqn:H39.
    + apply N.eqb_eq in H39. subst c. left. auto.
    + apply N.eqb_neq in H39. right. auto.
Qed.

Lemma escaped_quotes_preceded (q : codepoint) (m : pystr) :
  q = 34%N \/ q = 39%N -> preceded_by_backslash q (flat_map escape_char m).
Proof.
  intros Hq. unfold preceded_by_backslash.
  induction m as [|c r IH]; intros i Hi.
  - destruct i; discriminate.
  - cbn [flat_map] in *.
    destruct (escape_char_cases c) as [[Hesc Hc]|[Hesc [Hc1 Hc2]]];
      rewrite Hesc in *; cbn [app] in *.
    + destruct i as [|[|k]]; cbn [nth_error] in Hi.
      * injection Hi as <-. destruct Hq; discriminate.
      * exists 0%nat. auto.
      * destruct (IH k Hi) as (j & -> & Hj). exists (S (S j)). auto.
    + destruct i as [|k]; cbn [nth_error] in Hi.
      * injection Hi as ->. tauto.
      * destruct (IH k Hi) as (j & -> & Hj). exists (S j). auto.
Qed.

Lemma escaped_head_not_quote (m : pystr) (q : codepoint) (rest : pystr) :
  flat_map escape_char m = q :: rest -> q <> 34%N /\ q <> 39%N.
Proof.
  destruct m as [|c r]; [discriminate|]. cbn [flat_map].
  destruct (escape_char_cases c) as [[-> Hc]|[-> [Hc1 Hc2]]]; cbn [app];
    intros H; injection H as <- _; [split; discriminate | auto].
Qed.

Lemma unescape_escaped (m : pystr) : unescape (flat_map escape_char m) = m.
Proof.
  induction m as [|c r IH]; [reflexivity|]. cbn [flat_map].
  destruct (escape_char_cases c) as [[-> Hc]|[-> [Hc1 Hc2]]]; cbn [app].
  - cbn [unescape]. rewrite N.eqb_refl.
    replace ((c =? 34)%N || (c =? 39)%N) with true
      by (destruct Hc; subst c; reflexivity).
    cbn [andb]. rewrite IH. reflexivity.
  - destruct (flat_map escape_char r) as [|q rest] eqn:Hr.
    + cbn [unescape] in *. rewrite <- IH. reflexivity.
    + destruct (escaped_head_not_quote r q rest Hr) as [Hq1 Hq2].
      change (unescape (c :: q :: rest))
        with (if (c =? 92)%N && ((q =? 34)%N || (q =? 39)%N)
              then q :: unescape rest else c :: unescape (q :: rest)).
      apply N.eqb_neq in Hq1, Hq2. rewrite Hq1, Hq2, andb_false_r, IH. reflexivity.
Qed.

Lemma escaped_length (m : pystr) :
  length (flat_map escape_char m) = (length m + count_quotes m)%nat.
Proof.
  unfold count_quotes. induction m as [|c r IH]; [reflexivity|].
  cbn [flat_map filter]. rewrite length_app, IH. unfold escape_char.
  destruct (c =? 34)%N; [simpl; lia|]. destruct (c =? 39)%N; simpl; lia.
Qed.

(** X3. In the message [send_imessage] embeds in its scripts, every double
    and every single quote has a backslash just before it; the text grows
    by one character per quote, nothing else changes (a backslash of the
    message is not doubled), and dropping the backslash before each quote
    gives the message back. *)
Theorem escape_message_quotes (m : pystr) :
  preceded_by_backslash 34 (escape_message m) /\
  preceded_by_backslash 39 (escape_message m) /\
  length (escape_message m) = (length m + count_quotes m)%nat /\
  (count_quotes m = 0%nat -> escape_message m = m) /\
  unescape (escape_message m) = m.
Proof.
  rewrite escape_message_chars.
  split; [apply escaped_quotes_preceded; auto|].
  split; [apply escaped_quotes_preceded; auto|].
  split; [apply escaped_length|].
  split; [|apply unescape_escaped].
  unfold count_quotes. induction m as [|c r IH]; [reflexivity|].
  cbn [filter flat_map]. unfold escape_char at 1.
  destruct (c =? 34)%N; [discriminate|]. destruct (c =? 39)%N; [discriminate|].
  cbn [orb app]. intros H. rewrite IH by exact H. reflexivity.
Qed.

Lemma escape_message_quotes_witness :
  count_quotes (lit "C:\temp is full") = 0%nat /\
  escape_message (lit "C:\temp is full") = lit "C:\temp is full".
Proof.
  split; [reflexivity|].
  apply (proj1 (proj2 (proj2 (proj2 (escape_message_quotes (lit "C:\temp is full")))))).
  reflexivity.
Defined.

(** ** Stripping *)

Lemma forallb_rev {A} (f : A -> bool) (l : list A) :
  forallb f (rev l) = forallb f l.
Proof.
  induction l as [|x r IH]; [reflexivity|]. simpl.
  rewrite forallb_app, IH. simpl. rewrite andb_true_r. apply andb_comm.
Qed.

Lemma dropwhile_app_all {A} (f : A -> bool) (a b : list A) :
  forallb f a = true -> dropwhile f (a ++ b) = dropwhile f b.
Proof.
  induction a as [|x r IH]; [reflexivity|]. simpl.
  intros H. apply andb_true_iff in H. destruct H as [Hx Hr].
  rewrite Hx. apply IH. exact Hr.
Qed.

Lemma dropwhile_split {A} (f : A -> bool) (l : list A) :
  exists t, l = t ++ dropwhile f l /\ forallb f t = true.
Proof.
  induction l as [|x r (t & Ht & Hf)]; [exists []; auto|]. simpl.
  destruct (f x) eqn:Hx.
  - exists (x :: t). simpl. rewrite Hx, Hf. split; [congruence | reflexivity].
  - exists []. auto.
Qed.

Lemma dropwhile_head {A} (f : A -> bool) (l : list A) (c : A) (r : list A) :
  dropwhile f l = c :: r -> f c = false.
Proof.
  induction l as [|x l IH]; [discriminate|]. simpl.
  destruct (f x) eqn:Hx; [exact IH|]. intros H. injection H as <- _. exact Hx.
Qed.

Lemma rstrip_by_app_all (f : codepoint -> bool) (a b : pystr) :
  forallb f b = true -> rstrip_by f (a ++ b) = rstrip_by f a.
Proof.
  intros H. unfold rstrip_by. rewrite rev_app_distr, dropwhile_app_all; [reflexivity|].
  rewrite forallb_rev. exact H.
Qed.

Lemma rstrip_by_snoc_stop (f : codepoint -> bool) (a : pystr) (c : codepoint) :
  f c = false -> rstrip_by f (a ++ [c]) = a ++ [c].
Proof.
  intros H. unfold rstrip_by. rewrite rev_app_distr. simpl. rewrite H.
  simpl. rewrite rev_involutive. reflexivity.
Qed.

Lemma rstrip_by_split (f : codepoint -> bool) (s : pystr) :
  exists t, s = rstrip_by f s ++ t /\ forallb f t = true.
Proof.
  destruct (dropwhile_split f (rev s)) as (t & Ht & Hf).
  exists (rev t). rewrite forallb_rev. split; [|exact Hf].
  unfold rstrip_by. rewrite <- rev_app_distr, <- Ht, rev_involutive. reflexivity.
Qed.

Lemma rstrip_by_last (f : codepoint -> bool) (s pre : pystr) (c : codepoint) :
  rstrip_by f s = pre ++ [c] -> f c = false.
Proof.
  unfold rstrip_by. intros H.
  apply (f_equal (@rev _)) in H. rewrite rev_involutive, rev_app_distr in H.
  simpl in H. exact (dropwhile_head _ _ _ _ H).
Qed.

Lemma rstrip_by_cons_stop (f : codepoint -> bool) (c : codepoint) (r : pystr) :
  f c = false -> rstrip_by f (c :: r) = c :: rstrip_by f r.
Proof.
  intros Hc. destruct (rstrip_by_split f r) as (t & Ht & Hf).
  rewrite Ht at 1. rewrite app_comm_cons, rstrip_by_app_all by exact Hf.
  destruct (rstrip_by f r) as [|x l] eqn:Hr using rev_ind.
  - apply (rstrip_by_snoc_stop f [] c Hc).
  - clear IHl. rewrite app_comm_cons. apply rstrip_by_snoc_stop.
    exact (rstrip_by_last f r l x Hr).
Qed.

(** Stripping a text framed by characters to strip gives the text, when
    the text is empty or starts and ends with other characters. *)
Lemma strip_by_framed (f : codepoint -> bool) (pre core post : pystr) :
  forallb f pre = true -> forallb f post = true ->
  core = [] \/ (starts_outside f core = true /\ ends_outside f core = true) ->
  strip_by f (pre ++ core ++ post) = core.
Proof.
  intros Hpre Hpost Hcore. unfold strip_by, lstrip_by.
  rewrite dropwhile_app_all by exact Hpre.
  destruct Hcore as [->|[Hs He]].
  - simpl. destruct (dropwhile_split f post) as (t & Ht & Hf).
    assert (Hd : dropwhile f post = []).
    { rewrite <- (app_nil_r post), dropwhile_app_all by exact Hpost. reflexivity. }
    rewrite Hd. reflexivity.
  - destruct core as [|c r]; [discriminate|]. simpl in Hs.
    apply negb_true_iff in Hs. cbn [app dropwhile]. rewrite Hs.
    rewrite app_comm_cons, rstrip_by_app_all by exact Hpost.
    unfold ends_outside in He.
    destruct (rev (c :: r)) as [|x l] eqn:Hrev; [discriminate|].
    simpl in He. apply negb_true_iff in He.
    apply (f_equal (@rev _)) in Hrev. rewrite rev_involutive in Hrev. simpl in Hrev.
    rewrite Hrev. apply rstrip_by_snoc_stop. exact He.
Qed.

(** What stripping leaves is empty, or starts and ends with characters
    that are not stripped. *)
Lemma strip_by_edges (f : codepoint -> bool) (s : pystr) :
  strip_by f s = [] \/
  (starts_outside f (strip_by f s) = true /\ ends_outside f (strip_by f s) = true).
Proof.
  unfold strip_by, lstrip_by.
  destruct (dropwhile f s) as [|c r] eqn:Hd; [left; reflexivity|].
  right. pose proof (dropwhile_head f s c r Hd) as Hc.
  rewrite rstrip_by_cons_stop by exact Hc. split; [simpl; rewrite Hc; reflexivity|].
  rewrite <- (rstrip_by_cons_stop f c r Hc).
  unfold ends_outside, rstrip_by. rewrite rev_involutive.
  destruct (dropwhile f (rev (c :: r))) as [|x l] eqn:Hx.
  - exfalso. destruct (dropwhile_split f (rev (c :: r))) as (t & Ht & Hf).
    rewrite Hx, app_nil_r in Ht. rewrite <- Ht, forallb_rev in Hf.
    simpl in Hf. rewrite Hc in Hf. discriminate.
  - simpl. rewrite (dropwhile_head f _ x l Hx). reflexivity.
Qed.

Lemma strip_by_idempotent (f : codepoint -> bool) (s : pystr) :
  strip_by f (strip_by f s) = strip_by f s.
Proof.
  pose proof (strip_by_framed f [] (strip_by f s) [] eq_refl eq_refl
                (strip_by_edges f s)) as H.
  rewrite app_nil_r in H. exact H.
Qed.

(** ** The client *)

Lemma slashes_all (n : nat) :
  forallb (fun c => existsb (N.eqb c) (lit "/")) (repeat_str (lit "/") n) = true.
Proof.
  unfold repeat_str. induction n as [|n IH]; [reflexivity|]. simpl. exact IH.
Qed.

Lemma all_slashes (t : pystr) :
  forallb (fun c => existsb (N.eqb c) (lit "/")) t = true ->
  t = repeat_str (lit "/") (length t).
Proof.
  unfold repeat_str. induction t as [|c r IH]; [reflexivity|]. simpl.
  rewrite andb_true_iff, orb_false_r, N.eqb_eq. intros [-> Hr].
  f_equal. apply IH. exact Hr.
Qed.

(** X4. The client's base URL is the tenant URL without its trailing
    slashes: it never ends with a slash, only slashes at the end are
    removed, and tenant URLs that differ in trailing slashes only give the
    same client, hence the same request URLs. *)
Theorem client_base_url_without_trailing_slash (url token : pystr) (n : nat) :
  (forall pre, base_url (DynatraceClient_init url token) <> pre ++ lit "/") /\
  (exists k, url = base_url (DynatraceClient_init url token) ++ repeat_str (lit "/") k) /\
  DynatraceClient_init (url ++ repeat_str (lit "/") n) token
  = DynatraceClient_init url token.
Proof.
  unfold DynatraceClient_init, rstrip_chars. cbn [base_url]. split; [|split].
  - intros pre H. apply rstrip_by_last in H. discriminate.
  - destruct (rstrip_by_split (fun c => existsb (N.eqb c) (lit "/")) url)
      as (t & Ht & Hf).
    exists (length t). rewrite <- (all_slashes t Hf). exact Ht.
  - rewrite rstrip_by_app_all by apply slashes_all. reflexivity.
Qed.

(** ** The gateway and synthetic checks *)

Lemma count_split {A} (f : A -> bool) (l : list A) :
  count_where f l + count_where (fun x => negb (f x)) l = Z.of_nat (length l).
Proof.
  unfold count_where. induction l as [|x r IH]; [reflexivity|]. simpl.
  destruct (f x); simpl length; lia.
Qed.

Lemma count_where_bounds {A} (f : A -> bool) (l : list A) :
  0 <= count_where f l <= Z.of_nat (length l).
Proof.
  pose proof (count_split f l). unfold count_where in *. lia.
Qed.

(** X5. When the ActiveGate check is enabled and its request does not
    raise, it reports the number of gateways, the number whose connected
    flag is true, and as offline the rest, which are the gateways whose
    flag is false or missing: offline = total - connected, and both lie
    between 0 and the total.  The offline issue is appended exactly when a
    gateway is offline; a failed request counts as no gateways at all. *)
Theorem gateway_check_counts
    (E : environment) (s : astate) (data : api_data) (G : list GatewayStatus) :
  CHECK_ACTIVEGATE_HEALTH (config_of s) = true ->
  data_of (api_answer E s (lit "activeGates") None) = Some data ->
  get_default (data_activeGates data) [] = G ->
  exists total conn off s',
    _analyze_activegate E s = (Ok (GatewayReport total conn off), s') /\
    total = Z.of_nat (length G) /\
    conn = count_where (fun g => get_default (connected g) false) G /\
    off = count_where (fun g => negb (get_default (connected g) false)) G /\
    off = total - conn /\
    0 <= conn <= total /\ 0 <= off <= total /\
    (off > 0 -> issues (self s') = issues (self s) ++ [offline_issue off]) /\
    (off = 0 -> issues (self s') = issues (self s)) /\
    (api_answer E s (lit "activeGates") None <> HttpJson data -> total = 0).
Proof.
  intros Hon Hd HG.
  destruct (get_step E s _ _ data Hd) as (s1 & Hget & Hext).
  pose proof (count_split (fun g => get_default (connected g) false) G) as Hsplit.
  pose proof (count_where_bounds (fun g => get_default (connected g) false) G) as Hb.
  unfold _analyze_activegate, get_activegates.
  unfold bind at 1. unfold gets at 1. cbn beta iota. rewrite Hon. cbn [negb].
  unfold bind at 1. unfold gets at 1. cbn beta iota.
  unfold bind at 1. rewrite Hget. cbn beta iota. rewrite HG.
  change (count_true connected G)
    with (count_where (fun g => get_default (connected g) false) G).
  change (len G) with (Z.of_nat (length G)).
  set (conn := count_where (fun g => get_default (connected g) false) G) in *.
  assert (Hempty : api_answer E s (lit "activeGates") None <> HttpJson data ->
                   Z.of_nat (length G) = 0).
  { intros Hne. destruct (api_answer E s (lit "activeGates") None) as [d|e|e];
      cbn in Hd; [congruence | | discriminate].
    injection Hd as <-. subst G. reflexivity. }
  destruct Hext as (_ & _ & Hiss).
  destruct (Z.of_nat (length G) - conn >? 0) eqn:Hpos.
  - unfold bind, ret, issues_append, modify. cbn beta iota.
    do 4 eexists. split; [reflexivity|]. cbn [self issues].
    rewrite Hiss, app_nil_r. cbn beta in Hsplit. apply Z.gtb_lt in Hpos.
    repeat split; try lia; try (intros; reflexivity); try exact Hempty.
  - unfold bind, ret. cbn beta iota.
    do 4 eexists. split; [reflexivity|].
    rewrite Hiss, app_nil_r. cbn beta in Hsplit.
    assert (Hle : Z.of_nat (length G) - conn <= 0)
      by (destruct (Z.gtb_spec (Z.of_nat (length G) - conn) 0); [discriminate | lia]).
    repeat split; try lia; try (intros; reflexivity); try exact Hempty.
Qed.

Lemma gateway_check_counts_witness :
  exists s',
    _analyze_activegate sample_env sample_astate = (Ok (GatewayReport 2 1 1), s') /\
    issues (self s') = issues (self sample_astate) ++ [offline_issue 1].
Proof.
  destruct (gateway_check_counts sample_env sample_astate sample_data
              (get_default (data_activeGates sample_data) []))
    as (total & conn & off & s' & Hrun & Ht & Hc & Ho & _ & _ & _ & Hiss & _).
  - reflexivity.
  - reflexivity.
  - reflexivity.
  - exists s'. subst total conn off. split; [exact Hrun|].
    apply Hiss. reflexivity.
Defined.

(** X6. The synthetic check never adds an issue, whatever it finds and
    however it ends.  When it is enabled and its request does not raise,
    it reports total, enabled and disabled counts with
    enabled + disabled = total, the disabled monitors being those whose
    enabled flag is false or missing. *)
Theorem synthetic_check_counts (E : environment) (s : astate) :
  (forall r s', _analyze_synthetic E s = (r, s') ->
                issues (self s') = issues (self s)) /\
  (forall data Mn,
     CHECK_SYNTHETIC_MONITORS (config_of s) = true ->
     data_of (api_answer E s (lit "synthetic/monitors") None) = Some data ->
     get_default (data_monitors data) [] = Mn ->
     exists total en dis s',
       _analyze_synthetic E s = (Ok (SyntheticReport total en dis), s') /\
       total = Z.of_nat (length Mn) /\
       en = count_where (fun m => get_default (enabled m) false) Mn /\
       dis = count_where (fun m => negb (get_default (enabled m) false)) Mn /\
       en + dis = total /\ 0 <= en /\ 0 <= dis).
Proof.
  split.
  - intros r s'. unfold _analyze_synthetic, get_synthetic_monitors, _get.
    unfold_monad. cbn beta iota.
    destruct (CHECK_SYNTHETIC_MONITORS (CONFIG (the_world s))); cbn [negb];
      cbn beta iota; [|intros H; injection H as _ <-; reflexivity].
    cbn [the_world self].
    destruct (requests_get E _ _ _) as [d|e|e]; cbn beta iota;
      intros H; injection H as _ <-; reflexivity.
  - intros data Mn Hon Hd HM.
    destruct (get_step E s _ _ data Hd) as (s1 & Hget & Hext).
    pose proof (count_split (fun m => get_default (enabled m) false) Mn) as Hsplit.
    pose proof (count_where_bounds (fun m => get_default (enabled m) false) Mn) as Hb.
    pose proof (count_where_bounds (fun m => negb (get_default (enabled m) false)) Mn)
      as Hb'.
    cbn beta in Hsplit.
    unfold _analyze_synthetic, get_synthetic_monitors.
    unfold bind at 1. unfold gets at 1. cbn beta iota. rewrite Hon. cbn [negb].
    unfold bind at 1. unfold gets at 1. cbn beta iota.
    unfold bind at 1. rewrite Hget. cbn beta iota. rewrite HM. unfold ret.
    change (count_true enabled Mn)
      with (count_where (fun m => get_default (enabled m) false) Mn).
    change (len Mn) with (Z.of_nat (length Mn)).
    do 4 eexists. split; [reflexivity|]. repeat split; lia.
Qed.

Lemma synthetic_check_counts_witness :
  exists s',
    _analyze_synthetic sample_env sample_astate = (Ok (SyntheticReport 1 1 0), s') /\
    issues (self s') = issues (self sample_astate).
Proof.
  destruct (synthetic_check_counts sample_env sample_astate) as [Hframe Hcounts].
  destruct (Hcounts sample_data (get_default (data_monitors sample_data) []))
    as (total & en & dis & s' & Hrun & Ht & He & Hd & _).
  - reflexivity.
  - reflexivity.
  - reflexivity.
  - exists s'. subst total en dis. split; [exact Hrun|].
    exact (Hframe _ _ Hrun).
Defined.

(** ** What a run of the analysis touches *)

Ltac frame_goals :=
  repeat match goal with
  | |- same_frame _ _ => unfold same_frame; cbn; auto
  | |- trace _ = trace _ ++ _ =>
      cbn [the_world trace emit_world CONFIG os_environ self];
      rewrite <- ?app_assoc, ?app_nil_r; reflexivity
  | |- quiet _ =>
      let ev := fresh "ev" in let Hin := fresh "Hin" in
      intros ev Hin; simpl in Hin;
      repeat (destruct Hin as [<-|Hin]; [cbn; auto|]); destruct Hin
  | |- issues _ = issues _ ++ _ =>
      cbn [self issues]; rewrite ?app_nil_r; reflexivity
  | |- (length _ <= _)%nat => simpl; lia
  | |- _ /\ _ => split
  end.

Lemma filters_nonneg (P : list ProblemRecord) :
  0 <= count_severity "ERROR" P /\ 0 <= count_severity "WARNING" P /\
  count_severity "ERROR" P + count_severity "WARNING" P <= Z.of_nat (length P).
Proof.
  pose proof (disjoint_filters_length _ _ P severity_error_not_warning).
  unfold count_severity. lia.
Qed.

Lemma runs_problems (E : environment) (s : astate) :
  runs (_analyze_problems E) s (problems_plan E (config_of s) (client (self s))) 1
       (fun r _ => is_problems_report r).
Proof.
  unfold runs, problems_plan, get_event, _analyze_problems, get_problems, _get.
  unfold_monad. cbn beta iota. cbn [self the_world].
  destruct (requests_get E _ _ _) as [d|e|e]; cbn beta iota.
  - set (P := get_default (data_problems d) []).
    pose proof (filters_nonneg P) as HP.
    assert (Hshape : is_problems_report
              (ProblemsReport (len P) (count_severity "ERROR" P)
                 (count_severity "WARNING" P)
                 (map (fun p => {| detail_title := title p;
                                   detail_severity := severityLevel p |})
                      (slice_to 5 P)))).
    { do 4 eexists. split; [reflexivity | exact HP]. }
    change (len (filter (fun p => opt_eqb (severityLevel p) (lit "ERROR")) P))
      with (count_severity "ERROR" P).
    change (len (filter (fun p => opt_eqb (severityLevel p) (lit "WARNING")) P))
      with (count_severity "WARNING" P).
    destruct (count_severity "ERROR" P >? 0); cbn beta iota.
    + eexists _, _, [_], [_]. split; [reflexivity|]. frame_goals.
      * reflexivity.
      * exact Hshape.
    + eexists _, _, [_], []. split; [reflexivity|]. frame_goals.
      * reflexivity.
      * exact Hshape.
  - set (P := get_default (data_problems empty_data) []).
    eexists _, _, [_; _], []. split; [reflexivity|]. frame_goals.
    + reflexivity.
    + do 4 eexists. split; [reflexivity|]. cbn. lia.
  - eexists _, _, [_], []. split; [reflexivity|]. frame_goals.
    exists []. reflexivity.
Qed.

Lemma runs_fleet (E : environment) (s : astate) :
  runs (_analyze_oneagent E) s (fleet_plan (config_of s) (client (self s))) 1
       (fun r _ => toggled (CHECK_ONEAGENT_HEALTH (config_of s)) is_fleet_report r).
Proof.
  unfold runs, fleet_plan, toggled, get_event, _analyze_oneagent, get_oneagent_info, _get.
  unfold_monad. cbn beta iota.
  destruct (CHECK_ONEAGENT_HEALTH (CONFIG (the_world s))); cbn [negb]; cbn beta iota.
  - cbn [self the_world].
    destruct (requests_get E _ _ _) as [d|e|e]; cbn beta iota.
    + destruct (tally_entities (get_default (data_entities d) [])) as [mm vv].
      destruct (len vv >? 3); cbn beta iota.
      * eexists _, _, [_], [_]. split; [reflexivity|]. frame_goals.
        -- reflexivity.
        -- do 4 eexists. reflexivity.
      * eexists _, _, [_], []. split; [reflexivity|]. frame_goals.
        -- reflexivity.
        -- do 4 eexists. reflexivity.
    + eexists _, _, [_; _], []. split; [reflexivity|]. frame_goals.
      * reflexivity.
      * do 4 eexists. reflexivity.
    + eexists _, _, [_], []. split; [reflexivity|]. frame_goals.
      exists []. reflexivity.
  - eexists _, _, [], []. split; [reflexivity|]. frame_goals; reflexivity.
Qed.

Lemma count_true_bounds {A} (flag : A -> option bool) (l : list A) :
  0 <= count_true flag l <= len l.
Proof. apply (count_where_bounds (fun x => get_default (flag x) false) l). Qed.

Lemma runs_gateway (E : environment) (s : astate) :
  runs (_analyze_activegate E) s (gateway_plan (config_of s) (client (self s))) 1
       (fun r _ => toggled (CHECK_ACTIVEGATE_HEALTH (config_of s)) is_gateway_report r).
Proof.
  unfold runs, gateway_plan, toggled, get_event, _analyze_activegate, get_activegates, _get.
  unfold_monad. cbn beta iota.
  destruct (CHECK_ACTIVEGATE_HEALTH (CONFIG (the_world s))); cbn [negb]; cbn beta iota.
  - cbn [self the_world].
    destruct (requests_get E _ _ _) as [d|e|e]; cbn beta iota.
    + set (G := get_default (data_activeGates d) []).
      pose proof (count_true_bounds connected G) as HG.
      destruct (len G - count_true connected G >? 0); cbn beta iota.
      * eexists _, _, [_], [_]. split; [reflexivity|]. frame_goals.
        -- reflexivity.
        -- do 3 eexists. split; [reflexivity|]. lia.
      * eexists _, _, [_], []. split; [reflexivity|]. frame_goals.
        -- reflexivity.
        -- do 3 eexists. split; [reflexivity|]. lia.
    + eexists _, _, [_; _], []. split; [reflexivity|]. frame_goals.
      * reflexivity.
      * do 3 eexists. split; [reflexivity|]. cbn. lia.
    + eexists _, _, [_], []. split; [reflexivity|]. frame_goals.
      exists []. reflexivity.
  - eexists _, _, [], []. split; [reflexivity|]. frame_goals; reflexivity.
Qed.

Lemma runs_synthetic (E : environment) (s : astate) :
  runs (_analyze_synthetic E) s (synthetic_plan (config_of s) (client (self s))) 0
       (fun r _ => toggled (CHECK_SYNTHETIC_MONITORS (config_of s)) is_synthetic_report r).
Proof.
  unfold runs, synthetic_plan, toggled, get_event, _analyze_synthetic,
    get_synthetic_monitors, _get.
  unfold_monad. cbn beta iota.
  destruct (CHECK_SYNTHETIC_MONITORS (CONFIG (the_world s))); cbn [negb]; cbn beta iota.
  - cbn [self the_world].
    destruct (requests_get E _ _ _) as [d|e|e]; cbn beta iota.
    + eexists _, _, [_], []. split; [reflexivity|]. frame_goals.
      * reflexivity.
      * do 3 eexists. split; [reflexivity|]. lia.
    + eexists _, _, [_; _], []. split; [reflexivity|]. frame_goals.
      * reflexivity.
      * do 3 eexists. split; [reflexivity|]. cbn. lia.
    + eexists _, _, [_], []. split; [reflexivity|]. frame_goals.
      exists []. reflexivity.
  - eexists _, _, [], []. split; [reflexivity|]. frame_goals; reflexivity.
Qed.

Lemma same_frame_refl (s : astate) : same_frame s s.
Proof. unfold same_frame. auto. Qed.

Lemma same_frame_trans (s s1 s2 : astate) :
  same_frame s s1 -> same_frame s1 s2 -> same_frame s s2.
Proof.
  unfold same_frame. intros (A1 & B1 & C1) (A2 & B2 & C2).
  rewrite A2, B2, C2. auto.
Qed.

Lemma quiet_app (a b : list event) : quiet a -> quiet b -> quiet (a ++ b).
Proof.
  unfold quiet. intros Ha Hb ev Hin. apply in_app_or in Hin. destruct Hin; auto.
Qed.

(** Sequencing two runs. *)
Lemma runs_bind {A B} (m : M astate A) (k : A -> M astate B) (s : astate)
    (p1 p2 : list event) (n1 n2 : nat)
    (Q1 : A -> astate -> Prop) (Q2 : A -> astate -> B -> astate -> Prop) :
  runs m s p1 n1 Q1 ->
  (forall a s1, same_frame s s1 -> Q1 a s1 -> runs (k a) s1 p2 n2 (Q2 a s1)) ->
  runs (bind m k) s (p1 ++ p2) (n1 + n2)
       (fun b s' => exists a s1, Q1 a s1 /\ Q2 a s1 b s').
Proof.
  intros (r & s1 & evs & new & Hm & Hf & Ht & Hq & Hi & Hn & Hr) Hk.
  unfold runs, bind. rewrite Hm. destruct r as [a|e].
  - destruct Hr as [Hp HQ].
    destruct (Hk a s1 Hf HQ) as (r2 & s2 & evs2 & new2 & Hm2 & Hf2 & Ht2 & Hq2 & Hi2 & Hn2 & Hr2).
    exists r2, s2, (evs ++ evs2), (new ++ new2). split; [exact Hm2|].
    split; [exact (same_frame_trans _ _ _ Hf Hf2)|].
    split; [rewrite Ht2, Ht, app_assoc; reflexivity|].
    split; [apply quiet_app; assumption|].
    split; [rewrite Hi2, Hi, app_assoc; reflexivity|].
    split; [rewrite length_app; lia|].
    rewrite filter_app, Hp. destruct r2 as [b|e2].
    + destruct Hr2 as [Hp2 HQ2]. rewrite Hp2. split; [reflexivity|]. eauto.
    + destruct Hr2 as [rest ->]. exists rest. rewrite app_assoc. reflexivity.
  - destruct Hr as [rest ->].
    exists (Raise e), s1, evs, new. split; [reflexivity|].
    split; [exact Hf|]. split; [exact Ht|]. split; [exact Hq|].
    split; [exact Hi|]. split; [lia|].
    exists (rest ++ p2). rewrite app_assoc. reflexivity.
Qed.

Lemma runs_weaken {A} (m : M astate A) (s : astate) (p : list event) (n n' : nat)
    (Q Q' : A -> astate -> Prop) :
  runs m s p n Q -> (n <= n')%nat -> (forall a s', Q a s' -> Q' a s') ->
  runs m s p n' Q'.
Proof.
  intros (r & s1 & evs & new & Hm & Hf & Ht & Hq & Hi & Hn & Hr) Hle HQ.
  exists r, s1, evs, new. repeat (split; [assumption || lia|]).
  destruct r; [destruct Hr; split; auto | exact Hr].
Qed.

Lemma runs_ret {A} (a : A) (s : astate) :
  runs (ret a) s [] 0 (fun b s' => b = a /\ s' = s).
Proof.
  exists (Ok a), s, [], []. split; [reflexivity|].
  split; [apply same_frame_refl|]. frame_goals; reflexivity.
Qed.

Lemma runs_logger (level : log_level) (msg : pystr) (s : astate) :
  runs (in_world (logger level msg)) s [] 0 (fun _ s' => issues (self s') = issues (self s)).
Proof.
  unfold runs. unfold_monad. cbn beta iota.
  eexists _, _, [_], []. split; [reflexivity|]. frame_goals; reflexivity.
Qed.

Lemma runs_summary (results : results_dict) (s : astate) :
  runs (_generate_summary results) s [] 0
       (fun sm s' =>
          s' = s /\
          health_score sm = Z.max 0 (Z.min 100 (raw_score results)) /\
          summary_issues sm = issues (self s) /\
          issues_count sm = Z.of_nat (length (issues (self s))) /\
          status sm = status_of_score (health_score sm)).
Proof.
  exists (Ok {| health_score := Z.max 0 (Z.min 100 (raw_score results));
                status :=
                  if Z.max 0 (Z.min 100 (raw_score results)) >=? 90 then status_healthy
                  else if Z.max 0 (Z.min 100 (raw_score results)) >=? 70
                       then status_needs_attention
                       else status_critical;
                issues_count := len (issues (self s));
                summary_issues := issues (self s) |}), s, [], [].
  split; [apply generate_summary_eq|].
  split; [apply same_frame_refl|]. frame_goals; reflexivity.
Qed.

Lemma same_frame_config (s s1 : astate) :
  same_frame s s1 -> config_of s1 = config_of s /\ client (self s1) = client (self s).
Proof. unfold same_frame, config_of. intros (A1 & B1 & _). auto. Qed.

Lemma problems_counts_of (results : results_dict) (t c w : Z) (d : list problem_detail) :
  problems results = ProblemsReport t c w d ->
  critical_of results = c /\ warnings_of results = w.
Proof. unfold critical_of, warnings_of. intros ->. split; reflexivity. Qed.

Lemma offline_of_gateway (results : results_dict) (t c o : Z) :
  activegate results = GatewayReport t c o -> offline_of results = o.
Proof. unfold offline_of. intros ->. reflexivity. Qed.

Lemma offline_of_skipped (results : results_dict) :
  activegate results = Skipped -> offline_of results = 0.
Proof. unfold offline_of. intros ->. reflexivity. Qed.

(** The score of a report with counts that are not negative needs no upper
    clamp. *)
Lemma unclamped_above (results : results_dict) :
  is_problems_report (problems results) ->
  activegate results = Skipped \/ is_gateway_report (activegate results) ->
  Z.max 0 (Z.min 100 (raw_score results))
  = Z.max 0 (100 - 10 * critical_of results - 2 * warnings_of results
             - 15 * offline_of results).
Proof.
  intros (t & c & w & d & Hp & Hc & Hw & _) Hg. unfold raw_score.
  destruct (problems_counts_of results t c w d Hp) as [-> ->].
  destruct Hg as [Hs|(t' & c' & o & Hg & _ & Ho)].
  - rewrite (offline_of_skipped results Hs). lia.
  - rewrite (offline_of_gateway results t' c' o Hg). lia.
Qed.

Lemma runs_problems_at (E : environment) (s s1 : astate) :
  same_frame s s1 ->
  runs (_analyze_problems E) s1 (problems_plan E (config_of s) (client (self s))) 1
       (fun r _ => is_problems_report r).
Proof.
  intros F. destruct (same_frame_config _ _ F) as [<- <-]. apply runs_problems.
Qed.

Lemma runs_fleet_at (E : environment) (s s1 : astate) :
  same_frame s s1 ->
  runs (_analyze_oneagent E) s1 (fleet_plan (config_of s) (client (self s))) 1
       (fun r _ => toggled (CHECK_ONEAGENT_HEALTH (config_of s)) is_fleet_report r).
Proof.
  intros F. destruct (same_frame_config _ _ F) as [<- <-]. apply runs_fleet.
Qed.

Lemma runs_gateway_at (E : environment) (s s1 : astate) :
  same_frame s s1 ->
  runs (_analyze_activegate E) s1 (gateway_plan (config_of s) (client (self s))) 1
       (fun r _ => toggled (CHECK_ACTIVEGATE_HEALTH (config_of s)) is_gateway_report r).
Proof.
  intros F. destruct (same_frame_config _ _ F) as [<- <-]. apply runs_gateway.
Qed.

Lemma runs_synthetic_at (E : environment) (s s1 : astate) :
  same_frame s s1 ->
  runs (_analyze_synthetic E) s1 (synthetic_plan (config_of s) (client (self s))) 0
       (fun r _ => toggled (CHECK_SYNTHETIC_MONITORS (config_of s)) is_synthetic_report r).
Proof.
  intros F. destruct (same_frame_config _ _ F) as [<- <-]. apply runs_synthetic.
Qed.

(** What [analyze_all] touches and returns. *)
Lemma runs_analyze_all (E : environment) (s : astate) :
  runs (analyze_all E) s (analysis_plan E (config_of s) (client (self s))) 3
       (fun results s' => analysis_post (config_of s) results s').
Proof.
  assert (H : runs (analyze_all E) s
                ([] ++ problems_plan E (config_of s) (client (self s))
                    ++ fleet_plan (config_of s) (client (self s))
                    ++ gateway_plan (config_of s) (client (self s))
                    ++ synthetic_plan (config_of s) (client (self s)) ++ [] ++ [])
                (0 + (1 + (1 + (1 + (0 + (0 + 0))))))
                (fun results s' => analysis_post (config_of s) results s')).
  2:{ unfold analysis_plan. rewrite !app_nil_r in H. exact H. }
  unfold analyze_all.
  eapply runs_weaken; [|apply Nat.le_refl|].
  - eapply runs_bind; [apply runs_logger|]. intros u0 s0 F0 Q0.
    eapply runs_bind; [apply (runs_problems_at E s s0 F0)|]. intros rp s1 F1 Qp.
    pose proof (same_frame_trans _ _ _ F0 F1) as G1.
    eapply runs_bind; [apply (runs_fleet_at E s s1 G1)|]. intros rf s2 F2 Qf.
    pose proof (same_frame_trans _ _ _ G1 F2) as G2.
    eapply runs_bind; [apply (runs_gateway_at E s s2 G2)|]. intros rg s3 F3 Qg.
    pose proof (same_frame_trans _ _ _ G2 F3) as G3.
    eapply runs_bind; [apply (runs_synthetic_at E s s3 G3)|]. intros rs s4 F4 Qs.
    eapply runs_bind; [apply runs_summary|]. intros sm s5 F5 Qsm.
    apply runs_ret.
  - cbn beta. intros results s' H.
    destruct H as (_ & _ & _ & rp & _ & Hp & rf & _ & Hf & rg & _ & Hg & rs & s4
                   & Hs & sm & s5 & (-> & Hh & Hi & Hc & Hst) & -> & ->).
    unfold analysis_post, with_summary. cbn [problems oneagent activegate synthetic summary].
    repeat (split; [assumption|]).
    exists sm. split; [reflexivity|]. split; [exact Hi|]. split; [exact Hc|].
    split; [rewrite Hh; lia|]. split; [|exact Hst]. rewrite Hh.
    rewrite unclamped_above.
    + unfold critical_of, warnings_of, offline_of. reflexivity.
    + exact Hp.
    + cbn [activegate]. unfold toggled in Hg.
      destruct (CHECK_ACTIVEGATE_HEALTH (config_of s)); auto.
Qed.

Lemma plan_length (E : environment) (cfg : config) (c : DynatraceClient) :
  (length (analysis_plan E cfg c) <= 4)%nat.
Proof.
  unfold analysis_plan, problems_plan, fleet_plan, gateway_plan, synthetic_plan.
  destruct (CHECK_ONEAGENT_HEALTH cfg), (CHECK_ACTIVEGATE_HEALTH cfg),
    (CHECK_SYNTHETIC_MONITORS cfg); simpl; lia.
Qed.

(** X7. Whatever the API answers, [analyze_all] sends the request for the
    problems and then the requests of the enabled fleet, ActiveGate and
    synthetic checks, in this order: all of them when it returns, the first
    ones when a request raises, so at most four, and never the requests of
    [get_hosts] or [get_settings].  Besides requests it only writes log
    lines; it keeps the client, [CONFIG] and [os.environ], and it appends
    at most three issues.  When it returns, the problems report is there,
    the reports of the other checks are there or skipped as their toggles
    say, and the summary holds the issues of the analyzer with a score in
    [0,100] that needed no clamping from above. *)
Theorem analysis_requests_and_frame (E : environment) (s : astate) :
  exists r s' evs new,
    analyze_all E s = (r, s') /\
    same_frame s s' /\
    trace (the_world s') = trace (the_world s) ++ evs /\
    quiet evs /\
    issues (self s') = issues (self s) ++ new /\
    (length new <= 3)%nat /\
    (length (filter is_http evs) <= 4)%nat /\
    match r with
    | Ok results =>
        filter is_http evs = analysis_plan E (config_of s) (client (self s)) /\
        analysis_post (config_of s) results s'
    | Raise _ =>
        exists rest,
          analysis_plan E (config_of s) (client (self s)) = filter is_http evs ++ rest
    end.
Proof.
  destruct (runs_analyze_all E s)
    as (r & s' & evs & new & Hm & Hf & Ht & Hq & Hi & Hn & Hr).
  exists r, s', evs, new. repeat (split; [assumption|]).
  split; [|exact Hr].
  pose proof (plan_length E (config_of s) (client (self s))) as Hl.
  destruct r as [results|e].
  - destruct Hr as [Hp _]. rewrite Hp. exact Hl.
  - destruct Hr as [rest Hrest]. rewrite Hrest, length_app in Hl. lia.
Qed.

(** What the [try] block of [generate_daily_report] comes to: the normal
    text when the analysis returns, its exception when it raises.  Reading
    the results never fails. *)
Lemma real_mode_report_run (E : environment) (timestamp : pystr) (w : world) :
  match analyze_all E (fresh_analyzer w) with
  | (Ok results, s') =>
      exists sm total critical warnings details,
        summary results = Some sm /\
        problems results = ProblemsReport total critical warnings details /\
        real_mode_report E timestamp w
        = (Ok (nl ++ normal_body timestamp sm critical warnings total
                       (oneagent results) (activegate results)),
           the_world s')
  | (Raise e, s') => real_mode_report E timestamp w = (Raise e, the_world s')
  end.
Proof.
  destruct (runs_analyze_all E (fresh_analyzer w))
    as (r & s' & evs & new & Hm & Hf & Ht & Hq & Hi & Hn & Hr).
  rewrite Hm. destruct r as [results|e].
  - destruct Hr as [_ (Hp & _ & _ & _ & sm & Hsm & _)].
    destruct Hp as (t & c & wn & d & Hp & _).
    exists sm, t, c, wn, d. split; [exact Hsm|]. split; [exact Hp|].
    unfold real_mode_report. unfold_monad. cbn beta iota.
    unfold fresh_analyzer in Hm. rewrite Hm. cbn beta iota.
    rewrite Hsm, Hp. cbn beta iota. unfold report_getitem, ret. cbn.
    unfold normal_body. rewrite <- !app_assoc. reflexivity.
  - apply real_mode_raises. exact Hm.
Qed.

(** ** What report generation touches *)

Lemma quiet_snoc_log (evs : list event) (level : log_level) (msg : pystr) :
  quiet evs -> quiet (evs ++ [EvLog level msg]).
Proof.
  intros H. apply quiet_app; [exact H|]. intros ev [<-|[]]. right. reflexivity.
Qed.

Lemma filter_http_snoc_log (evs : list event) (level : log_level) (msg : pystr) :
  filter is_http (evs ++ [EvLog level msg]) = filter is_http evs.
Proof. rewrite filter_app. simpl. apply app_nil_r. Qed.

Lemma generate_daily_report_run (E : environment) (w : world) :
  exists text w' evs,
    generate_daily_report E w = (Ok text, w') /\
    CONFIG w' = CONFIG w /\
    os_environ w' = os_environ w /\
    trace w' = trace w ++ evs /\
    quiet evs /\
    (exists rest,
       analysis_plan E (CONFIG w) (client (self (fresh_analyzer w)))
       = filter is_http evs ++ rest) /\
    (credentials_unconfigured (CONFIG w) = true -> evs = []).
Proof.
  destruct (credentials_unconfigured (CONFIG w)) eqn:Hconf.
  - exists (setup_text (now_report E)), w, [].
    split; [apply generate_unconfigured; exact Hconf|].
    rewrite app_nil_r. repeat split; auto.
    + intros ev [].
    + eexists. reflexivity.
  - pose proof (real_mode_report_run E (now_report E) w) as Hrun.
    destruct (runs_analyze_all E (fresh_analyzer w))
      as (r & s' & evs & new & Hm & Hf & Ht & Hq & Hi & Hn & Hr).
    rewrite Hm in Hrun. destruct Hf as (_ & Hc & He).
    destruct r as [results|e].
    + destruct Hrun as (sm & t & c & wn & d & _ & _ & Hreal).
      destruct Hr as [Hp _].
      eexists _, (the_world s'), evs. split.
      * unfold generate_daily_report. unfold_monad. cbn beta iota.
        rewrite Hconf. cbn beta iota. rewrite Hreal. reflexivity.
      * repeat (split; [assumption|]). split; [|discriminate].
        exists []. rewrite app_nil_r. symmetry. exact Hp.
    + eexists _, _, (evs ++ [error_log_event e]). split.
      * apply generate_error; [exact Hconf | exact Hrun].
      * cbn [world_with_events CONFIG os_environ trace].
        split; [exact Hc|]. split; [exact He|].
        split; [rewrite Ht, app_assoc; reflexivity|].
        split; [apply quiet_snoc_log; exact Hq|]. split; [|discriminate].
        unfold error_log_event. rewrite filter_http_snoc_log. exact Hr.
Qed.

(** X8. [generate_daily_report] always returns a text, and whatever the
    API answers it only sends requests and writes log lines: it runs no
    script, prints nothing, writes no file, and leaves [CONFIG] and
    [os.environ] as they were.  Its requests are a first part of the
    problems, entities, activeGates and synthetic/monitors requests, so at
    most four, and none at all when the credentials are unconfigured. *)
Theorem report_generation_effects (E : environment) (w : world) :
  exists text w' evs,
    generate_daily_report E w = (Ok text, w') /\
    CONFIG w' = CONFIG w /\
    os_environ w' = os_environ w /\
    trace w' = trace w ++ evs /\
    quiet evs /\
    (exists rest,
       analysis_plan E (CONFIG w) (client (self (fresh_analyzer w)))
       = filter is_http evs ++ rest) /\
    (length (filter is_http evs) <= 4)%nat /\
    (credentials_unconfigured (CONFIG w) = true -> evs = []).
Proof.
  destruct (generate_daily_report_run E w)
    as (text & w' & evs & H1 & H2 & H3 & H4 & H5 & [rest H6] & H7).
  exists text, w', evs. repeat (split; [assumption|]).
  split; [exists rest; exact H6|]. split; [|exact H7].
  pose proof (plan_length E (CONFIG w) (client (self (fresh_analyzer w)))) as Hl.
  rewrite H6, length_app in Hl. lia.
Qed.

(** X9. The issues of one analysis are at most three, one per check that
    can raise one, so the five-issue cap of the report never leaves an
    issue out. *)
Theorem report_shows_every_issue
    (E : environment) (w : world) (results : results_dict) (s' : astate) :
  analyze_all E (fresh_analyzer w) = (Ok results, s') ->
  exists sm,
    summary results = Some sm /\
    (length (summary_issues sm) <= 3)%nat /\
    issues_count sm <= 3 /\
    slice_to 5 (summary_issues sm) = summary_issues sm.
Proof.
  intros Hrun.
  destruct (runs_analyze_all E (fresh_analyzer w))
    as (r & s1 & evs & new & Hm & _ & _ & _ & Hi & Hn & Hr).
  rewrite Hrun in Hm. injection Hm as <- <-.
  destruct Hr as [_ (_ & _ & _ & _ & sm & Hsm & Hiss & Hcount & _)].
  cbn [fresh_analyzer self ArchitectureAnalyzer_init issues app] in Hi.
  exists sm. split; [exact Hsm|]. rewrite Hcount, Hiss, Hi.
  split; [exact Hn|]. split; [lia|].
  unfold slice_to. apply firstn_all2. lia.
Qed.

Lemma report_shows_every_issue_witness :
  exists results s' sm,
    analyze_all sample_env (fresh_analyzer configured_world) = (Ok results, s') /\
    summary results = Some sm /\
    slice_to 5 (summary_issues sm) = summary_issues sm.
Proof.
  destruct (analyze_all sample_env (fresh_analyzer configured_world))
    as [[results|e] s'] eqn:Hrun; [|vm_compute in Hrun; discriminate].
  destruct (report_shows_every_issue sample_env configured_world results s' Hrun)
    as (sm & Hsm & _ & _ & Hcap).
  exists results, s', sm. auto.
Defined.

(** ** The text of the report *)

Lemma ends_nonspace_app (a b : pystr) :
  ends_nonspace b = true -> ends_nonspace (a ++ b) = true.
Proof.
  unfold ends_nonspace. rewrite rev_app_distr. apply starts_nonspace_app.
Qed.

Lemma strip_leading_newline (core : pystr) :
  starts_nonspace core = true -> ends_nonspace core = true ->
  strip (nl ++ core) = core.
Proof.
  intros Hs He.
  pose proof (strip_by_framed py_isspace nl core [] eq_refl eq_refl
                (or_intror (conj Hs He))) as H.
  rewrite app_nil_r in H. exact H.
Qed.

Lemma normal_body_edges (timestamp : pystr) (sm : summary_dict)
    (critical warnings total : Z) (fleet gateway : check_report) :
  starts_nonspace (normal_body timestamp sm critical warnings total fleet gateway) = true /\
  ends_nonspace (normal_body timestamp sm critical warnings total fleet gateway) = true /\
  exists rest,
    normal_body timestamp sm critical warnings total fleet gateway
    = report_header timestamp ++ rest.
Proof.
  unfold normal_body. split; [reflexivity|]. split.
  - rewrite !app_assoc. apply ends_nonspace_app. reflexivity.
  - unfold report_header, normal_report, lines. cbn [join].
    change ([] ++ nl ++ ?x) with (10%N :: x). cbn [tl].
    eexists. rewrite <- !app_assoc. do 7 (apply (f_equal (app _))). reflexivity.
Qed.

(** What [generate_daily_report] returns when the credentials are set and
    the analysis returns: the normal text. *)
Lemma generate_normal (E : environment) (w : world) (results : results_dict)
    (s' : astate) :
  credentials_unconfigured (CONFIG w) = false ->
  analyze_all E (fresh_analyzer w) = (Ok results, s') ->
  exists sm total critical warnings details,
    summary results = Some sm /\
    problems results = ProblemsReport total critical warnings details /\
    generate_daily_report E w
    = (Ok (normal_body (now_report E) sm critical warnings total
             (oneagent results) (activegate results)),
       the_world s').
Proof.
  intros Hconf Hrun.
  pose proof (real_mode_report_run E (now_report E) w) as Hreal.
  rewrite Hrun in Hreal. destruct Hreal as (sm & t & c & wn & d & Hsm & Hp & Hreal).
  exists sm, t, c, wn, d. split; [exact Hsm|]. split; [exact Hp|].
  unfold generate_daily_report. unfold_monad. cbn beta iota.
  rewrite Hconf. cbn beta iota. rewrite Hreal. cbn beta iota.
  destruct (normal_body_edges (now_report E) sm c wn t (oneagent results)
              (activegate results)) as (Hs & He & _).
  rewrite strip_leading_newline by assumption. reflexivity.
Qed.

Lemma setup_text_header (timestamp : pystr) :
  exists rest, setup_text timestamp = report_header timestamp ++ rest.
Proof.
  unfold setup_text, setup_lines, report_header, lines. cbn [join].
  eexists. rewrite <- !app_assoc. do 7 (apply (f_equal (app _))). reflexivity.
Qed.

Lemma error_text_header (timestamp message : pystr) :
  exists rest, error_text timestamp message = report_header timestamp ++ rest.
Proof.
  unfold error_text, error_lines, report_header, lines. cbn [join].
  eexists. rewrite <- !app_assoc. do 7 (apply (f_equal (app _))). reflexivity.
Qed.

Lemma setup_text_edges (timestamp : pystr) :
  starts_nonspace (setup_text timestamp) = true /\
  ends_nonspace (setup_text timestamp) = true.
Proof.
  split; [reflexivity|].
  exact (lines_ends_nonspace (removelast (setup_lines timestamp))
           (last (setup_lines timestamp) []) eq_refl).
Qed.

Lemma error_text_edges (timestamp message : pystr) :
  starts_nonspace (error_text timestamp message) = true /\
  ends_nonspace (error_text timestamp message) = true.
Proof.
  split; [reflexivity|].
  exact (lines_ends_nonspace (removelast (error_lines timestamp message))
           (last (error_lines timestamp message) []) eq_refl).
Qed.

(** X10. Whatever happens, the report [generate_daily_report] returns
    starts with the title line and the line of the report time, and it has
    no white space at its start or at its end. *)
Theorem report_header_and_edges (E : environment) (w : world) :
  exists text w' rest,
    generate_daily_report E w = (Ok text, w') /\
    text = report_header (now_report E) ++ rest /\
    starts_nonspace text = true /\
    ends_nonspace text = true.
Proof.
  destruct (credentials_unconfigured (CONFIG w)) eqn:Hconf.
  - destruct (setup_text_header (now_report E)) as [rest Hrest].
    destruct (setup_text_edges (now_report E)) as [Hs He].
    exists (setup_text (now_report E)), w, rest.
    split; [apply generate_unconfigured; exact Hconf | repeat split; assumption].
  - destruct (analyze_all E (fresh_analyzer w)) as [[results|e] s'] eqn:Hrun.
    + destruct (generate_normal E w results s' Hconf Hrun)
        as (sm & t & c & wn & d & _ & _ & Hgen).
      destruct (normal_body_edges (now_report E) sm c wn t (oneagent results)
                  (activegate results)) as (Hs & He & rest & Hrest).
      eexists _, _, rest. split; [exact Hgen | repeat split; assumption].
    + destruct (error_text_header (now_report E) (str_of_exn e)) as [rest Hrest].
      destruct (error_text_edges (now_report E) (str_of_exn e)) as [Hs He].
      eexists _, _, rest.
      split; [apply generate_error; [exact Hconf|]; apply real_mode_raises; exact Hrun|].
      repeat split; assumption.
Qed.

Lemma api_answers_analysis_returns (E : environment) (s : astate) :
  api_answers E -> exists results s', analyze_all E s = (Ok results, s').
Proof.
  intros Hapi. destruct (analyze_all_summary E s Hapi) as (results & s' & _ & H & _).
  eauto.
Qed.

(** X11. Reading the results of an analysis that returned never fails, so
    the error report is given only when the analysis itself raised.  In
    particular, when the credentials are set and no request raises an
    exception other than a [RequestException] (failed connections, timeouts
    and HTTP error statuses are such), the report is the normal report, ending with
    the pointer to the release notes. *)
Theorem normal_report_unless_analysis_raises (E : environment) (w : world) :
  credentials_unconfigured (CONFIG w) = false ->
  (forall results s',
     analyze_all E (fresh_analyzer w) = (Ok results, s') ->
     exists sm total critical warnings details,
       summary results = Some sm /\
       problems results = ProblemsReport total critical warnings details /\
       generate_daily_report E w
       = (Ok (normal_body (now_report E) sm critical warnings total
                (oneagent results) (activegate results)),
          the_world s')) /\
  (api_answers E ->
   exists results s' text,
     analyze_all E (fresh_analyzer w) = (Ok results, s') /\
     generate_daily_report E w = (Ok text, the_world s') /\
     exists before, text = before ++ nl ++ fetch_dynatrace_updates).
Proof.
  intros Hconf. split.
  - intros results s' Hrun. exact (generate_normal E w results s' Hconf Hrun).
  - intros Hapi.
    destruct (api_answers_analysis_returns E (fresh_analyzer w) Hapi)
      as (results & s' & Hrun).
    destruct (generate_normal E w results s' Hconf Hrun)
      as (sm & t & c & wn & d & _ & _ & Hgen).
    eexists results, s', _. split; [exact Hrun|]. split; [exact Hgen|].
    unfold normal_body. eexists. rewrite app_assoc. reflexivity.
Qed.

Lemma normal_report_unless_analysis_raises_witness :
  exists results s' text,
    analyze_all sample_env (fresh_analyzer configured_world) = (Ok results, s') /\
    generate_daily_report sample_env configured_world = (Ok text, the_world s') /\
    exists before, text = before ++ nl ++ fetch_dynatrace_updates.
Proof.
  apply (proj2 (normal_report_unless_analysis_raises sample_env configured_world
                  eq_refl)).
  intros url hdrs params. discriminate.
Defined.

Lemma substring_app_l (n a b : pystr) : substring n a -> substring n (a ++ b).
Proof.
  intros (pre & post & ->). exists pre, (post ++ b). rewrite <- !app_assoc. reflexivity.
Qed.

Lemma substring_app_r (n a b : pystr) : substring n b -> substring n (a ++ b).
Proof.
  intros (pre & post & ->). exists (a ++ pre), post. rewrite <- !app_assoc. reflexivity.
Qed.

Lemma substring_refl (a : pystr) : substring a a.
Proof. exists [], []. rewrite app_nil_r. reflexivity. Qed.

(** A line of a block of lines occurs in the block. *)
Lemma substring_lines (l : pystr) (ls : list pystr) : In l ls -> substring l (lines ls).
Proof.
  unfold lines. induction ls as [|a r IH]; intros Hin; [destruct Hin|].
  destruct r as [|b r].
  - destruct Hin as [->|[]]. apply substring_refl.
  - change (join nl (a :: b :: r)) with (a ++ nl ++ join nl (b :: r)).
    destruct Hin as [->|Hin].
    + apply substring_app_l, substring_refl.
    + do 2 apply substring_app_r. apply IH. exact Hin.
Qed.

Lemma substring_normal_body (line timestamp : pystr) (sm : summary_dict)
    (critical warnings total : Z) (fleet gateway : check_report) :
  In line
    [ bullet ++ lit " Critical: " ++ str_of_int critical;
      bullet ++ lit " Warnings: " ++ str_of_int warnings;
      bullet ++ lit " Total: " ++ str_of_int total;
      bullet ++ lit " Total Hosts: " ++ report_get_or_na fleet "total_hosts";
      bullet ++ lit " Versions in use: " ++ report_get_or_na fleet "version_count";
      bullet ++ lit " Connected: " ++ report_get_or_na gateway "connected"
        ++ lit "/" ++ report_get_or_na gateway "total";
      status sm ++ lit " | Score: " ++ str_of_int (health_score sm) ++ lit "/100" ] ->
  substring line (normal_body timestamp sm critical warnings total fleet gateway).
Proof.
  intros Hin. unfold normal_body. apply substring_app_l.
  unfold normal_report.
  match goal with
  | |- substring _ (tl (lines ([] :: ?L))) =>
      change (tl (lines ([] :: L))) with (lines L)
  end.
  apply substring_lines. simpl in Hin. simpl.
  repeat (destruct Hin as [<-|Hin]; [tauto|]). destruct Hin.
Qed.

(** X12. In the normal report a check that was skipped shows as N/A, not
    as zero: the fleet lines read Total Hosts: N/A and Versions in use: N/A
    when the OneAgent check is off, and the gateway line reads
    Connected: N/A/N/A when the ActiveGate check is off; the problems
    lines always show the three counts of the problems report. *)
Theorem skipped_checks_show_na
    (E : environment) (w : world) (results : results_dict) (s' : astate) :
  credentials_unconfigured (CONFIG w) = false ->
  analyze_all E (fresh_analyzer w) = (Ok results, s') ->
  exists text,
    generate_daily_report E w = (Ok text, the_world s') /\
    (CHECK_ONEAGENT_HEALTH (CONFIG w) = false ->
     substring (bullet ++ lit " Total Hosts: N/A") text /\
     substring (bullet ++ lit " Versions in use: N/A") text) /\
    (CHECK_ACTIVEGATE_HEALTH (CONFIG w) = false ->
     substring (bullet ++ lit " Connected: N/A/N/A") text) /\
    (exists total critical warnings details,
       problems results = ProblemsReport total critical warnings details /\
       substring (bullet ++ lit " Critical: " ++ str_of_int critical) text /\
       substring (bullet ++ lit " Warnings: " ++ str_of_int warnings) text /\
       substring (bullet ++ lit " Total: " ++ str_of_int total) text).
Proof.
  intros Hconf Hrun.
  destruct (generate_normal E w results s' Hconf Hrun)
    as (sm & t & c & wn & d & Hsm & Hp & Hgen).
  destruct (runs_analyze_all E (fresh_analyzer w))
    as (r & s1 & evs & new & Hm & _ & _ & _ & _ & _ & Hr).
  rewrite Hrun in Hm. injection Hm as <- <-.
  destruct Hr as [_ (_ & Hfleet & Hgate & _)].
  change (config_of (fresh_analyzer w)) with (CONFIG w) in Hfleet, Hgate.
  eexists. split; [exact Hgen|]. split; [|split].
  - intros Hoff. rewrite Hoff in Hfleet. cbn in Hfleet. rewrite Hfleet.
    split; apply substring_normal_body; simpl; tauto.
  - intros Hoff. rewrite Hoff in Hgate. cbn in Hgate. rewrite Hgate.
    apply substring_normal_body. simpl. tauto.
  - exists t, c, wn, d. split; [exact Hp|].
    repeat split; apply substring_normal_body; simpl; tauto.
Qed.

Lemma skipped_checks_show_na_witness :
  exists s' text,
    generate_daily_report one_error_env configured_world = (Ok text, the_world s') /\
    substring (bullet ++ lit " Total Hosts: N/A") text /\
    substring (bullet ++ lit " Connected: N/A/N/A") text.
Proof.
  destruct (analyze_all one_error_env (fresh_analyzer configured_world))
    as [[results|e] s'] eqn:Hrun; [|vm_compute in Hrun; discriminate].
  destruct (skipped_checks_show_na one_error_env configured_world results s'
              eq_refl Hrun) as (text & Hgen & Hfleet & Hgate & _).
  exists s', text. split; [exact Hgen|].
  split; [apply Hfleet; reflexivity | apply Hgate; reflexivity].
Defined.

(** ** Failed requests and empty answers *)





















(** ** Scores and labels *)

Lemma offline_gateways_nonneg (E : environment) (s : astate) : 0 <= offline_gateways E s.
Proof.
  unfold offline_gateways. destruct (CHECK_ACTIVEGATE_HEALTH (config_of s)); [|lia].
  pose proof (count_true_bounds connected (gateways E s)). unfold len in *. lia.
Qed.

Lemma status_of_score_cases (score : Z) :
  (status_of_score score = status_healthy <-> 90 <= score) /\
  (status_of_score score = status_needs_attention <-> 70 <= score < 90) /\
  (status_of_score score = status_critical <-> score < 70).
Proof.
  unfold status_of_score.
  destruct (score >=? 90) eqn:H90; [|destruct (score >=? 70) eqn:H70].
  - repeat split; intros; try lia; try reflexivity; discriminate.
  - repeat split; intros; try lia; try reflexivity; discriminate.
  - repeat split; intros; try lia; try reflexivity; discriminate.
Qed.

(** X14. When no request raises, the score of the analysis is 100 minus
    the deductions for what the API reported, never below 0, and the upper
    bound of the clamp is never needed.  The score is 100 exactly when
    there is no ERROR problem, no WARNING problem and no offline gateway;
    the status is Healthy up to 10 points of deductions (one ERROR
    problem alone, or five WARNING problems), Needs Attention from 11 to 30
    (one offline gateway is enough), and Critical above. *)
Theorem health_status_thresholds (E : environment) (s : astate) :
  api_answers E ->
  exists results s' sm,
    analyze_all E s = (Ok results, s') /\
    summary results = Some sm /\
    0 <= deductions E s /\
    health_score sm = Z.max 0 (100 - deductions E s) /\
    (health_score sm = 100 <->
     count_severity "ERROR" (open_problems E s) = 0 /\
     count_severity "WARNING" (open_problems E s) = 0 /\
     offline_gateways E s = 0) /\
    (status sm = status_healthy <-> deductions E s <= 10) /\
    (status sm = status_needs_attention <-> 10 < deductions E s <= 30) /\
    (status sm = status_critical <-> 30 < deductions E s).
Proof.
  intros Hapi.
  destruct (analyze_all_summary E s Hapi) as (results & s' & sm & Hrun & Hsm & Hscore & _).
  destruct (runs_analyze_all E s) as (r & s1 & evs & new & Hm & _ & _ & _ & _ & _ & Hr).
  rewrite Hrun in Hm. injection Hm as <- <-.
  destruct Hr as [_ (_ & _ & _ & _ & sm' & Hsm' & _ & _ & _ & _ & Hst)].
  rewrite Hsm in Hsm'. injection Hsm' as <-.
  destruct (filters_nonneg (open_problems E s)) as (Hc & Hw & _).
  pose proof (offline_gateways_nonneg E s) as Ho.
  destruct (status_of_score_cases (health_score sm)) as (S1 & S2 & S3).
  exists results, s', sm. split; [exact Hrun|]. split; [exact Hsm|].
  unfold deductions. rewrite Hst, S1, S2, S3, Hscore.
  repeat split; intros; lia.
Qed.

Lemma health_status_thresholds_witness :
  exists results s' sm,
    analyze_all one_error_env all_off_astate = (Ok results, s') /\
    summary results = Some sm /\
    health_score sm = 90 /\ status sm = status_healthy.
Proof.
  assert (Hapi : api_answers one_error_env) by (intros url hdrs params; discriminate).
  destruct (health_status_thresholds one_error_env all_off_astate Hapi)
    as (results & s' & sm & Hrun & Hsm & _ & Hscore & _ & Hh & _).
  exists results, s', sm. split; [exact Hrun|]. split; [exact Hsm|].
  split; [rewrite Hscore; reflexivity | apply Hh; vm_compute; discriminate].
Defined.

(** ** Lines of the configuration file *)

Lemma startswith_false_no_char (s : pystr) (c : codepoint) :
  startswith s [c] = false -> forall r, s <> c :: r.
Proof.
  intros H r ->. cbn in H. rewrite N.eqb_refl in H. destruct r; discriminate.
Qed.

Lemma py_in_char (c : codepoint) (s : pystr) : py_in [c] s = true <-> In c s.
Proof.
  rewrite py_in_spec. unfold substring. split.
  - intros (pre & post & ->). apply in_or_app. right. left. reflexivity.
  - intros H. apply in_split in H. destruct H as (l1 & l2 & ->).
    exists l1, l2. reflexivity.
Qed.

Lemma dropwhile_incl {A} (f : A -> bool) (l : list A) (x : A) :
  In x (dropwhile f l) -> In x l.
Proof.
  destruct (dropwhile_split f l) as (t & Ht & _). intros H. rewrite Ht.
  apply in_or_app. right. exact H.
Qed.

Lemma strip_by_incl (f : codepoint -> bool) (s : pystr) (c : codepoint) :
  In c (strip_by f s) -> In c s.
Proof.
  unfold strip_by, lstrip_by, rstrip_by. intros H. apply in_rev in H.
  apply dropwhile_incl in H. apply in_rev in H. apply dropwhile_incl in H. exact H.
Qed.

(** X15. A line of the configuration file that is blank, that starts with
    the comment sign after the leading white space, or that holds no equals
    sign is skipped: nothing is assigned and nothing happens. *)
Theorem config_line_skipped (E : environment) (line : pystr) (w : world) :
  strip line = [] \/ startswith (strip line) (lit "#") = true \/ ~ In 61%N line ->
  load_config_line E line w = (Ok tt, w).
Proof.
  intros H. unfold load_config_line.
  destruct (strip line) as [|c r] eqn:Hs; [reflexivity|].
  destruct H as [H|[H|H]]; [discriminate| |].
  - rewrite H. reflexivity.
  - assert (Hin : py_in (lit "=") (c :: r) = false).
    { destruct (py_in (lit "=") (c :: r)) eqn:Hp; [|reflexivity].
      exfalso. apply H. apply (strip_by_incl py_isspace). fold (strip line).
      rewrite Hs. apply (py_in_char 61). exact Hp. }
    rewrite Hin, andb_false_r. reflexivity.
Qed.

Lemma config_line_skipped_witness :
  load_config_line sample_env (lit "  # DYNATRACE_API_TOKEN=abc") sample_world
  = (Ok tt, sample_world).
Proof.
  apply config_line_skipped. right. left. reflexivity.
Defined.

Lemma rstrip_by_cons_more (f : codepoint -> bool) (x y : codepoint) (l t : pystr) :
  rstrip_by f l = y :: t -> rstrip_by f (x :: l) = x :: y :: t.
Proof.
  intros Hr. destruct (rstrip_by_split f l) as (tail & Hl & Hf).
  rewrite Hl at 1. rewrite app_comm_cons, rstrip_by_app_all by exact Hf. rewrite Hr.
  destruct (exists_last (l := y :: t)) as (pre & c & Hpre); [discriminate|].
  rewrite Hpre in *. apply (rstrip_by_snoc_stop f (x :: pre) c).
  exact (rstrip_by_last f l pre c Hr).
Qed.

Lemma rstrip_by_keep (f : codepoint -> bool) (a b : pystr) (c : codepoint) :
  f c = false -> rstrip_by f (a ++ c :: b) = a ++ c :: rstrip_by f b.
Proof.
  intros Hc. induction a as [|x a IH]; [apply rstrip_by_cons_stop; exact Hc|].
  cbn [app]. destruct a as [|y a]; cbn [app] in *.
  - apply rstrip_by_cons_more. apply rstrip_by_cons_stop. exact Hc.
  - apply rstrip_by_cons_more. exact IH.
Qed.

Lemma rstrip_by_ends (f : codepoint -> bool) (a x : pystr) :
  ends_outside f x = true -> rstrip_by f (a ++ x) = a ++ x.
Proof.
  unfold ends_outside, rstrip_by. intros H. rewrite rev_app_distr.
  destruct (rev x) as [|c l] eqn:Hx; [discriminate|]. cbn in H.
  apply negb_true_iff in H. cbn [app dropwhile]. rewrite H.
  change (c :: l ++ rev a) with ((c :: l) ++ rev a).
  rewrite <- Hx, <- rev_app_distr. apply rev_involutive.
Qed.

Lemma split_once_first (sep : codepoint) (a b : pystr) :
  ~ In sep a -> split_once sep (a ++ sep :: b) = (a, Some b).
Proof.
  induction a as [|x a IH]; intros Hn; cbn [app split_once].
  - rewrite N.eqb_refl. reflexivity.
  - destruct (x =? sep)%N eqn:Hx.
    + apply N.eqb_eq in Hx. exfalso. apply Hn. left. exact Hx.
    + rewrite IH; [reflexivity|]. intros H. apply Hn. right. exact H.
Qed.

Lemma blank_no_equals (ws : pystr) : blank ws -> ~ In 61%N ws.
Proof.
  unfold blank. rewrite forallb_forall. intros H Hin. apply H in Hin. discriminate.
Qed.

Lemma starts_outside_weaken (f g : codepoint -> bool) (s : pystr) :
  (forall c, g c = true -> f c = true) ->
  starts_outside f s = true -> starts_outside g s = true.
Proof.
  intros Hfg. destruct s as [|c r]; [trivial|]. cbn.
  rewrite !negb_true_iff. intros Hf. destruct (g c) eqn:Hg; [|reflexivity].
  rewrite (Hfg c Hg) in Hf. discriminate.
Qed.

Lemma plain_value_for (g : codepoint -> bool) (v : pystr) :
  (forall c, g c = true -> is_edge c = true) -> plain_value v ->
  v = [] \/ (starts_outside g v = true /\ ends_outside g v = true).
Proof.
  intros Hg [->|[Hs He]]; [left; reflexivity|]. right. unfold ends_outside in *.
  split; apply (starts_outside_weaken is_edge g); assumption.
Qed.

Lemma space_is_edge (c : codepoint) : py_isspace c = true -> is_edge c = true.
Proof. unfold is_edge. intros ->. reflexivity. Qed.

Lemma dquote_is_edge (c : codepoint) : one_of dquote c = true -> is_edge c = true.
Proof.
  unfold is_edge, one_of. cbn. rewrite orb_false_r. intros ->.
  apply orb_true_iff. left. apply orb_true_r.
Qed.

Lemma squote_is_edge (c : codepoint) : one_of squote c = true -> is_edge c = true.
Proof.
  unfold is_edge, one_of. cbn. rewrite orb_false_r. intros ->. apply orb_true_r.
Qed.

Lemma ends_outside_snoc (f : codepoint -> bool) (a : pystr) (c : codepoint) :
  ends_outside f (a ++ [c]) = negb (f c).
Proof. unfold ends_outside. rewrite rev_app_distr. reflexivity. Qed.

Lemma ends_outside_app (f : codepoint -> bool) (a b : pystr) :
  ends_outside f b = true -> ends_outside f (a ++ b) = true.
Proof.
  unfold ends_outside. rewrite rev_app_distr.
  destruct (rev b); [discriminate | trivial].
Qed.

Lemma strip_by_self (f : codepoint -> bool) (s : pystr) :
  s = [] \/ (starts_outside f s = true /\ ends_outside f s = true) ->
  strip_by f s = s.
Proof.
  intros H. pose proof (strip_by_framed f [] s [] eq_refl eq_refl H) as Hf.
  rewrite app_nil_r in Hf. exact Hf.
Qed.

(** The value a line stores, from the text after the equals sign. *)
Lemma stored_value (ws3 q v ws4 : pystr) :
  blank ws3 -> blank ws4 -> plain_value v ->
  q = [] \/ q = dquote \/ q = squote ->
  strip_chars squote
    (strip_chars dquote (strip (rstrip_by py_isspace (ws3 ++ q ++ v ++ q ++ ws4))))
  = v.
Proof.
  intros H3 H4 Hv Hq. unfold strip_chars, strip.
  fold (one_of dquote) (one_of squote).
  pose proof (plain_value_for py_isspace v space_is_edge Hv) as Hvs.
  pose proof (plain_value_for (one_of dquote) v dquote_is_edge Hv) as Hvd.
  pose proof (plain_value_for (one_of squote) v squote_is_edge Hv) as Hvq.
  assert (Hstrip : forall x,
            x = [] \/ (starts_outside py_isspace x = true
                       /\ ends_outside py_isspace x = true) ->
            strip_by py_isspace (rstrip_by py_isspace (ws3 ++ x ++ ws4)) = x).
  { intros x [->|[Hs He]].
    - cbn [app]. rewrite rstrip_by_app_all by exact H4.
      rewrite <- (app_nil_l ws3), rstrip_by_app_all by exact H3. reflexivity.
    - rewrite app_assoc, rstrip_by_app_all by exact H4.
      rewrite rstrip_by_ends by exact He.
      pose proof (strip_by_framed py_isspace ws3 x [] H3 eq_refl
                    (or_intror (conj Hs He))) as Hf.
      rewrite app_nil_r in Hf. exact Hf. }
  destruct Hq as [ -> | [ -> | -> ] ].
  - cbn [app]. rewrite (Hstrip v Hvs).
    rewrite (strip_by_self _ v Hvd). apply strip_by_self. exact Hvq.
  - replace (ws3 ++ dquote ++ v ++ dquote ++ ws4)
      with (ws3 ++ (dquote ++ v ++ dquote) ++ ws4) by (rewrite <- !app_assoc; reflexivity).
    rewrite Hstrip.
    + rewrite (strip_by_framed (one_of dquote) dquote v dquote eq_refl eq_refl Hvd).
      apply strip_by_self. exact Hvq.
    + right. split; [reflexivity|].
      rewrite app_assoc. apply ends_outside_app. reflexivity.
  - replace (ws3 ++ squote ++ v ++ squote ++ ws4)
      with (ws3 ++ (squote ++ v ++ squote) ++ ws4) by (rewrite <- !app_assoc; reflexivity).
    rewrite Hstrip.
    + rewrite (strip_by_self (one_of dquote)).
      * apply (strip_by_framed (one_of squote) squote v squote eq_refl eq_refl Hvq).
      * right. split; [reflexivity|].
        rewrite app_assoc. apply ends_outside_app. reflexivity.
    + right. split; [reflexivity|].
      rewrite app_assoc. apply ends_outside_app. reflexivity.
Qed.

Lemma startswith_char (c d : codepoint) (x : pystr) :
  startswith (c :: x) [d] = (d =? c)%N.
Proof.
  change (startswith (c :: x) [d]) with ((d =? c)%N && startswith x []).
  destruct x; apply andb_true_r.
Qed.

Lemma strip_config_line (ws1 k ws2 ws3 q v ws4 : pystr) :
  blank ws1 -> plain_key k ->
  strip (config_line ws1 k ws2 ws3 q v ws4)
  = (k ++ ws2) ++ 61%N :: rstrip_by py_isspace (ws3 ++ q ++ v ++ q ++ ws4).
Proof.
  intros H1 (Hks & _). unfold strip, strip_by, lstrip_by, config_line.
  rewrite dropwhile_app_all by exact H1.
  destruct k as [|c r]; [discriminate|]. cbn in Hks. apply negb_true_iff in Hks.
  cbn [app dropwhile]. rewrite Hks.
  change (c :: r ++ ws2 ++ lit "=" ++ ws3 ++ q ++ v ++ q ++ ws4)
    with ((c :: r) ++ ws2 ++ 61%N :: ws3 ++ q ++ v ++ q ++ ws4).
  rewrite app_assoc. apply rstrip_by_keep. reflexivity.
Qed.

Lemma dict_get_set_same {V} (d : dict V) (k : pystr) (v : V) :
  dict_get (dict_set d k v) k = Some v.
Proof. rewrite dict_get_set, pystr_eqb_refl. reflexivity. Qed.

Lemma dict_get_set_other {V} (d : dict V) (k k' : pystr) (v : V) :
  k' <> k -> dict_get (dict_set d k v) k' = dict_get d k'.
Proof.
  intros H. rewrite dict_get_set.
  destruct (pystr_eqb k k') eqn:Hk; [|reflexivity].
  apply pystr_eqb_eq in Hk. congruence.
Qed.

(** X16. A line KEY=VALUE of the configuration file assigns VALUE to KEY
    in [os.environ]: white space around the line, the key and the value is
    dropped, and so is a pair of double or of single quotes around the
    value.  The assignment replaces an earlier value of the key and leaves
    the other keys, [CONFIG] and the trace alone; when the platform
    refuses it, the error is raised and nothing is assigned. *)
Theorem config_line_assigns
    (E : environment) (ws1 k ws2 ws3 q v ws4 : pystr) (w : world) :
  blank ws1 -> blank ws2 -> blank ws3 -> blank ws4 ->
  plain_key k -> plain_value v ->
  q = [] \/ q = dquote \/ q = squote ->
  load_config_line E (config_line ws1 k ws2 ws3 q v ws4) w = os_environ_set E k v w /\
  (os_putenv E k v = None ->
   exists w',
     load_config_line E (config_line ws1 k ws2 ws3 q v ws4) w = (Ok tt, w') /\
     dict_get (os_environ w') k = Some v /\
     (forall k', k' <> k -> dict_get (os_environ w') k' = dict_get (os_environ w) k') /\
     CONFIG w' = CONFIG w /\ trace w' = trace w) /\
  (forall e, os_putenv E k v = Some e ->
     load_config_line E (config_line ws1 k ws2 ws3 q v ws4) w = (Raise e, w)).
Proof.
  intros H1 H2 H3 H4 Hk Hv Hq.
  assert (Hload : load_config_line E (config_line ws1 k ws2 ws3 q v ws4) w
                  = os_environ_set E k v w).
  { unfold load_config_line. rewrite (strip_config_line _ _ _ _ _ _ _ H1 Hk).
    destruct Hk as (Hks & Hke & Hkeq & Hkc).
    destruct k as [|c r]; [discriminate|].
    cbn [app].
    assert (Hc : startswith (c :: (r ++ ws2) ++ 61%N
                               :: rstrip_by py_isspace (ws3 ++ q ++ v ++ q ++ ws4))
                   (lit "#") = false).
    { change (lit "#") with [35%N] in *. rewrite startswith_char in *. exact Hkc. }
    rewrite Hc. cbn [negb andb].
    assert (Hin : py_in (lit "=")
                    (c :: (r ++ ws2) ++ 61%N
                       :: rstrip_by py_isspace (ws3 ++ q ++ v ++ q ++ ws4)) = true).
    { apply (py_in_char 61). right. apply in_or_app. right. left. reflexivity. }
    rewrite Hin.
    change (c :: (r ++ ws2) ++ 61%N :: rstrip_by py_isspace (ws3 ++ q ++ v ++ q ++ ws4))
      with (((c :: r) ++ ws2) ++ 61%N
              :: rstrip_by py_isspace (ws3 ++ q ++ v ++ q ++ ws4)).
    rewrite split_once_first.
    - rewrite (stored_value ws3 q v ws4 H3 H4 Hv Hq).
      pose proof (strip_by_framed py_isspace [] (c :: r) ws2 eq_refl H2
                    (or_intror (conj Hks Hke))) as Hkey.
      cbn [app] in Hkey. unfold strip. cbn [app]. rewrite Hkey. reflexivity.
    - intros Hin'. apply in_app_or in Hin'. destruct Hin' as [Hin'|Hin'];
        [exact (Hkeq Hin') | exact (blank_no_equals ws2 H2 Hin')]. }
  split; [exact Hload|]. rewrite Hload. unfold os_environ_set. split.
  - intros ->. eexists. split; [reflexivity|]. cbn [os_environ CONFIG trace].
    split; [apply dict_get_set_same|]. split; [|auto].
    intros k' Hk'. apply dict_get_set_other. exact Hk'.
  - intros e ->. reflexivity.
Qed.

Lemma config_line_assigns_witness :
  exists w',
    load_config_line sample_env (lit "  IMESSAGE_RECIPIENT = 'ops@example.org'  ")
      sample_world = (Ok tt, w') /\
    dict_get (os_environ w') (lit "IMESSAGE_RECIPIENT") = Some (lit "ops@example.org").
Proof.
  destruct (config_line_assigns sample_env (lit "  ") (lit "IMESSAGE_RECIPIENT")
              (lit " ") (lit " ") squote (lit "ops@example.org") (lit "  ") sample_world)
    as (_ & Hok & _).
  - reflexivity.
  - reflexivity.
  - reflexivity.
  - reflexivity.
  - repeat split; try reflexivity. vm_compute. intuition discriminate.
  - right. split; reflexivity.
  - right. right. reflexivity.
  - destruct (Hok eq_refl) as (w' & Hload & Hget & _). exists w'. split; assumption.
Defined.

(** ** Loading the configuration file *)

Lemma load_config_line_frame (E : environment) (line : pystr) (w w' : world)
    (r : result unit) :
  load_config_line E line w = (r, w') -> CONFIG w' = CONFIG w /\ trace w' = trace w.
Proof.
  unfold load_config_line, os_environ_set, ret, raise, modify.
  destruct (strip line) as [|c l]; [intros H; injection H as _ <-; auto|].
  destruct (negb (startswith (c :: l) (lit "#")) && py_in (lit "=") (c :: l));
    [|intros H; injection H as _ <-; auto].
  destruct (split_once 61 (c :: l)) as [key [value|]];
    [|intros H; injection H as _ <-; auto].
  destruct (os_putenv E _ _); intros H; injection H as _ <-; auto.
Qed.

Lemma for_each_lines_frame (E : environment) (content : list pystr) (w w' : world)
    (r : result unit) :
  for_each (load_config_line E) content w = (r, w') ->
  CONFIG w' = CONFIG w /\ trace w' = trace w.
Proof.
  revert w. induction content as [|line rest IH]; intros w.
  - cbn. intros H. injection H as _ <-. auto.
  - cbn [for_each]. unfold bind.
    destruct (load_config_line E line w) as [[[]|e] w1] eqn:Hline.
    + intros H. apply IH in H. apply load_config_line_frame in Hline.
      destruct H as [-> ->]. exact Hline.
    + intros H. injection H as _ <-. exact (load_config_line_frame _ _ _ _ _ Hline).
Qed.

(** X17. Loading the configuration file can change three values of
    [CONFIG] only: the tenant URL, the API token and the recipient, each
    becoming the value of its variable in [os.environ] when there is one.
    The toggles of the checks, the lookback window and the log file are
    never changed, so a line for one of them in the file has no effect.
    Without a file nothing is reloaded; and all that is added to the trace
    is a log line. *)
Theorem config_file_reload (E : environment) (w : world) :
  (config_file E = None -> load_config_file E w = (Ok tt, w)) /\
  (forall r w',
     load_config_file E w = (r, w') ->
     CHECK_ONEAGENT_HEALTH (CONFIG w') = CHECK_ONEAGENT_HEALTH (CONFIG w) /\
     CHECK_ACTIVEGATE_HEALTH (CONFIG w') = CHECK_ACTIVEGATE_HEALTH (CONFIG w) /\
     CHECK_SYNTHETIC_MONITORS (CONFIG w') = CHECK_SYNTHETIC_MONITORS (CONFIG w) /\
     PROBLEM_LOOKBACK_HOURS (CONFIG w') = PROBLEM_LOOKBACK_HOURS (CONFIG w) /\
     LOG_FILE (CONFIG w') = LOG_FILE (CONFIG w) /\
     (exists evs, trace w' = trace w ++ evs /\
                  (length evs <= 1)%nat /\ forall ev, In ev evs -> is_log ev = true) /\
     (r = Ok tt -> config_file E <> None ->
      DYNATRACE_TENANT_URL (CONFIG w')
      = os_environ_get w' "DYNATRACE_TENANT_URL" (DYNATRACE_TENANT_URL (CONFIG w)) /\
      DYNATRACE_API_TOKEN (CONFIG w')
      = os_environ_get w' "DYNATRACE_API_TOKEN" (DYNATRACE_API_TOKEN (CONFIG w)) /\
      IMESSAGE_RECIPIENT (CONFIG w')
      = os_environ_get w' "IMESSAGE_RECIPIENT" (IMESSAGE_RECIPIENT (CONFIG w)))).
Proof.
  unfold load_config_file. split.
  - intros ->. reflexivity.
  - intros r w'. destruct (config_file E) as [content|].
    + unfold bind at 1. unfold logger at 1, modify at 1. cbn beta iota.
      unfold bind at 1.
      destruct (for_each (load_config_line E) content _) as [[[]|e] w1] eqn:Hfor;
        apply for_each_lines_frame in Hfor; destruct Hfor as [Hc Ht];
        cbn [emit_world CONFIG trace] in Hc, Ht.
      * unfold modify. intros H. injection H as <- <-.
        cbn [reload_config CONFIG trace os_environ]. rewrite Hc, Ht.
        repeat split; try reflexivity.
        eexists. split; [reflexivity|]. split; [simpl; lia|].
        intros ev [<-|[]]. reflexivity.
      * intros H. injection H as <- <-. rewrite Hc, Ht.
        repeat split; try reflexivity; try discriminate.
        eexists. split; [reflexivity|]. split; [simpl; lia|].
        intros ev [<-|[]]. reflexivity.
    + intros H. injection H as <- <-.
      repeat split; try reflexivity; try congruence.
      exists []. rewrite app_nil_r. split; [reflexivity|]. split; [simpl; lia|].
      intros ev [].
Qed.

Lemma config_file_reload_witness :
  exists w',
    load_config_file file_env sample_world = (Ok tt, w') /\
    IMESSAGE_RECIPIENT (CONFIG w') = lit "ops@example.org" /\
    dict_get (os_environ w') (lit "CHECK_ONEAGENT_HEALTH") = Some (lit "false") /\
    CHECK_ONEAGENT_HEALTH (CONFIG w') = true.
Proof.
  destruct (config_file_reload file_env sample_world) as [_ Hload].
  assert (Hrun : load_config_file file_env sample_world
                 = (Ok tt, snd (load_config_file file_env sample_world)))
    by (vm_compute; reflexivity).
  destruct (Hload _ _ Hrun) as (Htoggle & _ & _ & _ & _ & _ & Hreload).
  destruct (Hreload eq_refl) as (_ & _ & Hrecipient); [discriminate|].
  exists (snd (load_config_file file_env sample_world)).
  split; [exact Hrun|]. split; [|split].
  - rewrite Hrecipient. vm_compute. reflexivity.
  - vm_compute. reflexivity.
  - rewrite Htoggle. reflexivity.
Defined.

(** ** The orchestrator as a whole *)

Lemma send_imessage_events (E : environment) (recipient message : pystr) (w : world) :
  exists (ok : bool) (sent : list event),
    send_imessage E recipient message w = (Ok ok, world_with_events w sent) /\
    (forall ev, In ev sent -> is_osascript ev = true \/ is_log ev = true) /\
    (length (filter is_osascript sent) <= 2)%nat.
Proof.
  rewrite send_imessage_run. cbv zeta.
  destruct (osascript E (primary_script recipient (escape_message message)))
    as [rc err|e|e];
    [destruct (rc =? 0);
     [|destruct (osascript E (fallback_script recipient (escape_message message)))
         as [rc' err'|e|e]]| |];
    eexists _, _; (split; [reflexivity|]);
    (split; [intros ev Hin; simpl in Hin; intuition (subst; auto)|simpl; lia]).
Qed.






(** [main] after its report stage when the recipient is configured. *)
Lemma main_delivers (E : environment) (w w1 w2 : world) (report : pystr) (ok : bool) :
  report_stage E w = (Ok report, w1) ->
  py_in (lit "1234567890") (IMESSAGE_RECIPIENT (CONFIG w1)) = false ->
  send_imessage E (IMESSAGE_RECIPIENT (CONFIG w1)) report
    (world_with_events w1 [report_logged report]) = (Ok ok, w2) ->
  main E w =
  if ok then
    (Ok tt, world_with_events w2
              [EvLog LInfo (lit "Daily report sent successfully!"); completed])
  else
    match os_makedirs E (dirname E (backup_path E)) with
    | Some e =>
        (Raise e, world_with_events w2
                    [delivery_failed; EvMakedirs (dirname E (backup_path E))])
    | None =>
        match write_file E (backup_path E) report with
        | Some e =>
            (Raise e, world_with_events w2
                        [delivery_failed; EvMakedirs (dirname E (backup_path E));
                         EvWriteFile (backup_path E) report])
        | None => (Ok tt, world_with_events w2 (saving_events E report))
        end
    end.
Proof.
  unfold report_stage, main, makedirs, write_text. unfold_monad. cbn beta iota.
  intros Hstage Hrec Hsend.
  destruct (load_config_file E _) as [[[]|e] w3]; cbn beta iota in *; [|discriminate].
  destruct (generate_daily_report E w3) as [[rep|e] w4]; cbn beta iota in *;
    [|discriminate].
  injection Hstage as -> ->.
  cbn [CONFIG emit_world]. rewrite Hrec. cbn beta iota.
  rewrite emit_world_one. unfold report_logged in Hsend. rewrite Hsend. cbn beta iota.
  fold (backup_path E).
  destruct ok; cbn beta iota.
  - events. reflexivity.
  - destruct (os_makedirs E (dirname E (backup_path E))); cbn beta iota.
    + events. reflexivity.
    + destruct (write_file E (backup_path E) report); cbn beta iota;
        events; reflexivity.
Qed.


Lemma sent_no_file (sent : list event) :
  (forall ev, In ev sent -> is_osascript ev = true \/ is_log ev = true) ->
  forall ev, In ev sent -> is_file ev = false.
Proof. intros H ev Hin. destruct (H ev Hin); destruct ev; try discriminate; reflexivity. Qed.



(** X18. When the recipient is configured, [main] sends the report it
    generated, and what follows depends on the answer of [send_imessage]
    alone.  After a successful send nothing is written.  After a failed
    one the report is written, as it is, to the file of the current time
    under ~/dynatrace_agent/reports, whose directory is created first;
    when the directory or the file cannot be written [main] raises that
    error and never logs its completion. *)
Theorem undelivered_report_saved (E : environment) (w w1 : world) (report : pystr) :
  report_stage E w = (Ok report, w1) ->
  py_in (lit "1234567890") (IMESSAGE_RECIPIENT (CONFIG w1)) = false ->
  exists (ok : bool) (sent : list event),
    let w2 := world_with_events w1 (report_logged report :: sent) in
    send_imessage E (IMESSAGE_RECIPIENT (CONFIG w1)) report
      (world_with_events w1 [report_logged report]) = (Ok ok, w2) /\
    (forall ev, In ev sent -> is_file ev = false) /\
    (ok = true ->
     main E w
     = (Ok tt, world_with_events w2
                 [EvLog LInfo (lit "Daily report sent successfully!"); completed])) /\
    (ok = false ->
     (os_makedirs E (dirname E (backup_path E)) = None ->
      write_file E (backup_path E) report = None ->
      main E w = (Ok tt, world_with_events w2 (saving_events E report))) /\
     (forall e,
        os_makedirs E (dirname E (backup_path E)) = Some e ->
        main E w
        = (Raise e, world_with_events w2
                      [delivery_failed; EvMakedirs (dirname E (backup_path E))])) /\
     (forall e,
        os_makedirs E (dirname E (backup_path E)) = None ->
        write_file E (backup_path E) report = Some e ->
        main E w
        = (Raise e, world_with_events w2
                      [delivery_failed; EvMakedirs (dirname E (backup_path E));
                       EvWriteFile (backup_path E) report]))).
Proof.
  intros Hstage Hrec.
  destruct (send_imessage_events E (IMESSAGE_RECIPIENT (CONFIG w1)) report
              (world_with_events w1 [report_logged report]))
    as (ok & sent & Hsend & Hsent & _).
  rewrite world_with_events_app in Hsend. cbn [app] in Hsend.
  exists ok, sent. cbv zeta. split; [exact Hsend|].
  split; [exact (sent_no_file sent Hsent)|].
  pose proof (main_delivers E w w1 _ report ok Hstage Hrec Hsend) as Hmain.
  split.
  - intros ->. exact Hmain.
  - intros ->. cbn beta iota in Hmain. repeat split.
    + intros Hmk Hwr. rewrite Hmk, Hwr in Hmain. exact Hmain.
    + intros e Hmk. rewrite Hmk in Hmain. exact Hmain.
    + intros e Hmk Hwr. rewrite Hmk, Hwr in Hmain. exact Hmain.
Qed.

Lemma undelivered_report_saved_witness :
  exists report w1 sent e,
    report_stage readonly_env configured_world = (Ok report, w1) /\
    os_makedirs readonly_env (dirname readonly_env (backup_path readonly_env)) = Some e /\
    main readonly_env configured_world
    = (Raise e,
       world_with_events (world_with_events w1 (report_logged report :: sent))
         [delivery_failed;
          EvMakedirs (dirname readonly_env (backup_path readonly_env))]).
Proof.
  pose proof (undelivered_report_saved readonly_env configured_world
                (snd (report_stage readonly_env configured_world))
                (match fst (report_stage readonly_env configured_world) with
                 | Ok report => report
                 | Raise _ => []
                 end)) as H.
  destruct H as (ok & sent & Hsend & _ & _ & Hfailed).
  - vm_compute. reflexivity.
  - vm_compute. reflexivity.
  - cbv zeta in Hsend.
    assert (Hok : ok = false).
    { rewrite send_imessage_run in Hsend. cbv zeta in Hsend.
      change (osascript readonly_env _)
        with (@TimeoutExpired (Exception (lit "timed out after 30 seconds"))) in Hsend.
      cbn beta iota in Hsend. injection Hsend as <- _. reflexivity. }
    destruct (Hfailed Hok) as (_ & Hmk & _).
    eexists _, _, sent, _. split; [vm_compute; reflexivity|].
    split; [reflexivity|]. apply Hmk. reflexivity.
Defined.




(** X20. A run out of the box: without a configuration file, with a
    tenant URL or an API token that still holds YOUR_ and a recipient that
    still holds 1234567890, [main] returns after logging its start,
    printing the setup instructions between two rules and the hint to
    configure the recipient, and logging its completion.  It sends no
    request, runs no script and writes no file. *)
Theorem first_run_prints_setup (E : environment) (w : world) :
  config_file E = None ->
  credentials_unconfigured (CONFIG w) = true ->
  py_in (lit "1234567890") (IMESSAGE_RECIPIENT (CONFIG w)) = true ->
  main E w
  = (Ok tt, world_with_events w (started ++ printing_events (setup_text (now_report E)))) /\
  In (EvPrint (setup_text (now_report E))) (printing_events (setup_text (now_report E))) /\
  forall ev,
    In ev (started ++ printing_events (setup_text (now_report E))) ->
    is_http ev = false /\ is_osascript ev = false /\ is_file ev = false.
Proof.
  intros Hfile Hconf Hrec. split; [|split].
  - rewrite <- world_with_events_app. apply main_prints; [|exact Hrec].
    unfold report_stage, load_config_file. rewrite Hfile. unfold_monad. cbn beta iota.
    rewrite generate_unconfigured by exact Hconf. events. reflexivity.
  - unfold printing_events. simpl. auto.
  - intros ev Hin. unfold started, printing_events in Hin. simpl in Hin.
    intuition (subst; reflexivity).
Qed.

Lemma first_run_prints_setup_witness :
  main sample_env sample_world
  = (Ok tt,
     world_with_events sample_world
       (started ++ printing_events (setup_text (now_report sample_env)))).
Proof.
  apply (first_run_prints_setup sample_env sample_world); vm_compute; reflexivity.
Defined.
